(** * Interview session controller of [app.py]

    A shallow embedding of the Streamlit interview simulator.  Streamlit
    re-executes the script from top to bottom on every interaction; a widget
    callback ([on_click]) runs first, against the session state, and the
    script body runs after it.  One such re-execution is the function
    [script]; [rerun] puts the callback in front of it, and a session is a
    list of reruns started from [defaults].

    What the script reads from outside (widget values, the ESC probe, the
    chat input, the behaviour of the two remote calls) is gathered in [Env];
    what it shows or sends is appended, in program order, to an effect log.
    Page configuration, CSS and the two trailing [st.markdown] lines of the
    footer carry no state and are summarised by a single [Footer] effect.
    Secret resolution and the cached client (lines 37-63) run before any of
    the code below and are taken to have succeeded.

    [script] is a run that reaches its last line.  A run can also be cut
    short: an interaction that arrives while the script is still running
    ends it at its next Streamlit call, and the callback of that
    interaction runs at the start of the run that follows.  The script
    waits in one place only, the reply of lines 236-272; a run cut there is
    [cut_turn], and [run_all] is a session in which runs may be cut. *)

From Stdlib Require Import ZArith List String Ascii Bool Lia.
Import ListNotations.

Open Scope string_scope.
Open Scope Z_scope.

(** ** Data model *)

(** The three closed choices of the setup form ([st.radio], [st.selectbox]). *)
Inductive Level := Junior | Mid_level | Senior.
Inductive Position :=
  Data_Scientist | Data_Engineer | ML_Engineer | BI_Analyst | Financial_Analyst.
Inductive Company :=
  Amazon | Meta | Udemy | Company_365 | Nestle | LinkedIn | Spotify.

Definition level_label (l : Level) : string :=
  match l with
  | Junior => "Junior" | Mid_level => "Mid-level" | Senior => "Senior"
  end.

Definition position_label (p : Position) : string :=
  match p with
  | Data_Scientist => "Data Scientist" | Data_Engineer => "Data Engineer"
  | ML_Engineer => "ML Engineer" | BI_Analyst => "BI Analyst"
  | Financial_Analyst => "Financial Analyst"
  end.

Definition company_label (c : Company) : string :=
  match c with
  | Amazon => "Amazon" | Meta => "Meta" | Udemy => "Udemy"
  | Company_365 => "365 Company" | Nestle => "Nestle"
  | LinkedIn => "LinkedIn" | Spotify => "Spotify"
  end.

(** A chat message: the dict [{"role": ..., "content": ...}]. *)
Record Message := { role : string; content : string }.

(** [st.session_state], with the keys of [defaults] (lines 66-83). *)
Record SessionState := {
  setup_complete : bool;
  user_message_count : Z;
  feedback_shown : bool;
  chat_complete : bool;
  messages : list Message;
  name : string;
  experience : string;
  skills : string;
  level : Level;
  position : Position;
  company : Company;
  openai_model : string;
  stop_requested : bool;
  stopped_early : bool
}.

Definition defaults : SessionState :=
  {| setup_complete := false; user_message_count := 0;
     feedback_shown := false; chat_complete := false; messages := [];
     name := ""; experience := ""; skills := "";
     level := Junior; position := Data_Scientist; company := Amazon;
     openai_model := "gpt-4.1-mini";
     stop_requested := false; stopped_early := false |}.

(** Assignments to single keys of the session state. *)
Definition set_setup_complete (v : bool) (s : SessionState) : SessionState :=
  {| setup_complete := v; user_message_count := user_message_count s;
     feedback_shown := feedback_shown s; chat_complete := chat_complete s;
     messages := messages s; name := name s; experience := experience s;
     skills := skills s; level := level s; position := position s;
     company := company s; openai_model := openai_model s;
     stop_requested := stop_requested s; stopped_early := stopped_early s |}.

Definition set_user_message_count (v : Z) (s : SessionState) : SessionState :=
  {| setup_complete := setup_complete s; user_message_count := v;
     feedback_shown := feedback_shown s; chat_complete := chat_complete s;
     messages := messages s; name := name s; experience := experience s;
     skills := skills s; level := level s; position := position s;
     company := company s; openai_model := openai_model s;
     stop_requested := stop_requested s; stopped_early := stopped_early s |}.

Definition set_feedback_shown (v : bool) (s : SessionState) : SessionState :=
  {| setup_complete := setup_complete s;
     user_message_count := user_message_count s;
     feedback_shown := v; chat_complete := chat_complete s;
     messages := messages s; name := name s; experience := experience s;
     skills := skills s; level := level s; position := position s;
     company := company s; openai_model := openai_model s;
     stop_requested := stop_requested s; stopped_early := stopped_early s |}.

Definition set_chat_complete (v : bool) (s : SessionState) : SessionState :=
  {| setup_complete := setup_complete s;
     user_message_count := user_message_count s;
     feedback_shown := feedback_shown s; chat_complete := v;
     messages := messages s; name := name s; experience := experience s;
     skills := skills s; level := level s; position := position s;
     company := company s; openai_model := openai_model s;
     stop_requested := stop_requested s; stopped_early := stopped_early s |}.

Definition set_messages (v : list Message) (s : SessionState) : SessionState :=
  {| setup_complete := setup_complete s;
     user_message_count := user_message_count s;
     feedback_shown := feedback_shown s; chat_complete := chat_complete s;
     messages := v; name := name s; experience := experience s;
     skills := skills s; level := level s; position := position s;
     company := company s; openai_model := openai_model s;
     stop_requested := stop_requested s; stopped_early := stopped_early s |}.

Definition set_stop_requested (v : bool) (s : SessionState) : SessionState :=
  {| setup_complete := setup_complete s;
     user_message_count := user_message_count s;
     feedback_shown := feedback_shown s; chat_complete := chat_complete s;
     messages := messages s; name := name s; experience := experience s;
     skills := skills s; level := level s; position := position s;
     company := company s; openai_model := openai_model s;
     stop_requested := v; stopped_early := stopped_early s |}.

Definition set_stopped_early (v : bool) (s : SessionState) : SessionState :=
  {| setup_complete := setup_complete s;
     user_message_count := user_message_count s;
     feedback_shown := feedback_shown s; chat_complete := chat_complete s;
     messages := messages s; name := name s; experience := experience s;
     skills := skills s; level := level s; position := position s;
     company := company s; openai_model := openai_model s;
     stop_requested := stop_requested s; stopped_early := v |}.

(** The values the setup widgets return on one run (lines 111-157). *)
Record Form := {
  f_name : string;
  f_experience : string;
  f_skills : string;
  f_level : Level;
  f_position : Position;
  f_company : Company
}.

Definition set_form (f : Form) (s : SessionState) : SessionState :=
  {| setup_complete := setup_complete s;
     user_message_count := user_message_count s;
     feedback_shown := feedback_shown s; chat_complete := chat_complete s;
     messages := messages s; name := f_name f; experience := f_experience f;
     skills := f_skills f; level := f_level f; position := f_position f;
     company := f_company f; openai_model := openai_model s;
     stop_requested := stop_requested s; stopped_early := stopped_early s |}.

(** [st.session_state.messages.append(m)]. *)
Definition append_message (m : Message) (s : SessionState) : SessionState :=
  set_messages (messages s ++ [m]) s.

(** ** Callbacks (lines 89-104) *)

Definition complete_setup (s : SessionState) : SessionState :=
  set_setup_complete true s.

Definition show_feedback (s : SessionState) : SessionState :=
  set_feedback_shown true s.

Definition request_stop (s : SessionState) : SessionState :=
  let s := set_stop_requested true s in
  let s := if user_message_count s =? 0 then set_stopped_early true s else s in
  set_chat_complete true s.

(** ** The outside world of one run *)

(** The buttons of the page, by the place they are created. *)
Inductive ButtonId :=
| StartBtn        (* "Start Interview", line 159 *)
| StopBtn         (* sidebar stop button, line 190 *)
| FeedbackBtn     (* "Get Feedback", line 288 *)
| RestartEarly    (* key restart_early, line 297 *)
| RestartGuard    (* key restart_guard, line 305 *)
| RestartBtn      (* feedback screen, line 353 *)
| DownloadBtn.    (* st.download_button, line 346 *)

Definition button_eqb (a b : ButtonId) : bool :=
  match a, b with
  | StartBtn, StartBtn | StopBtn, StopBtn | FeedbackBtn, FeedbackBtn
  | RestartEarly, RestartEarly | RestartGuard, RestartGuard
  | RestartBtn, RestartBtn | DownloadBtn, DownloadBtn => true
  | _, _ => false
  end.

(** The interaction that caused the run: a button, or anything else. *)
Definition Click := option ButtonId.

Definition clicked (b : ButtonId) (c : Click) : bool :=
  match c with Some b' => button_eqb b b' | None => false end.

(** What [streamlit_js_eval] hands back for the two ESC expressions. *)
Inductive JsResult :=
| JsRaises                        (* the component is unavailable *)
| JsOther                         (* None, or any value that is not a list *)
| JsList (items : list string).

(** A streamed chunk, reduced to what line 254 reads: the [delta.content]
    of each choice ([None] when the delta or its content is missing). *)
Definition Chunk := list (option string).

(** What the [for] loop of line 248 meets: the stream yields a chunk, or
    it raises; the end of the list is the end of the stream.  The loop
    reads [stop_requested] afresh on every iteration (line 250, "Respect
    Stop from button or ESC"), so its behaviour also depends on when the
    flag is raised: [StopPressed] marks the point at which the three
    assignments of [request_stop] take effect between two iterations.
    This is the situation the test of line 250 is written for.  A click
    on the stop button does not produce it under Streamlit: the click cuts
    the run short and [request_stop] runs before the next run, which is
    [cut_turn] below.  Statements about the loop taken by itself range
    over lists with [StopPressed]; the streams a run can meet are the
    [stop_free] ones. *)
Inductive StreamEvent :=
| StopPressed
| Yield (c : Chunk)
| Raise (err : string).

Inductive CreateResult :=
| CreateRaises (err : string)
| CreateStream (events : list StreamEvent).

Inductive ScoreResult :=
| ScoreRaises (err : string)
| ScoreOk (text : string).

Record Env := {
  form : Form;
  esc_signal : JsResult;
  prompt : option string;       (* st.chat_input: None until submitted *)
  completion : CreateResult;    (* the streaming call of line 238 *)
  scoring : ScoreResult         (* the call of line 315 *)
}.

(** What a run shows or sends, in program order. *)
Inductive Effect :=
| Info (msg : string)
| Error (msg : string)
| WriteText (msg : string)
| Subheader (msg : string)
| SetupForm
| ChatBubble (r c : string)
| Placeholder (text : string)
| Button (b : ButtonId) (disabled : bool)
| EscListener
| ChatInput
| Create (model : string) (msgs : list Message) (stream : bool)
| Download (file_name data mime : string)
| Reload
| Footer (model : string).

Record World := { st : SessionState; log : list Effect }.

Definition emit (e : Effect) (w : World) : World :=
  {| st := st w; log := (log w ++ [e])%list |}.

Definition modify (f : SessionState -> SessionState) (w : World) : World :=
  {| st := f (st w); log := log w |}.

Definition when (b : bool) (f : World -> World) (w : World) : World :=
  if b then f w else w.

(** [if st.button(...): streamlit_js_eval("parent.window.location.reload()")] *)
Definition restart_button (b : ButtonId) (c : Click) (w : World) : World :=
  when (clicked b c) (emit Reload) (emit (Button b false) w).

(** ** The script *)

Definition nl : string := String (ascii_of_nat 10) EmptyString.

(** [f"{m['role']}: {m['content']}"] *)
Definition line_of (m : Message) : string :=
  role m ++ ": " ++ content m.

(** ["\n".join([... for m in messages])], lines 310-312 and 345. *)
Definition render (msgs : list Message) : string :=
  String.concat nl (map line_of msgs).

(** Python truthiness of a string. *)
Definition str_truthy (x : string) : bool :=
  match x with EmptyString => false | String _ _ => true end.

(** *** Setup stage (lines 108-160) *)

Definition setup_stage (c : Click) (e : Env) (w : World) : World :=
  if negb (setup_complete (st w)) then
    let w := modify (set_form (form e)) w in
    let w := emit SetupForm w in
    let w := emit (Button StartBtn false) w in
    when (clicked StartBtn c)
         (emit (WriteText "Setup complete. Starting interview...")) w
  else w.

(** *** Interview phase (lines 163-279) *)

(** The system prompt built at lines 172-175. *)
Definition system_prompt (s : SessionState) : string :=
  "You are an HR executive that interviews an interviewee called "
  ++ name s ++ " "
  ++ "with experience " ++ experience s ++ " and skills " ++ skills s ++ ". "
  ++ "You should interview him for the position "
  ++ level_label (level s) ++ " " ++ position_label (position s) ++ " "
  ++ "at the company " ++ company_label (company s).

(** Lines 167-178: the system message is created when the transcript is
    empty. *)
Definition init_messages (s : SessionState) : SessionState :=
  match messages s with
  | [] => set_messages [ {| role := "system"; content := system_prompt s |} ] s
  | _ :: _ => s
  end.

(** Lines 181-184. *)
Definition render_chat (w : World) : World :=
  fold_left
    (fun w m =>
       if negb (role m =? "system")%string
       then emit (ChatBubble (role m) (content m)) w else w)
    (messages (st w)) w.

(** The test of line 219 on the value of the ESC probe. *)
Definition esc_pressed (r : JsResult) : bool :=
  match r with
  | JsList [ _ ; flag ] => (flag =? "STOP_REQUESTED")%string
  | _ => false
  end.

(** Lines 199-225.  When the component raises, nothing was assigned. *)
Definition esc_listener (e : Env) (w : World) : World :=
  let w := emit EscListener w in
  if esc_pressed (esc_signal e) then
    let w := modify (set_stop_requested true) w in
    let w := when (user_message_count (st w) =? 0)
                  (modify (set_stopped_early true)) w in
    modify (set_chat_complete true) w
  else w.

(** Line 254 with its handler: the content of the first choice, [None]
    when there is no choice. *)
Definition chunk_delta (c : Chunk) : option string :=
  match c with
  | [] => None
  | d :: _ => d
  end.

(** Lines 247-261: the [for] loop over the stream, with the accumulator
    [full_response].  The stream hands over its next item before the body
    runs; the body starts with the test of the stop flag.  The result gives
    back the accumulated text, the world, and what is left in the stream.
    This is the loop when nothing cuts the run; the run that is cut while
    the loop waits is [cut_turn]. *)
Fixpoint stream_loop (evs : list StreamEvent) (full_response : string)
  (w : World) : string * World * list StreamEvent :=
  match evs with
  | [] => (full_response, w, [])
  | StopPressed :: evs' => stream_loop evs' full_response (modify request_stop w)
  | Raise err :: evs' =>
      (full_response, emit (Error ("Assistant streaming failed: " ++ err)) w, evs')
  | Yield c :: evs' =>
      if stop_requested (st w) then (full_response, w, evs')
      else
        match chunk_delta c with
        | Some delta =>
            if str_truthy delta then
              let full_response := full_response ++ delta in
              stream_loop evs' full_response (emit (Placeholder full_response) w)
            else stream_loop evs' full_response w
        | None => stream_loop evs' full_response w
        end
  end.

(** Lines 245-269, once the stream exists. *)
Definition stream_reply (evs : list StreamEvent) (w : World) : World :=
  let '(full_response, w, _) := stream_loop evs "" w in
  let w :=
    if stop_requested (st w) then
      emit (Info "Interview stopped by user.")
           (modify (set_chat_complete true) w)
    else w in
  modify (append_message {| role := "assistant"; content := full_response |}) w.

(** Lines 236-272: the outer [try] around the call and the stream. *)
Definition assistant_reply (e : Env) (w : World) : World :=
  let w := emit (Create (openai_model (st w)) (messages (st w)) true) w in
  match completion e with
  | CreateRaises err => emit (Error ("Assistant response failed: " ++ err)) w
  | CreateStream evs => stream_reply evs w
  end.

(** The two tests on the turn count, lines 228 and 235. *)
Definition acceptsInput (n : Z) : bool := n <? 5.
Definition generatesReply (n : Z) : bool := n <? 4.

(** The whole condition of line 228. *)
Definition input_gate (s : SessionState) : bool :=
  acceptsInput (user_message_count s) && negb (stop_requested s).

(** Lines 230-275, for a submitted prompt. *)
Definition user_turn (p : string) (e : Env) (w : World) : World :=
  let w := modify (append_message {| role := "user"; content := p |}) w in
  let w := emit (ChatBubble "user" p) w in
  let w := when (generatesReply (user_message_count (st w)))
                (assistant_reply e) w in
  modify (fun s => set_user_message_count (user_message_count s + 1) s) w.

(** Lines 228-229: the chat input is created only behind the gate. *)
Definition chat_input (e : Env) (w : World) : World :=
  if input_gate (st w) then
    let w := emit ChatInput w in
    match prompt e with
    | Some p => if str_truthy p then user_turn p e w else w
    | None => w
    end
  else w.

(** Lines 278-279. *)
Definition end_interview (w : World) : World :=
  when ((user_message_count (st w) >=? 5) || stop_requested (st w))
       (modify (set_chat_complete true)) w.

Definition interviewing (s : SessionState) : bool :=
  setup_complete s && negb (feedback_shown s) && negb (chat_complete s).

Definition interview_phase (e : Env) (w : World) : World :=
  if interviewing (st w) then
    let w := emit (Info "Start by introducing yourself") w in
    let w := modify init_messages w in
    let w := render_chat w in
    let w := emit (Button StopBtn (stop_requested (st w))) w in
    let w := esc_listener e w in
    let w := chat_input e w in
    end_interview w
  else w.

(** *** Feedback gate and early-stop notice (lines 282-298) *)

Definition feedback_eligible (s : SessionState) : bool :=
  chat_complete s && negb (feedback_shown s) && negb (stopped_early s)
  && (user_message_count s >? 0).

Definition get_feedback (c : Click) (w : World) : World :=
  if feedback_eligible (st w) then
    let w := emit (Button FeedbackBtn false) w in
    when (clicked FeedbackBtn c) (emit (WriteText "Fetching feedback...")) w
  else w.

Definition stopped_before_start (s : SessionState) : bool :=
  chat_complete s && negb (feedback_shown s) && stopped_early s.

Definition early_stop_notice (c : Click) (w : World) : World :=
  if stopped_before_start (st w) then
    let w := emit (Info "Interview was stopped before it began.") w in
    restart_button RestartEarly c w
  else w.

(** *** Feedback screen (lines 301-354) *)

Definition scoring_system_prompt : string :=
  "You are a helpful tool that provides feedback on an interviewee performance. "
  ++ "Before the Feedback give a score of 1 to 10." ++ nl
  ++ "Follow this format:" ++ nl
  ++ "Overal Score: //Your score" ++ nl
  ++ "Feedback: //Here you put your feedback" ++ nl
  ++ "Give only the feedback do not ask any additional questins.".

Definition scoring_user_prefix : string :=
  "This is the interview you need to evaluate. "
  ++ "Keep in mind that you are only a tool. "
  ++ "And you shouldn't engage in any converstation: ".

Definition scoring_messages (conversation_history : string) : list Message :=
  [ {| role := "system"; content := scoring_system_prompt |};
    {| role := "user"; content := scoring_user_prefix ++ conversation_history |} ].

(** The guard of line 302. *)
Definition feedback_refused (s : SessionState) : bool :=
  stopped_early s || (user_message_count s =? 0).

(** Lines 314-342: the scoring call inside its [try]. *)
Definition score_interview (e : Env) (conversation_history : string)
  (w : World) : World :=
  let w := emit (Create "gpt-4o" (scoring_messages conversation_history) false) w in
  match scoring e with
  | ScoreOk text => emit (WriteText text) w
  | ScoreRaises err => emit (Error ("Feedback generation failed: " ++ err)) w
  end.

(** The result tells whether the script goes on ([true]) or was halted by
    [st.stop()] at line 307 ([false]). *)
Definition feedback_screen (c : Click) (e : Env) (w : World) : bool * World :=
  if feedback_shown (st w) then
    if feedback_refused (st w) then
      let w :=
        emit (Info "Interview was stopped before it began. No feedback available.") w in
      (false, restart_button RestartGuard c w)
    else
      let w := emit (Subheader "Feedback") w in
      let conversation_history := render (messages (st w)) in
      let w := score_interview e conversation_history w in
      let transcript := render (messages (st w)) in
      let w := emit (Download "interview_transcript.txt" transcript "text/plain") w in
      (true, restart_button RestartBtn c w)
  else (true, w).

(** *** One run of the script, and one rerun *)

Definition script (c : Click) (e : Env) (s : SessionState) : World :=
  let w := {| st := s; log := [] |} in
  let w := setup_stage c e w in
  let w := interview_phase e w in
  let w := get_feedback c w in
  let w := early_stop_notice c w in
  let '(continue, w) := feedback_screen c e w in
  if continue then emit (Footer (openai_model (st w))) w else w.

(** The [on_click] callback of the button that was pressed. *)
Definition callback (c : Click) (s : SessionState) : SessionState :=
  match c with
  | Some StartBtn => complete_setup s
  | Some StopBtn => request_stop s
  | Some FeedbackBtn => show_feedback s
  | _ => s
  end.

Definition rerun (c : Click) (e : Env) (s : SessionState) : World :=
  script c e (callback c s).

(** A session: the successive reruns, each with its click and its
    environment.  A browser reload ([Reload]) ends the session and is not a
    step of it. *)
Definition step (s : SessionState) (ce : Click * Env) : SessionState :=
  st (rerun (fst ce) (snd ce) s).

Definition run_session (steps : list (Click * Env)) (s : SessionState)
  : SessionState :=
  fold_left step steps s.

(** The sections after the interview block, lines 282-357. *)
Definition closing_sections (c : Click) (e : Env) (w : World) : World :=
  let w := get_feedback c w in
  let w := early_stop_notice c w in
  let '(continue, w) := feedback_screen c e w in
  if continue then emit (Footer (openai_model (st w))) w else w.

(** The user message of a turn, and the turn counter after it. *)
Definition user_message (p : string) : Message :=
  {| role := "user"; content := p |}.

Definition assistant_message (t : string) : Message :=
  {| role := "assistant"; content := t |}.

Definition count_turn (s : SessionState) : SessionState :=
  set_user_message_count (user_message_count s + 1) s.

(** The interview block up to the chat input, when the ESC probe is idle. *)
Definition before_input (w : World) : World :=
  let w := emit (Info "Start by introducing yourself") w in
  let w := modify init_messages w in
  let w := render_chat w in
  let w := emit (Button StopBtn (stop_requested (st w))) w in
  emit EscListener w.

(** The world in which the reply block of a turn starts: the user message
    is stored and shown. *)
Definition turn_start (p : string) (w : World) : World :=
  emit (ChatBubble "user" p) (modify (append_message (user_message p)) w).

(** The world in which the streaming loop of a turn starts: the streaming
    call has been issued. *)
Definition reply_start (p : string) (w : World) : World :=
  let w := turn_start p w in
  emit (Create (openai_model (st w)) (messages (st w)) true) w.

(** ** Phases, read off the section guards of the script *)

(** The script has no phase variable: which section runs is decided by
    [setup_complete], [chat_complete], [feedback_shown] and
    [stopped_early] (lines 108, 163, 282-287, 291-295, 301). *)
Inductive Phase := Setup | Interviewing | Stopped | Completed | FeedbackShown.

Definition phase (s : SessionState) : Phase :=
  if feedback_shown s then FeedbackShown
  else if chat_complete s then
         (if stopped_early s then Stopped else Completed)
  else if setup_complete s then Interviewing
  else Setup.

(** ** Observations on the effect log *)

Definition is_scoring_call (x : Effect) : bool :=
  match x with Create _ _ false => true | _ => false end.

Definition scoring_calls (l : list Effect) : list Effect :=
  filter is_scoring_call l.

Definition buttons (l : list Effect) : list ButtonId :=
  flat_map (fun x => match x with Button b _ => [b] | _ => [] end) l.

(** ** Sample inputs *)

Definition quiet_form : Form :=
  {| f_name := "Ada"; f_experience := "5 years"; f_skills := "Python";
     f_level := Senior; f_position := ML_Engineer; f_company := Spotify |}.

Definition quiet : Env :=
  {| form := quiet_form; esc_signal := JsList ["OK"; ""]; prompt := None;
     completion := CreateStream []; scoring := ScoreOk "Overal Score: 7" |}.

Definition say (p : string) (evs : list StreamEvent) : Env :=
  {| form := quiet_form; esc_signal := JsList ["OK"; ""]; prompt := Some p;
     completion := CreateStream evs; scoring := ScoreOk "Overal Score: 7" |}.

Definition text (t : string) : StreamEvent := Yield [Some t].

Definition hello_world : list StreamEvent :=
  [text "Hel"; text "lo "; text "world"].

Definition brief : Message :=
  {| role := "system"; content := "You are an HR executive" |}.

(** A session in the interview phase with [n] user turns behind it. *)
Definition interview_at (n : Z) (ms : list Message) : SessionState :=
  set_user_message_count n (set_messages ms (complete_setup defaults)).

Definition failing (p err : string) : Env :=
  {| form := quiet_form; esc_signal := JsList ["OK"; ""]; prompt := Some p;
     completion := CreateRaises err; scoring := ScoreOk "Overal Score: 7" |}.

Definition unscored (err : string) : Env :=
  {| form := quiet_form; esc_signal := JsList ["OK"; ""]; prompt := None;
     completion := CreateStream []; scoring := ScoreRaises err |}.

(** ** Views of the streaming loop *)

(** The text a chunk contributes: its delta when it is a non-empty string. *)
Definition chunk_text (c : Chunk) : string :=
  match chunk_delta c with
  | Some delta => delta
  | None => ""
  end.

Definition chunks_text (cs : list Chunk) : string :=
  String.concat "" (map chunk_text cs).

Definition stop_free (evs : list StreamEvent) : Prop :=
  ~ In StopPressed evs.

(** The pair the design calls [(text, wasAborted)]: the accumulator after
    the loop and the flag tested on line 264. *)
Definition assemble (evs : list StreamEvent) (w : World) : string * bool :=
  let '(full_response, w', _) := stream_loop evs "" w in
  (full_response, stop_requested (st w')).

Definition loop_text (evs : list StreamEvent) (acc : string) (w : World) :=
  fst (fst (stream_loop evs acc w)).
Definition loop_world (evs : list StreamEvent) (acc : string) (w : World) :=
  snd (fst (stream_loop evs acc w)).
Definition loop_rest (evs : list StreamEvent) (acc : string) (w : World) :=
  snd (stream_loop evs acc w).

Definition is_call (x : Effect) : bool :=
  match x with Create _ _ _ => true | _ => false end.

(** ** The mutations a rerun is made of *)

(** The interview block has created the transcript. *)
Definition ready (s : SessionState) : Prop :=
  setup_complete s = true /\ messages s <> [].

(** Every assignment to the session state that occurs in the script or in
    a callback, with the guard under which the script reaches it. *)
Inductive mutates : SessionState -> SessionState -> Prop :=
| mut_form s f :
    setup_complete s = false -> mutates s (set_form f s)
| mut_setup s : mutates s (complete_setup s)
| mut_feedback s : mutates s (show_feedback s)
| mut_stop s : mutates s (request_stop s)
| mut_init s :
    setup_complete s = true -> mutates s (init_messages s)
| mut_append s r c :
    ready s -> r <> "system" ->
    mutates s (append_message {| role := r; content := c |} s)
| mut_count s :
    ready s ->
    mutates s (set_user_message_count (user_message_count s + 1) s)
| mut_complete s : mutates s (set_chat_complete true s).

Inductive evolves : SessionState -> SessionState -> Prop :=
| ev_refl s : evolves s s
| ev_step s s' s'' : mutates s s' -> evolves s' s'' -> evolves s s''.

(** Flags only ever rise and the turn count only grows; [stopped_early]
    can only appear on a session that has no user turn yet. *)
Definition advances (s s' : SessionState) : Prop :=
  (setup_complete s = true -> setup_complete s' = true)
  /\ (feedback_shown s = true -> feedback_shown s' = true)
  /\ (chat_complete s = true -> chat_complete s' = true)
  /\ (stop_requested s = true -> stop_requested s' = true)
  /\ (stopped_early s = true -> stopped_early s' = true)
  /\ user_message_count s <= user_message_count s'
  /\ (stopped_early s' = true ->
      stopped_early s = true \/ user_message_count s <= 0).

(** Shape of the transcript: empty, or one system message followed by
    user and assistant messages only. *)
Definition transcript_ok (ms : list Message) : Prop :=
  match ms with
  | [] => True
  | m :: rest =>
      role m = "system" /\ Forall (fun x => role x <> "system") rest
  end.

Definition well_formed (s : SessionState) : Prop :=
  transcript_ok (messages s)
  /\ (user_message_count s <> 0 -> setup_complete s = true)
  /\ 0 <= user_message_count s.

(** The chat bubbles of lines 181-184. *)
Definition chat_bubbles (ms : list Message) : list Effect :=
  flat_map
    (fun m => if negb (role m =? "system")%string
              then [ChatBubble (role m) (content m)] else [])
    ms.

(** ** The two stop trigger sources *)

Inductive StopSource := StopButton | EscKey.

Definition esc_env : Env :=
  {| form := quiet_form; esc_signal := JsList ["OK"; "STOP_REQUESTED"];
     prompt := None; completion := CreateStream [];
     scoring := ScoreOk "Overal Score: 7" |}.

(** What a trigger does to the session state: the callback of the stop
    button, or the ESC block of lines 219-223. *)
Definition stop_via (src : StopSource) (s : SessionState) : SessionState :=
  match src with
  | StopButton => callback (Some StopBtn) s
  | EscKey => st (esc_listener esc_env {| st := s; log := [] |})
  end.

(** ** Sessions without a stop *)


(** The session after [n] accepted turns and no stop request. *)
Definition at_turn (n : Z) (s : SessionState) : Prop :=
  setup_complete s = true
  /\ feedback_shown s = false
  /\ stop_requested s = false
  /\ stopped_early s = false
  /\ user_message_count s = n
  /\ chat_complete s = (n >=? 5).


(** The lines of a transcript after the first one. *)
Definition following_lines (ms : list Message) : string :=
  fold_right (fun m acc => nl ++ line_of m ++ acc) "" ms.

(** ** Statements to be compared with the code *)

(** "Poll, then pull": with the stop flag already set, the loop would give
    back the accumulated text and leave every fragment in the stream. *)
Definition stops_without_pulling : Prop :=
  forall (cs : list Chunk) (acc : string) (w : World),
    stop_requested (st w) = true ->
    stream_loop (map Yield cs) acc w = (acc, w, map Yield cs).

(** "Every attempted reply is persisted": whenever the reply gate is open
    on an accepted turn, the transcript gains the user message and an
    assistant message. *)
Definition reply_always_persisted : Prop :=
  forall (w : World) (e : Env) (p : string),
    input_gate (st w) = true -> prompt e = Some p -> str_truthy p = true ->
    generatesReply (user_message_count (st w)) = true ->
    exists t,
      messages (st (chat_input e w))
      = (messages (st w) ++ [user_message p; assistant_message t])%list.

(** "A failed scoring call leaves the phase where it was." *)
Definition failure_keeps_phase : Prop :=
  forall (s : SessionState) (e : Env) (err : string),
    setup_complete s = true -> feedback_eligible s = true ->
    scoring e = ScoreRaises err ->
    phase (st (rerun (Some FeedbackBtn) e s)) = phase s.

(** ** Before the script body: secrets, client, session keys *)

(** Python truthiness of an optional string. *)
Definition opt_truthy (x : option string) : bool :=
  match x with None => false | Some t => str_truthy t end.

(** Where secrets come from: [os.getenv] gives [None] for an unset
    variable, and [st.secrets[name]] raises (here [None]) when there is no
    secrets file or no such key. *)
Record Host := {
  getenv : string -> option string;
  secrets : string -> option string
}.

(** [get_required_secret] either returns the value or shows an error and
    halts the run with [st.stop()]. *)
Inductive Resolved :=
| Halted (error : string)
| Secret (value : string).

Definition missing_secret (name : string) : string :=
  "Missing required secret: " ++ name ++ ". "
  ++ "Set it as an environment variable locally or in Streamlit Cloud (Advanced settings → Secrets).".

(** Lines 37-53. *)
Definition get_required_secret (h : Host) (name : string) : Resolved :=
  let value := getenv h name in
  let value := if negb (opt_truthy value) then secrets h name else value in
  match value with
  | Some v => if str_truthy v then Secret v else Halted (missing_secret name)
  | None => Halted (missing_secret name)
  end.


(** [st.session_state] as the dictionary it is. *)
Inductive Value :=
| VBool (b : bool)
| VInt (n : Z)
| VStr (t : string)
| VMessages (ms : list Message).

Definition Store := list (string * Value).

Fixpoint store_get (k : string) (d : Store) : option Value :=
  match d with
  | [] => None
  | (k', v) :: d' => if (k =? k')%string then Some v else store_get k d'
  end.

Definition store_has (k : string) (d : Store) : bool :=
  match store_get k d with Some _ => true | None => false end.

(** The dictionary [defaults] of lines 66-83. *)
Definition default_items : Store :=
  [ ("setup_complete", VBool false);
    ("user_message_count", VInt 0);
    ("feedback_shown", VBool false);
    ("chat_complete", VBool false);
    ("messages", VMessages []);
    ("name", VStr "");
    ("experience", VStr "");
    ("skills", VStr "");
    ("level", VStr "Junior");
    ("position", VStr "Data Scientist");
    ("company", VStr "Amazon");
    ("openai_model", VStr "gpt-4.1-mini");
    ("stop_requested", VBool false);
    ("stopped_early", VBool false) ].

(** Lines 84-86: [if k not in st.session_state: st.session_state[k] = v]. *)
Definition set_default (d : Store) (kv : string * Value) : Store :=
  if store_has (fst kv) d then d else (d ++ [kv])%list.

Definition apply_defaults (d : Store) : Store :=
  fold_left set_default default_items d.

(** The record view of the dictionary. *)
Definition save (s : SessionState) : Store :=
  [ ("setup_complete", VBool (setup_complete s));
    ("user_message_count", VInt (user_message_count s));
    ("feedback_shown", VBool (feedback_shown s));
    ("chat_complete", VBool (chat_complete s));
    ("messages", VMessages (messages s));
    ("name", VStr (name s));
    ("experience", VStr (experience s));
    ("skills", VStr (skills s));
    ("level", VStr (level_label (level s)));
    ("position", VStr (position_label (position s)));
    ("company", VStr (company_label (company s)));
    ("openai_model", VStr (openai_model s));
    ("stop_requested", VBool (stop_requested s));
    ("stopped_early", VBool (stopped_early s)) ].

Definition level_of_label (t : string) : option Level :=
  if (t =? "Junior")%string then Some Junior
  else if (t =? "Mid-level")%string then Some Mid_level
  else if (t =? "Senior")%string then Some Senior
  else None.

Definition position_of_label (t : string) : option Position :=
  if (t =? "Data Scientist")%string then Some Data_Scientist
  else if (t =? "Data Engineer")%string then Some Data_Engineer
  else if (t =? "ML Engineer")%string then Some ML_Engineer
  else if (t =? "BI Analyst")%string then Some BI_Analyst
  else if (t =? "Financial Analyst")%string then Some Financial_Analyst
  else None.

Definition company_of_label (t : string) : option Company :=
  if (t =? "Amazon")%string then Some Amazon
  else if (t =? "Meta")%string then Some Meta
  else if (t =? "Udemy")%string then Some Udemy
  else if (t =? "365 Company")%string then Some Company_365
  else if (t =? "Nestle")%string then Some Nestle
  else if (t =? "LinkedIn")%string then Some LinkedIn
  else if (t =? "Spotify")%string then Some Spotify
  else None.

Definition get_bool (k : string) (d : Store) : option bool :=
  match store_get k d with Some (VBool b) => Some b | _ => None end.

Definition get_int (k : string) (d : Store) : option Z :=
  match store_get k d with Some (VInt n) => Some n | _ => None end.

Definition get_str (k : string) (d : Store) : option string :=
  match store_get k d with Some (VStr t) => Some t | _ => None end.

Definition get_messages (k : string) (d : Store) : option (list Message) :=
  match store_get k d with Some (VMessages ms) => Some ms | _ => None end.

Definition bind {A B : Type} (x : option A) (f : A -> option B) : option B :=
  match x with Some a => f a | None => None end.

(** Reading the fourteen keys back; [None] when a key is missing or holds
    a value of another kind. *)
Definition load (d : Store) : option SessionState :=
  bind (get_bool "setup_complete" d) (fun sc =>
  bind (get_int "user_message_count" d) (fun n =>
  bind (get_bool "feedback_shown" d) (fun fs =>
  bind (get_bool "chat_complete" d) (fun cc =>
  bind (get_messages "messages" d) (fun ms =>
  bind (get_str "name" d) (fun nm =>
  bind (get_str "experience" d) (fun ex =>
  bind (get_str "skills" d) (fun sk =>
  bind (bind (get_str "level" d) level_of_label) (fun lv =>
  bind (bind (get_str "position" d) position_of_label) (fun ps =>
  bind (bind (get_str "company" d) company_of_label) (fun co =>
  bind (get_str "openai_model" d) (fun om =>
  bind (get_bool "stop_requested" d) (fun sr =>
  bind (get_bool "stopped_early" d) (fun se =>
  Some {| setup_complete := sc; user_message_count := n;
          feedback_shown := fs; chat_complete := cc; messages := ms;
          name := nm; experience := ex; skills := sk; level := lv;
          position := ps; company := co; openai_model := om;
          stop_requested := sr; stopped_early := se |})))))))))))))).




(** ** Runs cut short *)

Definition all_chunks (evs : list StreamEvent) : bool :=
  forallb (fun ev => match ev with Yield _ => true | _ => false end) evs.

(** Streamlit does not run a callback inside a running script.  An
    interaction that arrives while a run is under way ends that run at its
    next Streamlit call, with an exception that is not an [Exception]:
    neither handler of lines 255-272 catches it, and what follows the call
    does not run.  The callback of the interaction runs at the start of the
    next run.  The script waits in one place, the reply: the streaming
    call of line 238 and the loop of lines 247-261, which calls
    [placeholder.markdown] for every chunk with text.  A run cut there has
    stored the user message (line 230) and has reached neither line 269
    nor line 275.

    [cut_turn e s k] is the world such a run leaves, started on [s] (the
    callback has run) and cut when the loop had taken [k] chunks; on the
    fifth turn, which has no reply, the cut falls after the user bubble of
    lines 231-232.  [None] when the run does not get that far: it is not
    in the interview, the ESC probe stops it, the input gate is closed,
    nothing was submitted, the call itself raised, or the stream raised
    within its first [k] items. *)
Definition cut_turn (e : Env) (s : SessionState) (k : nat) : option World :=
  if interviewing s && negb (esc_pressed (esc_signal e)) && input_gate s then
    match prompt e with
    | Some p =>
        if str_truthy p then
          let w := emit ChatInput (before_input {| st := s; log := [] |}) in
          if generatesReply (user_message_count s) then
            match completion e with
            | CreateStream evs =>
                let seen := firstn k evs in
                if all_chunks seen
                then Some (loop_world seen "" (reply_start p w))
                else None
            | CreateRaises _ => None
            end
          else match k with
               | O => Some (turn_start p w)
               | S _ => None
               end
        else None
    | None => None
    end
  else None.

(** A run of a session: one that reaches its last line, or one that is
    cut short during the reply. *)
Inductive Rerun :=
| Whole (c : Click) (e : Env)
| CutShort (c : Click) (e : Env) (k : nat).

Definition run_one (s : SessionState) (r : Rerun) : World :=
  match r with
  | Whole c e => rerun c e s
  | CutShort c e k =>
      match cut_turn e (callback c s) k with
      | Some w => w
      | None => rerun c e s
      end
  end.

Definition run_all (rs : list Rerun) (s : SessionState) : SessionState :=
  fold_left (fun s r => st (run_one s r)) rs s.

Definition whole (r : Rerun) : bool :=
  match r with Whole _ _ => true | CutShort _ _ _ => false end.

(** ** The state a run leaves *)

(** The state part of lines 278-279. *)
Definition close_interview (s : SessionState) : SessionState :=
  if (user_message_count s >=? 5) || stop_requested s
  then set_chat_complete true s else s.

(** The states in which a run of the script on [s] that reaches its last
    line can end: the setup stage stores the form; outside the interview
    nothing changes; in the interview the ESC key stops it, or no message
    is taken, or one user turn is played, with or without a reply. *)
Inductive whole_outcome (s : SessionState) : SessionState -> Prop :=
| out_setup f :
    setup_complete s = false -> whole_outcome s (set_form f s)
| out_idle :
    setup_complete s = true -> interviewing s = false -> whole_outcome s s
| out_esc :
    interviewing s = true -> whole_outcome s (request_stop (init_messages s))
| out_wait :
    interviewing s = true ->
    whole_outcome s (close_interview (init_messages s))
| out_turn p reply :
    interviewing s = true -> input_gate s = true -> str_truthy p = true ->
    reply = []
    \/ (generatesReply (user_message_count s) = true
        /\ exists t, reply = [assistant_message t]) ->
    whole_outcome s
      (close_interview
         (count_turn
            (set_messages
               (messages (init_messages s) ++ user_message p :: reply)
               (init_messages s)))).

(** The states in which a run of the script on [s] can end: it reaches its
    last line, or it is cut short after the user message was stored
    (between line 230 and line 275); then the message stays, no reply is
    kept and the turn is not counted. *)
Inductive run_outcome (s : SessionState) : SessionState -> Prop :=
| out_whole s' : whole_outcome s s' -> run_outcome s s'
| out_cut p :
    interviewing s = true -> input_gate s = true -> str_truthy p = true ->
    run_outcome s (append_message (user_message p) (init_messages s)).

(** The state lines 247-275 would leave if the stop flag were raised
    between two iterations of the loop ([StopPressed]): line 250 finds it
    set, lines 264-266 close the interview, and lines 269 and 275 still
    run.  No interaction has this effect under Streamlit, where a click
    gives [out_cut]; the case is kept apart from [run_outcome] so that
    what is proved for every environment covers it as well. *)
Inductive flag_outcome (s : SessionState) : SessionState -> Prop :=
| out_flag p t :
    interviewing s = true -> input_gate s = true -> str_truthy p = true ->
    generatesReply (user_message_count s) = true ->
    flag_outcome s
      (close_interview
         (count_turn
            (set_messages
               (messages (init_messages s)
                ++ [user_message p; assistant_message t])
               (request_stop (init_messages s))))).

(** ** What the page offers *)

(** What a run adds to the page after the interview block, as a function
    of the state the block left (lines 282-357). *)
Definition restart_log (b : ButtonId) (c : Click) : list Effect :=
  Button b false :: (if clicked b c then [Reload] else []).

Definition closing_log (c : Click) (e : Env) (s : SessionState)
  : list Effect :=
  ((if feedback_eligible s
    then Button FeedbackBtn false
         :: (if clicked FeedbackBtn c
             then [WriteText "Fetching feedback..."] else [])
    else [])
   ++ (if stopped_before_start s
       then Info "Interview was stopped before it began."
            :: restart_log RestartEarly c
       else [])
   ++ (if feedback_shown s then
         if feedback_refused s then
           Info "Interview was stopped before it began. No feedback available."
           :: restart_log RestartGuard c
         else
           [Subheader "Feedback";
            Create "gpt-4o" (scoring_messages (render (messages s))) false;
            match scoring e with
            | ScoreOk text => WriteText text
            | ScoreRaises err => Error ("Feedback generation failed: " ++ err)
            end;
            Download "interview_transcript.txt" (render (messages s))
              "text/plain"]
           ++ restart_log RestartBtn c ++ [Footer (openai_model s)]
       else [Footer (openai_model s)]))%list.

(** What the interview block can put on the page; [d] is the state of the
    stop flag when the stop button is drawn. *)
Definition interview_effect (d : bool) (x : Effect) : bool :=
  match x with
  | Info _ | Error _ | ChatBubble _ _ | Placeholder _ | EscListener
  | ChatInput | Create _ _ true => true
  | Button StopBtn d' => Bool.eqb d d'
  | _ => false
  end.

Definition setup_effect (x : Effect) : bool :=
  match x with
  | SetupForm | WriteText _ | Button StartBtn false => true
  | _ => false
  end.

(** A click can only land on a button the page shows and has not
    disabled; the download is a button of its own kind. *)
Definition offered (c : Click) (page : list Effect) : bool :=
  match c with
  | None => true
  | Some DownloadBtn =>
      existsb (fun x => match x with Download _ _ _ => true | _ => false end)
              page
  | Some b =>
      existsb (fun x => match x with
                        | Button b' false => button_eqb b b'
                        | _ => false
                        end) page
  end.

(** The pages a user can reach: the session opens on an empty page with
    the default state, and every rerun is caused by a click the current
    page offers (or by any other interaction, [None]); the run it causes
    reaches its last line or is cut short during the reply. *)
Inductive playable : World -> Prop :=
| play_open : playable {| st := defaults; log := [] |}
| play_step w c e :
    playable w -> offered c (log w) = true -> playable (rerun c e (st w))
| play_cut w c e k w' :
    playable w -> offered c (log w) = true ->
    cut_turn e (callback c (st w)) k = Some w' -> playable w'.

(** How the flags and the turn count hang together between two runs. *)
Definition consistent (s : SessionState) : Prop :=
  (stopped_early s = true -> stop_requested s = true)
  /\ (stop_requested s = true -> chat_complete s = true)
  /\ (chat_complete s = true ->
      setup_complete s = true
      /\ (stop_requested s = true \/ user_message_count s = 5))
  /\ (stop_requested s = true -> stopped_early s = false ->
      1 <= user_message_count s)
  /\ 0 <= user_message_count s <= 5
  /\ (user_message_count s = 5 -> chat_complete s = true)
  /\ (feedback_shown s = true ->
      chat_complete s = true /\ stopped_early s = false
      /\ 1 <= user_message_count s).

(** ** Counting the transcript *)

Definition count_role (r : string) (ms : list Message) : Z :=
  Z.of_nat (List.length (filter (fun m => (role m =? r)%string) ms)).

(** The transcript against the turn count.  When every run reached its
    last line ([exact]) there are as many user messages as counted turns;
    a run that is cut short leaves a user message that is not counted. *)
Definition tally (exact : bool) (s : SessionState) : Prop :=
  0 <= user_message_count s <= 5
  /\ (if exact
      then count_role "user" (messages s) = user_message_count s
      else user_message_count s <= count_role "user" (messages s))
  /\ count_role "assistant" (messages s) <= Z.min (user_message_count s) 4
  /\ count_role "system" (messages s) <= 1
  /\ Z.of_nat (List.length (messages s))
     = count_role "system" (messages s) + count_role "user" (messages s)
       + count_role "assistant" (messages s).

(** ** How a section extends the page *)

(** [w'] shows what [w] shows, followed by effects that all satisfy [P]. *)
Definition extends (P : Effect -> bool) (w w' : World) : Prop :=
  exists l, log w' = (log w ++ l)%list /\ forallb P l = true.

Definition loop_effect (x : Effect) : bool :=
  match x with Placeholder _ | Error _ => true | _ => false end.

(** What the page shows the user may do next. *)
Definition page_sound (w : World) : Prop :=
  (In (Button StopBtn false) (log w) -> setup_complete (st w) = true)
  /\ (In (Button FeedbackBtn false) (log w) ->
      feedback_eligible (st w) = true).

(** The order of the phases. *)
Definition phase_rank (p : Phase) : Z :=
  match p with
  | Setup => 0 | Interviewing => 1 | Stopped => 2 | Completed => 2
  | FeedbackShown => 3
  end.

(** ** Further views *)

(** The candidate profile held in the session. *)
Definition profile_of (s : SessionState) : Form :=
  {| f_name := name s; f_experience := experience s; f_skills := skills s;
     f_level := level s; f_position := position s; f_company := company s |}.

(** The same environment with another answer of the ESC probe. *)
Definition with_esc (r : JsResult) (e : Env) : Env :=
  {| form := form e; esc_signal := r; prompt := prompt e;
     completion := completion e; scoring := scoring e |}.

Definition bubble (m : Message) : Effect := ChatBubble (role m) (content m).

Definition is_restart (b : ButtonId) : bool :=
  match b with
  | RestartEarly | RestartGuard | RestartBtn => true
  | _ => false
  end.

(** The system prompt of lines 172-175 over the values of a form. *)
Definition prompt_of_form (f : Form) : string :=
  "You are an HR executive that interviews an interviewee called "
  ++ f_name f ++ " "
  ++ "with experience " ++ f_experience f ++ " and skills " ++ f_skills f
  ++ ". "
  ++ "You should interview him for the position "
  ++ level_label (f_level f) ++ " " ++ position_label (f_position f) ++ " "
  ++ "at the company " ++ company_label (f_company f).

(** ** Strings *)

Lemma append_empty_r (a : string) : a ++ "" = a.
Proof. induction a as [|ch a IH]; simpl; [reflexivity | now rewrite IH]. Qed.

Lemma append_assoc (a b c : string) : (a ++ b) ++ c = a ++ (b ++ c).
Proof. induction a as [|ch a IH]; simpl; [reflexivity | now rewrite IH]. Qed.

Lemma render_single (m : Message) : render [m] = line_of m.
Proof. reflexivity. Qed.

Lemma render_cons (m m' : Message) (ms : list Message) :
  render (m :: m' :: ms) = line_of m ++ nl ++ render (m' :: ms).
Proof. reflexivity. Qed.

Lemma render_snoc (ms : list Message) (m : Message) :
  ms <> [] -> render (ms ++ [m]) = render ms ++ nl ++ line_of m.
Proof.
  induction ms as [|a ms IH]; intros Hne; [congruence|].
  destruct ms as [|b ms]; [reflexivity|].
  simpl app in *.
  rewrite render_cons, IH by discriminate.
  now rewrite render_cons, !append_assoc.
Qed.

(** ** The stop operation *)

Lemma request_stop_idem (s : SessionState) :
  request_stop (request_stop s) = request_stop s.
Proof.
  destruct s as [sc n fs cc ms nm ex sk lv ps co om sr se].
  unfold request_stop; cbn.
  destruct (n =? 0) eqn:E; cbn; rewrite ?E; reflexivity.
Qed.

Lemma request_stop_flags (s : SessionState) :
  stop_requested (request_stop s) = true
  /\ chat_complete (request_stop s) = true
  /\ stopped_early (request_stop s)
     = (user_message_count s =? 0) || stopped_early s
  /\ user_message_count (request_stop s) = user_message_count s
  /\ messages (request_stop s) = messages s
  /\ setup_complete (request_stop s) = setup_complete s
  /\ feedback_shown (request_stop s) = feedback_shown s
  /\ openai_model (request_stop s) = openai_model s.
Proof.
  unfold request_stop; simpl.
  destruct (user_message_count s =? 0); simpl; repeat split; reflexivity.
Qed.

(** The three assignments of lines 220-223 are those of [request_stop]. *)
Lemma esc_listener_stop (e : Env) (w : World) :
  esc_pressed (esc_signal e) = true ->
  esc_listener e w = emit EscListener (modify request_stop w).
Proof.
  intros H. unfold esc_listener. rewrite H.
  destruct w as [s l]. unfold request_stop, when, modify, emit; simpl.
  destruct (user_message_count s =? 0); reflexivity.
Qed.

Lemma esc_listener_idle (e : Env) (w : World) :
  esc_pressed (esc_signal e) = false ->
  esc_listener e w = emit EscListener w.
Proof. intros H. unfold esc_listener. now rewrite H. Qed.

(** ** The streaming loop *)

Lemma chunks_text_cons (c : Chunk) (cs : list Chunk) :
  chunks_text (c :: cs) = chunk_text c ++ chunks_text cs.
Proof.
  unfold chunks_text. destruct cs as [|c' cs]; simpl.
  - now rewrite append_empty_r.
  - reflexivity.
Qed.

(** One iteration on a chunk while the flag is clear: the chunk's text is
    appended and the loop goes on; the session state is untouched. *)
Lemma stream_loop_yield (c : Chunk) (evs : list StreamEvent) (acc : string)
  (w : World) :
  stop_requested (st w) = false ->
  exists w', st w' = st w
    /\ stream_loop (Yield c :: evs) acc w
       = stream_loop evs (acc ++ chunk_text c) w'.
Proof.
  intros Hs. simpl. rewrite Hs. unfold chunk_text.
  destruct (chunk_delta c) as [[|ch d]|]; simpl.
  - exists w. now rewrite append_empty_r.
  - eexists. split; [|reflexivity]. reflexivity.
  - exists w. now rewrite append_empty_r.
Qed.

Lemma stream_loop_yields (cs : list Chunk) (evs : list StreamEvent) :
  forall (acc : string) (w : World),
    stop_requested (st w) = false ->
    exists w', st w' = st w
      /\ stream_loop (map Yield cs ++ evs)%list acc w
         = stream_loop evs (acc ++ chunks_text cs) w'.
Proof.
  induction cs as [|c cs IH]; intros acc w Hs.
  - exists w. simpl. unfold chunks_text; simpl. now rewrite append_empty_r.
  - destruct (stream_loop_yield c (map Yield cs ++ evs)%list acc w Hs)
      as (w1 & Hst1 & Heq1).
    destruct (IH (acc ++ chunk_text c) w1) as (w2 & Hst2 & Heq2).
    { now rewrite Hst1. }
    exists w2. split; [congruence|].
    simpl map. simpl app. rewrite Heq1, Heq2.
    now rewrite chunks_text_cons, append_assoc.
Qed.

(** Whatever the stream does, the loop leaves the session state as it was
    or as one stop request makes it. *)
Lemma stream_loop_state (evs : list StreamEvent) :
  forall (acc : string) (w : World),
    st (loop_world evs acc w) = st w
    \/ st (loop_world evs acc w) = request_stop (st w).
Proof.
  unfold loop_world.
  induction evs as [|ev evs IH]; intros acc w; simpl.
  - now left.
  - destruct ev as [|c|err]; simpl.
    + right. destruct (IH acc (modify request_stop w)) as [H|H];
        rewrite H; simpl; [reflexivity | apply request_stop_idem].
    + destruct (stop_requested (st w)); simpl; [now left|].
      destruct (chunk_delta c) as [[|ch d]|]; simpl; try apply IH.
      destruct (IH (acc ++ String ch d)
                  (emit (Placeholder (acc ++ String ch d)) w)) as [H|H];
        rewrite H; simpl; auto.
    + now left.
Qed.

Lemma stream_loop_stop_free (evs : list StreamEvent) :
  forall (acc : string) (w : World),
    stop_free evs -> st (loop_world evs acc w) = st w.
Proof.
  unfold loop_world, stop_free.
  induction evs as [|ev evs IH]; intros acc w Hfree; simpl.
  - reflexivity.
  - destruct ev as [|c|err]; simpl.
    + exfalso. apply Hfree. now left.
    + assert (Hfree' : ~ In StopPressed evs) by (intros H; apply Hfree; now right).
      destruct (stop_requested (st w)); simpl; [reflexivity|].
      destruct (chunk_delta c) as [[|ch d]|]; simpl; rewrite IH; auto.
    + reflexivity.
Qed.

Lemma stop_free_dec (evs : list StreamEvent) :
  stop_free evs \/ In StopPressed evs.
Proof.
  unfold stop_free. induction evs as [|ev evs [IH|IH]].
  - left. intros [].
  - destruct ev as [|c|err].
    + right. now left.
    + left. intros [H|H]; [discriminate H | now apply IH].
    + left. intros [H|H]; [discriminate H | now apply IH].
  - right. now right.
Qed.

(** The loop only ever adds placeholders and at most one error notice to
    the log: no remote call is issued from inside it. *)
Lemma stream_loop_log (evs : list StreamEvent) :
  forall (acc : string) (w : World),
    exists l, log (loop_world evs acc w) = (log w ++ l)%list
              /\ filter is_call l = [].
Proof.
  unfold loop_world.
  induction evs as [|ev evs IH]; intros acc w; simpl.
  - exists []. now rewrite app_nil_r.
  - destruct ev as [|c|err]; simpl.
    + destruct (IH acc (modify request_stop w)) as (l & Hl & Hf).
      exists l. now rewrite Hl.
    + destruct (stop_requested (st w)); simpl.
      { exists []. now rewrite app_nil_r. }
      destruct (chunk_delta c) as [[|ch d]|]; simpl; try apply IH.
      destruct (IH (acc ++ String ch d)
                  (emit (Placeholder (acc ++ String ch d)) w)) as (l & Hl & Hf).
      exists (Placeholder (acc ++ String ch d) :: l).
      rewrite Hl. simpl. rewrite <- app_assoc. simpl. now split.
    + eexists. split; [reflexivity|reflexivity].
Qed.

(** ** Every rerun is a sequence of guarded mutations *)

Lemma evolves_one (s s' : SessionState) : mutates s s' -> evolves s s'.
Proof. intros H. eapply ev_step; [exact H | apply ev_refl]. Qed.

Lemma evolves_trans (a b c : SessionState) :
  evolves a b -> evolves b c -> evolves a c.
Proof.
  induction 1 as [|s s' s'' Hm _ IH]; intros Hbc; [assumption|].
  eapply ev_step; [exact Hm | now apply IH].
Qed.

Lemma mutates_ready (s s' : SessionState) :
  mutates s s' -> ready s -> ready s'.
Proof.
  unfold ready.
  intros Hm [Hsc Hms].
  destruct Hm as [s f _|s|s|s|s _|s r c _ _|s _|s].
  - now split.
  - now split.
  - now split.
  - destruct (request_stop_flags s) as (_ & _ & _ & _ & Hmsg & Hset & _).
    rewrite Hmsg, Hset. now split.
  - unfold init_messages.
    destruct (messages s) eqn:E; simpl; rewrite ?E; split;
      (assumption || discriminate).
  - split; [assumption|]. simpl. intros E.
    now apply app_eq_nil in E as [E _].
  - now split.
  - now split.
Qed.

Lemma evolves_ready (s s' : SessionState) :
  evolves s s' -> ready s -> ready s'.
Proof.
  induction 1 as [|s s' s'' Hm _ IH]; intros Hr; [assumption|].
  apply IH. eapply mutates_ready; eassumption.
Qed.

Lemma init_messages_ready (s : SessionState) :
  setup_complete s = true -> ready (init_messages s).
Proof.
  intros H. unfold ready, init_messages.
  destruct (messages s) eqn:E; simpl; rewrite ?E; split;
    (assumption || discriminate).
Qed.

Lemma st_when_emit (b : bool) (x : Effect) (w : World) :
  st (when b (emit x) w) = st w.
Proof. now destruct b. Qed.

Lemma st_restart_button (b : ButtonId) (c : Click) (w : World) :
  st (restart_button b c w) = st w.
Proof. unfold restart_button. now rewrite st_when_emit. Qed.

Lemma render_chat_eq (w : World) :
  render_chat w
  = {| st := st w; log := (log w ++ chat_bubbles (messages (st w)))%list |}.
Proof.
  unfold render_chat. destruct w as [s l]. simpl.
  generalize (messages s) as ms. intros ms. revert l.
  induction ms as [|m ms IH]; intros l; simpl.
  - now rewrite app_nil_r.
  - destruct (negb (role m =? "system")%string); simpl.
    + unfold emit; simpl. rewrite IH. now rewrite <- app_assoc.
    + apply IH.
Qed.

Lemma stream_reply_eq (evs : list StreamEvent) (w : World) :
  stream_reply evs w
  = modify
      (append_message
         {| role := "assistant"; content := loop_text evs "" w |})
      (let w' := loop_world evs "" w in
       if stop_requested (st w')
       then emit (Info "Interview stopped by user.")
                 (modify (set_chat_complete true) w')
       else w').
Proof.
  unfold stream_reply, loop_text, loop_world.
  destruct (stream_loop evs "" w) as [[t w'] r]. reflexivity.
Qed.

Lemma stream_loop_evolves (evs : list StreamEvent) (acc : string) (w : World) :
  evolves (st w) (st (loop_world evs acc w)).
Proof.
  destruct (stream_loop_state evs acc w) as [H|H]; rewrite H.
  - apply ev_refl.
  - apply evolves_one, mut_stop.
Qed.

Lemma stream_reply_evolves (evs : list StreamEvent) (w : World) :
  ready (st w) -> evolves (st w) (st (stream_reply evs w)).
Proof.
  intros Hr. rewrite stream_reply_eq.
  pose proof (stream_loop_evolves evs "" w) as Hloop.
  pose proof (evolves_ready _ _ Hloop Hr) as Hr'.
  eapply evolves_trans; [exact Hloop|].
  cbv zeta. destruct (stop_requested (st (loop_world evs "" w))); simpl.
  - eapply ev_step; [apply mut_complete|].
    apply evolves_one, mut_append; [|discriminate].
    eapply mutates_ready; [apply mut_complete | exact Hr'].
  - apply evolves_one, mut_append; [exact Hr' | discriminate].
Qed.

Lemma assistant_reply_evolves (e : Env) (w : World) :
  ready (st w) -> evolves (st w) (st (assistant_reply e w)).
Proof.
  intros Hr. unfold assistant_reply.
  destruct (completion e) as [err|evs].
  - apply ev_refl.
  - now apply (stream_reply_evolves evs (emit _ w)).
Qed.

Lemma user_turn_evolves (p : string) (e : Env) (w : World) :
  ready (st w) -> evolves (st w) (st (user_turn p e w)).
Proof.
  intros Hr. unfold user_turn.
  set (w1 := emit (ChatBubble "user" p)
               (modify (append_message {| role := "user"; content := p |}) w)).
  assert (H1 : evolves (st w) (st w1)).
  { apply evolves_one. apply mut_append; [exact Hr | discriminate]. }
  assert (H2 : evolves (st w1)
                 (st (when (generatesReply (user_message_count (st w1)))
                        (assistant_reply e) w1))).
  { unfold when. destruct (generatesReply _); [|apply ev_refl].
    apply assistant_reply_evolves. eapply evolves_ready; eassumption. }
  eapply evolves_trans; [exact H1|].
  eapply evolves_trans; [exact H2|].
  apply evolves_one, mut_count.
  eapply evolves_ready; [exact H2|]. eapply evolves_ready; eassumption.
Qed.

Lemma chat_input_evolves (e : Env) (w : World) :
  ready (st w) -> evolves (st w) (st (chat_input e w)).
Proof.
  intros Hr. unfold chat_input.
  destruct (input_gate (st w)); [|apply ev_refl].
  destruct (prompt e) as [p|]; [|apply ev_refl].
  destruct (str_truthy p); [|apply ev_refl].
  now apply (user_turn_evolves p e (emit ChatInput w)).
Qed.

Lemma esc_listener_evolves (e : Env) (w : World) :
  evolves (st w) (st (esc_listener e w)).
Proof.
  destruct (esc_pressed (esc_signal e)) eqn:E.
  - rewrite esc_listener_stop by assumption. apply evolves_one, mut_stop.
  - rewrite esc_listener_idle by assumption. apply ev_refl.
Qed.

Lemma end_interview_evolves (w : World) :
  evolves (st w) (st (end_interview w)).
Proof.
  unfold end_interview, when.
  destruct (_ || _); [apply evolves_one, mut_complete | apply ev_refl].
Qed.

Lemma interview_phase_evolves (e : Env) (w : World) :
  evolves (st w) (st (interview_phase e w)).
Proof.
  unfold interview_phase.
  destruct (interviewing (st w)) eqn:Hi; [|apply ev_refl].
  assert (Hsc : setup_complete (st w) = true).
  { unfold interviewing in Hi.
    destruct (setup_complete (st w)); [reflexivity | discriminate]. }
  set (w1 := emit (Button StopBtn _) (render_chat _)).
  assert (Hst1 : st w1 = init_messages (st w)).
  { unfold w1. simpl. now rewrite render_chat_eq. }
  assert (H1 : evolves (st w) (st w1)).
  { rewrite Hst1. now apply evolves_one, mut_init. }
  assert (Hr1 : ready (st w1)).
  { rewrite Hst1. now apply init_messages_ready. }
  pose proof (esc_listener_evolves e w1) as H2.
  pose proof (evolves_ready _ _ H2 Hr1) as Hr2.
  pose proof (chat_input_evolves e _ Hr2) as H3.
  eapply evolves_trans; [exact H1|].
  eapply evolves_trans; [exact H2|].
  eapply evolves_trans; [exact H3|].
  apply end_interview_evolves.
Qed.

Lemma setup_stage_evolves (c : Click) (e : Env) (w : World) :
  evolves (st w) (st (setup_stage c e w)).
Proof.
  unfold setup_stage.
  destruct (setup_complete (st w)) eqn:E; simpl; [apply ev_refl|].
  rewrite st_when_emit. simpl. now apply evolves_one, mut_form.
Qed.

Lemma st_get_feedback (c : Click) (w : World) : st (get_feedback c w) = st w.
Proof.
  unfold get_feedback. destruct (feedback_eligible (st w)); [|reflexivity].
  now rewrite st_when_emit.
Qed.

Lemma st_early_stop_notice (c : Click) (w : World) :
  st (early_stop_notice c w) = st w.
Proof.
  unfold early_stop_notice.
  destruct (stopped_before_start (st w)); [|reflexivity].
  now rewrite st_restart_button.
Qed.

Lemma st_feedback_screen (c : Click) (e : Env) (w : World) :
  st (snd (feedback_screen c e w)) = st w.
Proof.
  unfold feedback_screen, score_interview.
  destruct (feedback_shown (st w)); [|reflexivity].
  destruct (feedback_refused (st w)); simpl.
  - now rewrite st_restart_button.
  - rewrite st_restart_button. simpl. now destruct (scoring e).
Qed.

(** The state a run ends in is the state its two mutating sections leave. *)
Lemma script_state (c : Click) (e : Env) (s : SessionState) :
  st (script c e s)
  = st (interview_phase e (setup_stage c e {| st := s; log := [] |})).
Proof.
  unfold script.
  destruct (feedback_screen c e _) as [go w'] eqn:E.
  assert (H : st w' = st (snd (feedback_screen c e
     (early_stop_notice c (get_feedback c
        (interview_phase e (setup_stage c e {| st := s; log := [] |}))))))).
  { now rewrite E. }
  rewrite st_feedback_screen, st_early_stop_notice, st_get_feedback in H.
  destruct go; simpl; exact H.
Qed.

Lemma script_evolves (c : Click) (e : Env) (s : SessionState) :
  evolves s (st (script c e s)).
Proof.
  rewrite script_state.
  eapply evolves_trans; [|apply interview_phase_evolves].
  apply (setup_stage_evolves c e {| st := s; log := [] |}).
Qed.

Lemma callback_evolves (c : Click) (s : SessionState) :
  evolves s (callback c s).
Proof.
  destruct c as [[]|]; simpl; try apply ev_refl; apply evolves_one;
    constructor.
Qed.

Lemma step_evolves (s : SessionState) (ce : Click * Env) :
  evolves s (step s ce).
Proof.
  unfold step, rerun.
  eapply evolves_trans; [apply callback_evolves | apply script_evolves].
Qed.

Lemma run_session_evolves (steps : list (Click * Env)) :
  forall s, evolves s (run_session steps s).
Proof.
  unfold run_session.
  induction steps as [|ce steps IH]; intros s; simpl.
  - apply ev_refl.
  - eapply evolves_trans; [apply step_evolves | apply IH].
Qed.

(** ** What guarded mutations preserve *)

Ltac wsimpl := cbn [st log modify emit when fst snd].

Ltac break_state s :=
  destruct s as [sc n fs cc ms nm ex sk lv ps co om sr se]; cbn in *.

Lemma advances_refl (s : SessionState) : advances s s.
Proof. unfold advances. repeat split; auto; lia. Qed.

Lemma advances_trans (a b c : SessionState) :
  advances a b -> advances b c -> advances a c.
Proof.
  unfold advances.
  intros (A1 & A2 & A3 & A4 & A5 & A6 & A7) (B1 & B2 & B3 & B4 & B5 & B6 & B7).
  repeat split; auto; try lia.
  intros H. destruct (B7 H) as [H'|H']; [auto|right; lia].
Qed.

Lemma mutates_advances (s s' : SessionState) : mutates s s' -> advances s s'.
Proof.
  unfold advances.
  destruct 1 as [s f _|s|s|s|s _|s r c _ _|s _|s].
  - break_state s. repeat split; auto; lia.
  - break_state s. repeat split; auto; lia.
  - break_state s. repeat split; auto; lia.
  - break_state s. unfold request_stop; cbn.
    destruct (n =? 0) eqn:E; cbn; repeat split; auto; try lia.
  - break_state s. unfold init_messages; cbn.
    destruct ms; cbn; repeat split; auto; lia.
  - break_state s. repeat split; auto; lia.
  - break_state s. repeat split; auto; lia.
  - break_state s. repeat split; auto; lia.
Qed.

Lemma evolves_advances (s s' : SessionState) : evolves s s' -> advances s s'.
Proof.
  induction 1 as [|s s' s'' Hm _ IH]; [apply advances_refl|].
  eapply advances_trans; [apply mutates_advances; exact Hm | exact IH].
Qed.

Lemma transcript_ok_snoc (ms : list Message) (m : Message) :
  ms <> [] -> role m <> "system" ->
  transcript_ok ms -> transcript_ok (ms ++ [m]).
Proof.
  destruct ms as [|a ms]; [congruence|]. simpl.
  intros _ Hr [Ha Hrest]. split; [assumption|].
  apply Forall_app. split; [assumption|]. now constructor.
Qed.

Lemma mutates_well_formed (s s' : SessionState) :
  mutates s s' -> well_formed s -> well_formed s'.
Proof.
  unfold well_formed.
  intros Hm (Ht & Hc & Hn).
  destruct Hm as [s f _|s|s|s|s Hs|s r c [Hs Hne] Hr|s [Hs Hne]|s].
  - break_state s. auto.
  - break_state s. auto.
  - break_state s. auto.
  - break_state s. unfold request_stop; cbn.
    destruct (n =? 0); cbn; auto.
  - break_state s. unfold init_messages; cbn.
    destruct ms; cbn; auto.
  - break_state s. split; [|auto]. now apply transcript_ok_snoc.
  - break_state s. repeat split; auto; lia.
  - break_state s. auto.
Qed.

Lemma evolves_well_formed (s s' : SessionState) :
  evolves s s' -> well_formed s -> well_formed s'.
Proof.
  induction 1 as [|s s' s'' Hm _ IH]; intros Hw; [assumption|].
  apply IH. eapply mutates_well_formed; eassumption.
Qed.

Lemma defaults_well_formed : well_formed defaults.
Proof. unfold well_formed; simpl. repeat split; [congruence | lia]. Qed.

(** ** Sections the script passes over *)

Lemma setup_stage_skip (c : Click) (e : Env) (w : World) :
  setup_complete (st w) = true -> setup_stage c e w = w.
Proof. intros H. unfold setup_stage. now rewrite H. Qed.

Lemma interview_phase_skip (e : Env) (w : World) :
  interviewing (st w) = false -> interview_phase e w = w.
Proof. intros H. unfold interview_phase. now rewrite H. Qed.

Lemma stop_via_request_stop (src : StopSource) (s : SessionState) :
  stop_via src s = request_stop s.
Proof.
  destruct src; [reflexivity|].
  unfold stop_via. now rewrite esc_listener_stop.
Qed.

Lemma stop_via_again (srcs : list StopSource) (s : SessionState) :
  fold_left (fun a x => stop_via x a) srcs (request_stop s) = request_stop s.
Proof.
  induction srcs as [|x srcs IH]; simpl; [reflexivity|].
  now rewrite stop_via_request_stop, request_stop_idem.
Qed.

(** ** Stop requests *)

(** C3.  A stop request is idempotent and its flags are monotonic.  On a
    session in which no stop was requested yet, one request followed by any
    number of further requests from the button or the ESC key leaves the
    state that a single [request_stop] leaves; [stop_requested] is then true
    and stays true through every later rerun; [stopped_early] is true
    exactly when the turn count was zero at that first request, and keeps
    that value through every later rerun. *)
Theorem request_stop_idempotent_monotonic :
  forall (s : SessionState) (src : StopSource) (srcs : list StopSource)
         (later : list (Click * Env)),
    0 <= user_message_count s ->
    stop_requested s = false ->
    stopped_early s = false ->
    let s1 := stop_via src s in
    fold_left (fun a x => stop_via x a) srcs s1 = request_stop s
    /\ s1 = request_stop s
    /\ stop_requested s1 = true
    /\ (stopped_early s1 = true <-> user_message_count s = 0)
    /\ stop_requested (run_session later s1) = true
    /\ stopped_early (run_session later s1) = stopped_early s1.
Proof.
  intros s src srcs later Hn Hsr Hse s1. subst s1.
  rewrite stop_via_request_stop.
  destruct (request_stop_flags s) as (F1 & _ & F3 & F4 & _).
  pose proof (evolves_advances _ _ (run_session_evolves later (request_stop s)))
    as (_ & _ & _ & A4 & A5 & _ & A7).
  split; [apply stop_via_again|].
  split; [reflexivity|].
  split; [exact F1|].
  split.
  { rewrite F3, Hse, orb_false_r. apply Z.eqb_eq. }
  split; [now apply A4|].
  destruct (stopped_early (request_stop s)) eqn:E.
  - now apply A5.
  - destruct (stopped_early (run_session later (request_stop s))) eqn:E';
      [|reflexivity].
    exfalso. destruct (A7 eq_refl) as [H|H]; [congruence|].
    rewrite F4 in H. rewrite Hse, orb_false_r in F3.
    symmetry in F3. apply Z.eqb_neq in F3. lia.
Qed.

Lemma request_stop_idempotent_monotonic_witness :
  let s := set_user_message_count 2 (complete_setup defaults) in
  let s1 := stop_via EscKey s in
  fold_left (fun a x => stop_via x a) [StopButton; EscKey] s1 = request_stop s
  /\ s1 = request_stop s
  /\ stop_requested s1 = true
  /\ (stopped_early s1 = true <-> user_message_count s = 0)
  /\ stop_requested (run_session [(Some StopBtn, quiet)] s1) = true
  /\ stopped_early (run_session [(Some StopBtn, quiet)] s1) = stopped_early s1.
Proof.
  apply (request_stop_idempotent_monotonic
           (set_user_message_count 2 (complete_setup defaults))
           EscKey [StopButton; EscKey] [(Some StopBtn, quiet)]);
    simpl; [lia | reflexivity | reflexivity].
Defined.

Arguments request_stop : simpl never.
Arguments init_messages : simpl never.

Lemma init_messages_nonempty (s : SessionState) :
  messages s <> [] -> init_messages s = s.
Proof.
  unfold init_messages. destruct (messages s); [congruence | reflexivity].
Qed.

Lemma chat_input_closed (e : Env) (w : World) :
  input_gate (st w) = false -> chat_input e w = w.
Proof. intros H. unfold chat_input. now rewrite H. Qed.

(** C9.  The ESC path makes the same change to the session state as
    [request_stop]: when the probe reports the key, the handler leaves the
    state [request_stop] would leave ([stop_requested] and [chat_complete]
    true, [stopped_early] raised exactly when the turn count is zero); and a
    whole run that sees the key during the interview ends in the same state
    as a rerun caused by the stop button. *)
Theorem esc_path_same_as_request_stop :
  forall (e : Env) (w : World),
    esc_pressed (esc_signal e) = true ->
    st (esc_listener e w) = request_stop (st w)
    /\ stop_requested (st (esc_listener e w)) = true
    /\ chat_complete (st (esc_listener e w)) = true
    /\ stopped_early (st (esc_listener e w))
       = (user_message_count (st w) =? 0) || stopped_early (st w)
    /\ (forall (c : Click) (e' : Env),
          interviewing (st w) = true -> messages (st w) <> [] ->
          st (script c e (st w)) = st (rerun (Some StopBtn) e' (st w))).
Proof.
  intros e w He.
  rewrite esc_listener_stop by assumption. simpl st.
  destruct (request_stop_flags (st w)) as (F1 & F2 & F3 & F4 & F5 & F6 & F7 & _).
  repeat split; try assumption.
  intros c e' Hi Hne.
  assert (Hsc : setup_complete (st w) = true).
  { unfold interviewing in Hi.
    destruct (setup_complete (st w)); [reflexivity | discriminate]. }
  unfold rerun, callback. rewrite !script_state.
  rewrite (setup_stage_skip c e) by exact Hsc.
  rewrite (setup_stage_skip _ e') by (cbn [st]; congruence).
  rewrite (interview_phase_skip e').
  2:{ simpl. unfold interviewing. rewrite F2. now rewrite !andb_false_r. }
  unfold interview_phase. cbn [st]. rewrite Hi.
  rewrite esc_listener_stop by assumption.
  rewrite render_chat_eq. wsimpl.
  rewrite init_messages_nonempty by assumption.
  rewrite chat_input_closed.
  2:{ wsimpl. unfold input_gate. rewrite F1. apply andb_false_r. }
  unfold end_interview. wsimpl. rewrite F1, orb_true_r. wsimpl.
  generalize (st w). intros s. break_state s. unfold request_stop; cbn.
  destruct (n =? 0); reflexivity.
Qed.

Lemma esc_path_same_as_request_stop_witness :
  let w := {| st := set_messages [ {| role := "system"; content := "brief" |} ]
                      (complete_setup defaults);
              log := [] |} in
  st (esc_listener esc_env w) = request_stop (st w)
  /\ stop_requested (st (esc_listener esc_env w)) = true
  /\ chat_complete (st (esc_listener esc_env w)) = true
  /\ stopped_early (st (esc_listener esc_env w))
     = (user_message_count (st w) =? 0) || stopped_early (st w)
  /\ (forall (c : Click) (e' : Env),
        interviewing (st w) = true -> messages (st w) <> [] ->
        st (script c esc_env (st w)) = st (rerun (Some StopBtn) e' (st w))).
Proof.
  intros w.
  apply (esc_path_same_as_request_stop esc_env w). reflexivity.
Defined.

(** ** The streaming loop and the stop flag *)

Lemma stream_loop_stop_then_yield (c : Chunk) (rest : list StreamEvent)
  (acc : string) (w : World) :
  stream_loop (StopPressed :: Yield c :: rest) acc w
  = (acc, modify request_stop w, rest).
Proof.
  cbn [stream_loop]. wsimpl.
  now rewrite (proj1 (request_stop_flags (st w))).
Qed.

(** The loop pulls first and polls second: a fragment handed over while the
    flag is set is dropped. *)
Lemma stop_before_pull_drops_fragment :
  let w := {| st := request_stop (set_user_message_count 1 defaults);
              log := [] |} in
  stop_requested (st w) = true
  /\ stream_loop [text "lo "; text "world"] "Hel" w = ("Hel", w, [text "world"])
  /\ ~ stops_without_pulling.
Proof.
  split; [reflexivity|]. split; [reflexivity|].
  intros H.
  specialize (H [[Some "lo "]; [Some "world"]] "Hel"
                {| st := request_stop (set_user_message_count 1 defaults);
                   log := [] |} eq_refl).
  discriminate H.
Qed.

(** C1 (amended).  The loop tests the stop flag on every iteration, after
    the stream has handed over the next fragment and before that fragment
    is appended.  Started with the flag clear: if the stop arrives after
    the fragments [cs], the next fragment [c] is pulled and dropped, no
    later fragment is pulled, and the result is the text of [cs] with the
    flag set; without a stop every fragment is consumed and the flag stays
    clear.  On ["Hel"; "lo "; "world"] this gives ("Hel", true) when the
    stop arrives after the first fragment and ("Hello world", false) when
    it never arrives. *)
Theorem stream_loop_polls_each_iteration :
  forall (cs : list Chunk) (c : Chunk) (rest : list StreamEvent)
         (acc : string) (w : World),
    stop_requested (st w) = false ->
    let stopped := (map Yield cs ++ StopPressed :: Yield c :: rest)%list in
    loop_text stopped acc w = acc ++ chunks_text cs
    /\ loop_rest stopped acc w = rest
    /\ st (loop_world stopped acc w) = request_stop (st w)
    /\ stop_requested (st (loop_world stopped acc w)) = true
    /\ loop_text (map Yield cs) acc w = acc ++ chunks_text cs
    /\ loop_rest (map Yield cs) acc w = []
    /\ st (loop_world (map Yield cs) acc w) = st w
    /\ assemble [text "Hel"; StopPressed; text "lo "; text "world"] w
       = ("Hel", true)
    /\ assemble hello_world w = ("Hello world", false).
Proof.
  intros cs c rest acc w Hs stopped. subst stopped.
  unfold loop_text, loop_rest, loop_world.
  destruct (stream_loop_yields cs (StopPressed :: Yield c :: rest) acc w Hs)
    as (w1 & Hw1 & E1).
  rewrite E1, stream_loop_stop_then_yield. wsimpl. rewrite Hw1.
  destruct (stream_loop_yields cs [] acc w Hs) as (w2 & Hw2 & E2).
  rewrite app_nil_r in E2. rewrite E2. cbn [stream_loop]. wsimpl.
  repeat split; try assumption.
  - apply (request_stop_flags (st w)).
  - unfold assemble.
    destruct (stream_loop_yields [[Some "Hel"]]
                [StopPressed; text "lo "; text "world"] "" w Hs)
      as (w3 & Hw3 & E3).
    cbn [map app] in E3. unfold text in *. rewrite E3.
    rewrite stream_loop_stop_then_yield. wsimpl.
    now rewrite (proj1 (request_stop_flags (st w3))).
  - unfold assemble, hello_world, text.
    destruct (stream_loop_yields [[Some "Hel"]; [Some "lo "]; [Some "world"]]
                [] "" w Hs)
      as (w3 & Hw3 & E3).
    cbn [map app] in E3. rewrite E3. cbn [stream_loop].
    now rewrite Hw3, Hs.
Qed.

Lemma stream_loop_polls_each_iteration_witness :
  let w := {| st := set_user_message_count 1 (complete_setup defaults);
              log := [] |} in
  let stopped :=
    (map Yield [[Some "Hel"]] ++ StopPressed :: Yield [Some "lo "]
       :: [text "world"])%list in
  loop_text stopped "" w = "" ++ chunks_text [[Some "Hel"]]
  /\ loop_rest stopped "" w = [text "world"]
  /\ st (loop_world stopped "" w) = request_stop (st w)
  /\ stop_requested (st (loop_world stopped "" w)) = true
  /\ loop_text (map Yield [[Some "Hel"]]) "" w = "" ++ chunks_text [[Some "Hel"]]
  /\ loop_rest (map Yield [[Some "Hel"]]) "" w = []
  /\ st (loop_world (map Yield [[Some "Hel"]]) "" w) = st w
  /\ assemble [text "Hel"; StopPressed; text "lo "; text "world"] w
     = ("Hel", true)
  /\ assemble hello_world w = ("Hello world", false).
Proof.
  intros w.
  apply (stream_loop_polls_each_iteration
           [[Some "Hel"]] [Some "lo "] [text "world"] "" w).
  reflexivity.
Defined.

(** ** One run of the interview block *)

Lemma script_sections (c : Click) (e : Env) (s : SessionState) :
  script c e s
  = closing_sections c e
      (interview_phase e (setup_stage c e {| st := s; log := [] |})).
Proof. reflexivity. Qed.

Lemma closing_sections_interviewing (c : Click) (e : Env) (w : World) :
  chat_complete (st w) = false -> feedback_shown (st w) = false ->
  closing_sections c e w = emit (Footer (openai_model (st w))) w.
Proof.
  intros Hc Hf. unfold closing_sections.
  assert (G : get_feedback c w = w).
  { unfold get_feedback, feedback_eligible. now rewrite Hc. }
  assert (E : early_stop_notice c w = w).
  { unfold early_stop_notice, stopped_before_start. now rewrite Hc. }
  rewrite G, E. unfold feedback_screen. now rewrite Hf.
Qed.

Lemma interviewing_inv (s : SessionState) :
  interviewing s = true ->
  setup_complete s = true /\ feedback_shown s = false
  /\ chat_complete s = false.
Proof.
  unfold interviewing.
  destruct (setup_complete s), (feedback_shown s), (chat_complete s);
    simpl; intros H; try discriminate; auto.
Qed.

Lemma st_before_input (w : World) : st (before_input w) = init_messages (st w).
Proof. unfold before_input. wsimpl. now rewrite render_chat_eq. Qed.

Lemma interview_phase_idle (e : Env) (w : World) :
  interviewing (st w) = true ->
  esc_pressed (esc_signal e) = false ->
  interview_phase e w = end_interview (chat_input e (before_input w)).
Proof.
  intros Hi He. unfold interview_phase, before_input. rewrite Hi.
  now rewrite esc_listener_idle by assumption.
Qed.

Lemma chat_input_accept (e : Env) (w : World) (p : string) :
  input_gate (st w) = true -> prompt e = Some p -> str_truthy p = true ->
  chat_input e w = user_turn p e (emit ChatInput w).
Proof. intros Hg Hp Ht. unfold chat_input. now rewrite Hg, Hp, Ht. Qed.

Lemma init_messages_frame (s : SessionState) :
  setup_complete (init_messages s) = setup_complete s
  /\ user_message_count (init_messages s) = user_message_count s
  /\ feedback_shown (init_messages s) = feedback_shown s
  /\ chat_complete (init_messages s) = chat_complete s
  /\ stop_requested (init_messages s) = stop_requested s
  /\ stopped_early (init_messages s) = stopped_early s
  /\ openai_model (init_messages s) = openai_model s.
Proof.
  unfold init_messages. destruct (messages s); simpl; repeat split.
Qed.

Lemma filter_is_call_snoc (l : list Effect) (x : Effect) :
  filter is_call (l ++ [x])
  = (filter is_call l ++ (if is_call x then [x] else []))%list.
Proof. rewrite filter_app. simpl. now destruct (is_call x). Qed.

(** The reply block issues exactly one call, the streaming one, whatever
    the stream does afterwards. *)
Lemma assistant_reply_calls (e : Env) (w : World) :
  filter is_call (log (assistant_reply e w))
  = (filter is_call (log w)
     ++ [Create (openai_model (st w)) (messages (st w)) true])%list.
Proof.
  unfold assistant_reply.
  destruct (completion e) as [err|evs].
  - wsimpl. now rewrite !filter_is_call_snoc, app_nil_r.
  - rewrite stream_reply_eq. wsimpl.
    destruct (stream_loop_log evs ""
                (emit (Create (openai_model (st w)) (messages (st w)) true) w))
      as (l & Hl & Hf).
    destruct (stop_requested _); wsimpl; rewrite Hl; wsimpl;
      rewrite ?filter_is_call_snoc, !filter_app, Hf; simpl;
      now rewrite ?app_nil_r.
Qed.

(** ** One user turn *)

Lemma user_turn_eq (p : string) (e : Env) (w : World) :
  user_turn p e w
  = modify count_turn
      (when (generatesReply (user_message_count (st w)))
            (assistant_reply e) (turn_start p w)).
Proof. reflexivity. Qed.

Lemma assistant_reply_stream (p : string) (e : Env) (w : World)
  (evs : list StreamEvent) :
  completion e = CreateStream evs ->
  assistant_reply e (turn_start p w) = stream_reply evs (reply_start p w).
Proof. intros H. unfold assistant_reply. now rewrite H. Qed.

Lemma input_gate_inv (s : SessionState) :
  input_gate s = true ->
  acceptsInput (user_message_count s) = true /\ stop_requested s = false.
Proof.
  unfold input_gate. destruct (acceptsInput _), (stop_requested s);
    simpl; intros H; try discriminate; auto.
Qed.

(** The state a reply block leaves, as a function of the state the loop
    leaves. *)
Lemma stream_reply_state (evs : list StreamEvent) (w : World) :
  stop_requested (st w) = false ->
  st (stream_reply evs w)
  = append_message (assistant_message (loop_text evs "" w)) (st w)
  \/ st (stream_reply evs w)
     = append_message (assistant_message (loop_text evs "" w))
         (request_stop (st w)).
Proof.
  intros Hs. rewrite stream_reply_eq. cbv zeta.
  destruct (stream_loop_state evs "" w) as [H|H].
  - left. rewrite H, Hs. wsimpl. now rewrite H.
  - right. rewrite H, (proj1 (request_stop_flags (st w))). wsimpl. rewrite H.
    generalize (st w). intros s. break_state s. unfold request_stop; cbn.
    destruct (n =? 0); reflexivity.
Qed.

Lemma user_turn_count (p : string) (e : Env) (w : World) :
  stop_requested (st w) = false ->
  user_message_count (st (user_turn p e w)) = user_message_count (st w) + 1.
Proof.
  intros Hs. rewrite user_turn_eq. unfold when.
  destruct (generatesReply _); [|reflexivity].
  unfold assistant_reply. destruct (completion e) as [err|evs]; [reflexivity|].
  wsimpl.
  match goal with |- context [stream_reply evs ?w1] =>
    destruct (stream_reply_state evs w1 Hs) as [H|H]; rewrite H end.
  - reflexivity.
  - cbn [count_turn user_message_count append_message set_messages
           set_user_message_count st emit modify].
    now rewrite (proj1 (proj2 (proj2 (proj2 (request_stop_flags _))))).
Qed.

Lemma user_turn_messages_stream (p : string) (e : Env) (w : World)
  (evs : list StreamEvent) :
  stop_requested (st w) = false ->
  generatesReply (user_message_count (st w)) = true ->
  completion e = CreateStream evs ->
  messages (st (user_turn p e w))
  = (messages (st w)
     ++ [user_message p;
         assistant_message (loop_text evs "" (reply_start p w))])%list.
Proof.
  intros Hs Hg Hc. rewrite user_turn_eq, Hg. unfold when.
  rewrite (assistant_reply_stream p e w evs Hc).
  destruct (stream_reply_state evs (reply_start p w) Hs) as [H|H];
    wsimpl; rewrite H.
  - cbn. now rewrite <- app_assoc.
  - cbn [count_turn messages append_message set_messages
           set_user_message_count].
    rewrite (proj1 (proj2 (proj2 (proj2 (proj2 (request_stop_flags _)))))).
    cbn. now rewrite <- app_assoc.
Qed.

Lemma user_turn_messages_silent (p : string) (e : Env) (w : World) :
  generatesReply (user_message_count (st w)) = false
  \/ (exists err, completion e = CreateRaises err) ->
  messages (st (user_turn p e w)) = (messages (st w) ++ [user_message p])%list.
Proof.
  intros H. rewrite user_turn_eq. unfold when.
  destruct (generatesReply _).
  - destruct H as [H|[err H]]; [discriminate|].
    unfold assistant_reply. now rewrite H.
  - reflexivity.
Qed.

Lemma chat_input_calls_reply (e : Env) (w : World) (p : string) :
  input_gate (st w) = true -> prompt e = Some p -> str_truthy p = true ->
  generatesReply (user_message_count (st w)) = true ->
  filter is_call (log (chat_input e w))
  = (filter is_call (log w)
     ++ [Create (openai_model (st w))
           (messages (st w) ++ [user_message p]) true])%list.
Proof.
  intros Hg Hp Ht Hr.
  rewrite (chat_input_accept e w p Hg Hp Ht), user_turn_eq.
  cbn [st emit]. rewrite Hr. unfold when. cbn [log modify].
  rewrite assistant_reply_calls. unfold turn_start. wsimpl.
  now rewrite !filter_is_call_snoc, !app_nil_r.
Qed.

Lemma chat_input_calls_silent (e : Env) (w : World) (p : string) :
  input_gate (st w) = true -> prompt e = Some p -> str_truthy p = true ->
  generatesReply (user_message_count (st w)) = false ->
  filter is_call (log (chat_input e w)) = filter is_call (log w).
Proof.
  intros Hg Hp Ht Hr.
  rewrite (chat_input_accept e w p Hg Hp Ht), user_turn_eq.
  cbn [st emit]. rewrite Hr. unfold when, turn_start. wsimpl.
  now rewrite !filter_is_call_snoc, !app_nil_r.
Qed.

(** ** Turn budget *)

(** C2.  The two budget tests depend on the turn count alone:
    [acceptsInput] holds for counts 0..4 and fails from 5 on,
    [generatesReply] holds for counts 0..3 and fails from 4 on.  In the
    script, with no stop requested, a prompt submitted at count 5 or more
    changes nothing; the prompt submitted at count 4 (the fifth) is stored
    and counted but no call to the completion service is made; at counts
    0..3 exactly one such call is made, on the transcript that ends with
    the new user message. *)
Theorem turn_budget_policy :
  forall (n : Z) (w : World) (e : Env) (p : string),
    user_message_count (st w) = n ->
    stop_requested (st w) = false ->
    prompt e = Some p -> str_truthy p = true ->
    (0 <= n <= 4 -> acceptsInput n = true)
    /\ (5 <= n -> acceptsInput n = false)
    /\ (0 <= n <= 3 -> generatesReply n = true)
    /\ (4 <= n -> generatesReply n = false)
    /\ (5 <= n -> chat_input e w = w)
    /\ (n = 4 ->
        messages (st (chat_input e w))
        = (messages (st w) ++ [user_message p])%list
        /\ user_message_count (st (chat_input e w)) = 5
        /\ filter is_call (log (chat_input e w)) = filter is_call (log w))
    /\ (0 <= n <= 3 ->
        user_message_count (st (chat_input e w)) = n + 1
        /\ filter is_call (log (chat_input e w))
           = (filter is_call (log w)
              ++ [Create (openai_model (st w))
                    (messages (st w) ++ [user_message p]) true])%list).
Proof.
  intros n w e p Hn Hs Hp Ht.
  assert (A1 : 0 <= n <= 4 -> acceptsInput n = true).
  { intros H. unfold acceptsInput. apply Z.ltb_lt. lia. }
  assert (A2 : 5 <= n -> acceptsInput n = false).
  { intros H. unfold acceptsInput. apply Z.ltb_ge. lia. }
  assert (G1 : 0 <= n <= 3 -> generatesReply n = true).
  { intros H. unfold generatesReply. apply Z.ltb_lt. lia. }
  assert (G2 : 4 <= n -> generatesReply n = false).
  { intros H. unfold generatesReply. apply Z.ltb_ge. lia. }
  repeat split; try assumption.
  - intros H. apply chat_input_closed. unfold input_gate.
    now rewrite Hn, (A2 H).
  - assert (Hg : input_gate (st w) = true).
    { unfold input_gate. rewrite Hn, Hs, A1 by lia. reflexivity. }
    rewrite (chat_input_accept e w p Hg Hp Ht).
    apply (user_turn_messages_silent p e (emit ChatInput w)).
    left. cbn [st emit]. rewrite Hn. apply G2. lia.
  - assert (Hg : input_gate (st w) = true).
    { unfold input_gate. rewrite Hn, Hs, A1 by lia. reflexivity. }
    rewrite (chat_input_accept e w p Hg Hp Ht).
    rewrite user_turn_count by exact Hs. cbn [st emit]. lia.
  - assert (Hg : input_gate (st w) = true).
    { unfold input_gate. rewrite Hn, Hs, A1 by lia. reflexivity. }
    apply (chat_input_calls_silent e w p Hg Hp Ht).
    rewrite Hn. apply G2. lia.
  - assert (Hg : input_gate (st w) = true).
    { unfold input_gate. rewrite Hn, Hs, A1 by lia. reflexivity. }
    rewrite (chat_input_accept e w p Hg Hp Ht).
    rewrite user_turn_count by exact Hs. cbn [st emit]. lia.
  - assert (Hg : input_gate (st w) = true).
    { unfold input_gate. rewrite Hn, Hs, A1 by lia. reflexivity. }
    apply (chat_input_calls_reply e w p Hg Hp Ht).
    rewrite Hn. apply G1. lia.
Qed.

Lemma turn_budget_policy_witness :
  let w := {| st := interview_at 4 [brief]; log := [] |} in
  (0 <= 4 <= 4 -> acceptsInput 4 = true)
  /\ (5 <= 4 -> acceptsInput 4 = false)
  /\ (0 <= 4 <= 3 -> generatesReply 4 = true)
  /\ (4 <= 4 -> generatesReply 4 = false)
  /\ (5 <= 4 -> chat_input (say "bye" hello_world) w = w)
  /\ (4 = 4 ->
      messages (st (chat_input (say "bye" hello_world) w))
      = (messages (st w) ++ [user_message "bye"])%list
      /\ user_message_count (st (chat_input (say "bye" hello_world) w)) = 5
      /\ filter is_call (log (chat_input (say "bye" hello_world) w))
         = filter is_call (log w))
  /\ (0 <= 4 <= 3 ->
      user_message_count (st (chat_input (say "bye" hello_world) w)) = 4 + 1
      /\ filter is_call (log (chat_input (say "bye" hello_world) w))
         = (filter is_call (log w)
            ++ [Create (openai_model (st w))
                  (messages (st w) ++ [user_message "bye"]) true])%list).
Proof.
  intros w.
  apply (turn_budget_policy 4 w (say "bye" hello_world) "bye");
    reflexivity.
Defined.

(** ** Failures of the completion service *)

(** A call that raises leaves the user message alone in the transcript,
    although the reply gate was open and the call was made. *)
Lemma failed_call_leaves_no_assistant_message :
  let w := {| st := interview_at 0 [brief]; log := [] |} in
  let w' := chat_input (failing "hi" "timeout") w in
  generatesReply (user_message_count (st w)) = true
  /\ filter is_call (log w')
     = [Create "gpt-4.1-mini" [brief; user_message "hi"] true]
  /\ messages (st w') = [brief; user_message "hi"]
  /\ ~ reply_always_persisted.
Proof.
  repeat split.
  intros H.
  destruct (H {| st := interview_at 0 [brief]; log := [] |}
              (failing "hi" "timeout") "hi" eq_refl eq_refl eq_refl eq_refl)
    as [t Ht].
  discriminate Ht.
Qed.

(** C4 (amended).  An accepted user turn whose run reaches its last line,
    with no stop while the reply streams, raises the turn count by exactly
    one, whether no reply is generated (the fifth turn), the stream fails
    or the call itself fails.  Whenever the streaming call returned a
    stream, the text accumulated by the loop is appended as the assistant
    message of the turn: the whole text of a stream that ends, the empty
    string for an empty stream, the text of the fragments received before
    a failure of the stream.  When the call itself raises there is no
    accumulated text and no assistant message is appended.  (What becomes
    of a turn whose reply is stopped while it streams is not part of the
    statement.) *)
Theorem accepted_turn_counts_and_persists :
  forall (w : World) (e : Env) (p : string),
    input_gate (st w) = true -> prompt e = Some p -> str_truthy p = true ->
    (forall evs, completion e = CreateStream evs -> stop_free evs) ->
    let w' := chat_input e w in
    let start := reply_start p (emit ChatInput w) in
    user_message_count (st w') = user_message_count (st w) + 1
    /\ (generatesReply (user_message_count (st w)) = false ->
        messages (st w') = (messages (st w) ++ [user_message p])%list)
    /\ (generatesReply (user_message_count (st w)) = true ->
        (forall evs, completion e = CreateStream evs ->
           messages (st w')
           = (messages (st w)
              ++ [user_message p;
                  assistant_message (loop_text evs "" start)])%list)
        /\ (forall cs, completion e = CreateStream (map Yield cs) ->
            messages (st w')
            = (messages (st w)
               ++ [user_message p;
                   assistant_message (chunks_text cs)])%list)
        /\ (completion e = CreateStream [] ->
            messages (st w')
            = (messages (st w)
               ++ [user_message p; assistant_message ""])%list)
        /\ (forall cs err rest,
              completion e
              = CreateStream (map Yield cs ++ Raise err :: rest) ->
              messages (st w')
              = (messages (st w)
                 ++ [user_message p;
                     assistant_message (chunks_text cs)])%list)
        /\ (forall err, completion e = CreateRaises err ->
            messages (st w')
            = (messages (st w) ++ [user_message p])%list)).
Proof.
  intros w e p Hg Hp Ht Hfree w' start. subst w' start.
  destruct (input_gate_inv _ Hg) as [_ Hs].
  rewrite (chat_input_accept e w p Hg Hp Ht).
  split; [apply (user_turn_count p e (emit ChatInput w) Hs)|].
  split.
  { intros Hr. apply (user_turn_messages_silent p e (emit ChatInput w)).
    now left. }
  intros Hr.
  assert (Hall : forall evs, completion e = CreateStream evs ->
            messages (st (user_turn p e (emit ChatInput w)))
            = (messages (st w)
               ++ [user_message p;
                   assistant_message
                     (loop_text evs "" (reply_start p (emit ChatInput w)))])%list).
  { intros evs Hc.
    apply (user_turn_messages_stream p e (emit ChatInput w) evs Hs Hr Hc). }
  assert (Hstart : stop_requested (st (reply_start p (emit ChatInput w))) = false).
  { exact Hs. }
  split; [exact Hall|].
  split.
  { intros cs Hc. rewrite (Hall _ Hc). unfold loop_text.
    destruct (stream_loop_yields cs [] "" _ Hstart) as (w1 & _ & E1).
    rewrite app_nil_r in E1. now rewrite E1. }
  split; [intros Hc; now rewrite (Hall _ Hc)|].
  split.
  - intros cs err rest Hc. rewrite (Hall _ Hc). unfold loop_text.
    destruct (stream_loop_yields cs (Raise err :: rest) "" _ Hstart)
      as (w1 & _ & E1).
    now rewrite E1.
  - intros err Hc.
    apply (user_turn_messages_silent p e (emit ChatInput w)).
    right. now exists err.
Qed.

Lemma accepted_turn_counts_and_persists_witness :
  let w := {| st := interview_at 0 [brief]; log := [] |} in
  let e := say "hi" [text "Hel"; Raise "reset"; text "lo "] in
  (forall evs, completion e = CreateStream evs -> stop_free evs)
  /\ user_message_count (st (chat_input e w)) = 1
  /\ messages (st (chat_input e w))
     = [brief; user_message "hi"; assistant_message "Hel"].
Proof.
  intros w e.
  assert (Hfree : forall evs, completion e = CreateStream evs -> stop_free evs).
  { intros evs Hc. injection Hc as <-.
    intros [H|[H|[H|[]]]]; discriminate H. }
  split; [exact Hfree|].
  destruct (accepted_turn_counts_and_persists w e "hi"
              eq_refl eq_refl eq_refl Hfree) as (Hc & _ & Hm).
  split; [exact Hc|].
  destruct (Hm eq_refl) as (_ & _ & _ & Hfail & _).
  exact (Hfail [[Some "Hel"]] "reset" [text "lo "] eq_refl).
Defined.

Lemma user_turn_create_raises (p : string) (e : Env) (w : World) (err : string) :
  generatesReply (user_message_count (st w)) = true ->
  completion e = CreateRaises err ->
  user_turn p e w
  = modify count_turn
      (emit (Error ("Assistant response failed: " ++ err)) (reply_start p w)).
Proof.
  intros Hg Hc. rewrite user_turn_eq, Hg. unfold when, assistant_reply.
  now rewrite Hc.
Qed.

Lemma end_interview_idle (w : World) :
  user_message_count (st w) < 5 -> stop_requested (st w) = false ->
  end_interview w = w.
Proof.
  intros Hn Hs. unfold end_interview. rewrite Hs.
  replace (user_message_count (st w) >=? 5) with false; [reflexivity|].
  symmetry. rewrite Z.geb_leb. apply Z.leb_gt. lia.
Qed.

(** C10.  When the streaming call itself raises, the run appends the user
    message and nothing else to the transcript, shows the error as a
    notice, raises the turn count by one, and leaves the session in the
    interview phase with the input gate open. *)
Theorem create_failure_skips_assistant_message :
  forall (s : SessionState) (c : Click) (e : Env) (p err : string),
    interviewing s = true ->
    stop_requested s = false ->
    esc_pressed (esc_signal e) = false ->
    generatesReply (user_message_count s) = true ->
    prompt e = Some p -> str_truthy p = true ->
    completion e = CreateRaises err ->
    let w := script c e s in
    messages (st w) = (messages (init_messages s) ++ [user_message p])%list
    /\ user_message_count (st w) = user_message_count s + 1
    /\ In (Error ("Assistant response failed: " ++ err)) (log w)
    /\ filter is_call (log w)
       = [Create (openai_model s)
            (messages (init_messages s) ++ [user_message p]) true]
    /\ phase (st w) = Interviewing
    /\ input_gate (st w) = true.
Proof.
  intros s c e p err Hi Hs He Hr Hp Ht Hc w. subst w.
  destruct (interviewing_inv s Hi) as (Hsc & Hfs & Hcc).
  destruct (init_messages_frame s) as (I1 & I2 & I3 & I4 & I5 & I6 & I7).
  assert (Hn : user_message_count s < 4).
  { unfold generatesReply in Hr. now apply Z.ltb_lt in Hr. }
  rewrite script_sections, setup_stage_skip by exact Hsc.
  rewrite interview_phase_idle by assumption.
  set (w0 := before_input {| st := s; log := [] |}).
  assert (Hw0 : st w0 = init_messages s) by apply st_before_input.
  assert (Hg : input_gate (st w0) = true).
  { rewrite Hw0. unfold input_gate, acceptsInput. rewrite I2, I5, Hs.
    replace (user_message_count s <? 5) with true; [reflexivity|].
    symmetry. apply Z.ltb_lt. lia. }
  rewrite (chat_input_accept e w0 p Hg Hp Ht).
  rewrite (user_turn_create_raises p e (emit ChatInput w0) err)
    by (cbn [st emit]; rewrite ?Hw0, ?I2; assumption).
  set (w1 := modify count_turn _).
  assert (Hst1 : st w1 = count_turn (append_message (user_message p)
                                       (init_messages s))).
  { unfold w1, reply_start, turn_start. wsimpl. now rewrite Hw0. }
  assert (Hcount : user_message_count (st w1) = user_message_count s + 1).
  { rewrite Hst1. cbn. now rewrite I2. }
  assert (Hstop : stop_requested (st w1) = false).
  { rewrite Hst1. cbn. now rewrite I5. }
  rewrite end_interview_idle by (rewrite ?Hcount; (lia || assumption)).
  rewrite closing_sections_interviewing
    by (rewrite Hst1; cbn; congruence).
  cbn [st log emit].
  split; [now rewrite Hst1|].
  split; [exact Hcount|].
  split.
  { apply in_or_app. left. unfold w1. cbn [log modify emit].
    apply in_or_app. right. now left. }
  split.
  { rewrite filter_is_call_snoc, app_nil_r. unfold w1, reply_start, turn_start.
    wsimpl. rewrite !filter_is_call_snoc. cbn [is_call]. rewrite !app_nil_r.
    unfold w0, before_input. wsimpl. rewrite render_chat_eq. wsimpl.
    rewrite !filter_is_call_snoc. cbn [is_call]. rewrite !app_nil_r.
    rewrite filter_app. cbn [filter is_call app].
    assert (Hb : forall ms, filter is_call (chat_bubbles ms) = []).
    { induction ms as [|m ms IH]; [reflexivity|]. cbn [chat_bubbles flat_map].
      rewrite filter_app. fold (chat_bubbles ms). rewrite IH.
      now destruct (negb _). }
    rewrite Hb.
    cbn [app openai_model messages append_message set_messages].
    now rewrite I7. }
  split.
  { unfold phase. rewrite Hst1. cbn. now rewrite I3, I4, I1, Hfs, Hcc, Hsc. }
  unfold input_gate, acceptsInput. rewrite Hcount, Hstop.
  replace (user_message_count s + 1 <? 5) with true; [reflexivity|].
  symmetry. apply Z.ltb_lt. lia.
Qed.

Lemma create_failure_skips_assistant_message_witness :
  let w := script None (failing "hi" "timeout") (interview_at 0 [brief]) in
  messages (st w) = [brief; user_message "hi"]
  /\ user_message_count (st w) = 1
  /\ In (Error "Assistant response failed: timeout") (log w)
  /\ filter is_call (log w)
     = [Create "gpt-4.1-mini" [brief; user_message "hi"] true]
  /\ phase (st w) = Interviewing
  /\ input_gate (st w) = true.
Proof.
  apply (create_failure_skips_assistant_message
           (interview_at 0 [brief]) None (failing "hi" "timeout")
           "hi" "timeout"); reflexivity.
Defined.

(** ** Runs outside the interview block *)

Lemma script_after_interview (c : Click) (e : Env) (s : SessionState) :
  setup_complete s = true ->
  feedback_shown s = true \/ chat_complete s = true ->
  script c e s = closing_sections c e {| st := s; log := [] |}.
Proof.
  intros Hsc H. rewrite script_sections, setup_stage_skip by exact Hsc.
  rewrite interview_phase_skip; [reflexivity|].
  cbn [st]. unfold interviewing.
  destruct H as [H|H]; rewrite H; cbn; now rewrite ?andb_false_r.
Qed.

Lemma script_feedback_screen (c : Click) (e : Env) (s : SessionState) :
  setup_complete s = true -> feedback_shown s = true ->
  feedback_refused s = false ->
  script c e s
  = emit (Footer (openai_model s))
      (restart_button RestartBtn c
         (emit (Download "interview_transcript.txt" (render (messages s))
                  "text/plain")
            (score_interview e (render (messages s))
               (emit (Subheader "Feedback") {| st := s; log := [] |})))).
Proof.
  intros Hsc Hf Hr. rewrite script_after_interview by auto.
  unfold closing_sections.
  assert (G : forall w, st w = s -> get_feedback c w = w).
  { intros w Hw. unfold get_feedback, feedback_eligible. rewrite Hw, Hf.
    now rewrite andb_false_r. }
  assert (E : forall w, st w = s -> early_stop_notice c w = w).
  { intros w Hw. unfold early_stop_notice, stopped_before_start.
    rewrite Hw, Hf. now rewrite andb_false_r. }
  rewrite G, E by reflexivity.
  unfold feedback_screen. cbn [st]. rewrite Hf, Hr.
  unfold score_interview, restart_button, when.
  destruct (scoring e), (clicked RestartBtn c); reflexivity.
Qed.

Lemma script_feedback_refused (c : Click) (e : Env) (s : SessionState) :
  setup_complete s = true -> feedback_shown s = true ->
  feedback_refused s = true ->
  script c e s
  = restart_button RestartGuard c
      (emit (Info "Interview was stopped before it began. No feedback available.")
         {| st := s; log := [] |}).
Proof.
  intros Hsc Hf Hr. rewrite script_after_interview by auto.
  unfold closing_sections.
  assert (G : forall w, st w = s -> get_feedback c w = w).
  { intros w Hw. unfold get_feedback, feedback_eligible. rewrite Hw, Hf.
    now rewrite andb_false_r. }
  assert (E : forall w, st w = s -> early_stop_notice c w = w).
  { intros w Hw. unfold early_stop_notice, stopped_before_start.
    rewrite Hw, Hf. now rewrite andb_false_r. }
  rewrite G, E by reflexivity.
  unfold feedback_screen. cbn [st]. now rewrite Hf, Hr.
Qed.


Lemma script_stopped_early (c : Click) (e : Env) (s : SessionState) :
  setup_complete s = true -> chat_complete s = true ->
  feedback_shown s = false -> stopped_early s = true ->
  script c e s
  = emit (Footer (openai_model s))
      (restart_button RestartEarly c
         (emit (Info "Interview was stopped before it began.")
            {| st := s; log := [] |})).
Proof.
  intros Hsc Hcc Hf Hse. rewrite script_after_interview by auto.
  unfold closing_sections, get_feedback, feedback_eligible. cbn [st].
  rewrite Hcc, Hf, Hse. cbn [negb andb].
  unfold early_stop_notice, stopped_before_start. cbn [st].
  rewrite Hcc, Hf, Hse. cbn [negb andb].
  unfold feedback_screen. rewrite st_restart_button. cbn [st emit].
  now rewrite Hf, st_restart_button.
Qed.

(** ** Five turns *)





(** ** Leaving the interview *)



(** ** Stopped before the first turn *)

(** A run on a session stopped before its first turn: no scoring call, no
    button but a restart, no change to the state. *)
Lemma stopped_early_run (c : Click) (e : Env) (s : SessionState) :
  setup_complete s = true -> chat_complete s = true ->
  stopped_early s = true ->
  scoring_calls (log (script c e s)) = []
  /\ (forall b, In b (buttons (log (script c e s))) ->
        b = RestartEarly \/ b = RestartGuard)
  /\ st (script c e s) = s.
Proof.
  intros Hsc Hcc Hse.
  destruct (feedback_shown s) eqn:Hfs.
  - rewrite script_feedback_refused;
      [|assumption|assumption|unfold feedback_refused; now rewrite Hse].
    unfold restart_button, when.
    destruct (clicked RestartGuard c); cbn; intuition.
  - rewrite script_stopped_early by assumption.
    unfold restart_button, when.
    destruct (clicked RestartEarly c); cbn; intuition.
Qed.

Lemma callback_model (c : Click) (s : SessionState) :
  openai_model (callback c s) = openai_model s.
Proof.
  destruct c as [[]|]; cbn [callback]; try reflexivity.
  now destruct (request_stop_flags s) as (_ & _ & _ & _ & _ & _ & _ & F8).
Qed.

(** C6.  A stop requested, from either source, while the turn count is
    zero puts the session in the Stopped phase, and the run on that state
    shows the notice and the restart button and nothing else to act on.
    From then on, through any later reruns, [stopped_early] stays set,
    the feedback button is never shown, no run issues a scoring call, and
    every page shows exactly one button, a restart button, which reloads
    the page when clicked: restart is the only way forward.  A feedback
    request is answered by the guard of the feedback screen, which halts
    the run before the scoring call and shows its own restart button. *)
Theorem early_stop_blocks_feedback :
  forall (s : SessionState) (src : StopSource)
         (later : list (Click * Env)) (c : Click) (e : Env),
    setup_complete s = true -> feedback_shown s = false ->
    user_message_count s = 0 ->
    let s1 := stop_via src s in
    let s' := run_session later s1 in
    phase s1 = Stopped
    /\ stopped_early s' = true
    /\ feedback_eligible s' = false
    /\ scoring_calls (log (rerun c e s')) = []
    /\ ~ In FeedbackBtn (buttons (log (rerun c e s')))
    /\ (forall b, In b (buttons (log (rerun c e s'))) ->
          b = RestartEarly \/ b = RestartGuard)
    /\ log (rerun (Some FeedbackBtn) e s')
       = [Info "Interview was stopped before it began. No feedback available.";
          Button RestartGuard false]
    /\ log (script c e s1)
       = (Info "Interview was stopped before it began."
          :: Button RestartEarly false
          :: (if clicked RestartEarly c then [Reload] else [])
          ++ [Footer (openai_model s)])%list
    /\ log (rerun c e s')
       = (if feedback_shown (callback c s')
          then
            Info "Interview was stopped before it began. No feedback available."
            :: Button RestartGuard false
            :: (if clicked RestartGuard c then [Reload] else [])
          else
            Info "Interview was stopped before it began."
            :: Button RestartEarly false
            :: (if clicked RestartEarly c then [Reload] else [])
            ++ [Footer (openai_model s')])%list
    /\ buttons (log (rerun c e s'))
       = [if feedback_shown (callback c s') then RestartGuard
          else RestartEarly]
    /\ ~ In ChatInput (log (rerun c e s'))
    /\ (feedback_shown s' = false ->
        In (Button RestartEarly false) (log (rerun c e s'))
        \/ c = Some FeedbackBtn)
    /\ (feedback_shown s' = false ->
        In Reload (log (rerun (Some RestartEarly) e s'))).
Proof.
  intros s src later c e Hsc Hfs Hn s1 s'. subst s1 s'.
  rewrite stop_via_request_stop.
  destruct (request_stop_flags s) as (F1 & F2 & F3 & F4 & F5 & F6 & F7 & F8).
  assert (Hse1 : stopped_early (request_stop s) = true).
  { now rewrite F3, Hn. }
  set (s' := run_session later (request_stop s)).
  pose proof (evolves_advances _ _ (run_session_evolves later (request_stop s)))
    as (A1 & _ & A3 & _ & A5 & _).
  fold s' in A1, A3, A5.
  assert (Hsc' : setup_complete s' = true) by (apply A1; congruence).
  assert (Hcc' : chat_complete s' = true) by (apply A3; congruence).
  assert (Hse' : stopped_early s' = true) by (apply A5; congruence).
  assert (Hrun : forall c0,
            setup_complete (callback c0 s') = true
            /\ chat_complete (callback c0 s') = true
            /\ stopped_early (callback c0 s') = true).
  { intros c0.
    pose proof (evolves_advances _ _ (callback_evolves c0 s'))
      as (B1 & _ & B3 & _ & B5 & _). auto. }
  destruct (Hrun c) as (C1 & C2 & C3).
  destruct (stopped_early_run c e (callback c s') C1 C2 C3) as (R1 & R2 & _).
  assert (Hpage : log (rerun c e s')
       = (if feedback_shown (callback c s')
          then
            Info "Interview was stopped before it began. No feedback available."
            :: Button RestartGuard false
            :: (if clicked RestartGuard c then [Reload] else [])
          else
            Info "Interview was stopped before it began."
            :: Button RestartEarly false
            :: (if clicked RestartEarly c then [Reload] else [])
            ++ [Footer (openai_model s')])%list).
  { unfold rerun. destruct (feedback_shown (callback c s')) eqn:Hf.
    - rewrite script_feedback_refused;
        [|exact C1|exact Hf|unfold feedback_refused; now rewrite C3].
      unfold restart_button, when.
      destruct (clicked RestartGuard c); reflexivity.
    - rewrite script_stopped_early by assumption.
      rewrite callback_model.
      unfold restart_button, when.
      destruct (clicked RestartEarly c); reflexivity. }
  split; [unfold phase; now rewrite F7, Hfs, F2, Hse1|].
  split; [exact Hse'|].
  split; [unfold feedback_eligible; rewrite Hse'; cbn;
          now rewrite !andb_false_r|].
  split; [exact R1|].
  split.
  { intros Hin. destruct (R2 _ Hin) as [H|H]; discriminate H. }
  split; [exact R2|].
  split.
  { unfold rerun. destruct (Hrun (Some FeedbackBtn)) as (D1 & D2 & D3).
    rewrite script_feedback_refused;
      [reflexivity | exact D1 | reflexivity
      | unfold feedback_refused; now rewrite D3]. }
  split.
  { rewrite script_stopped_early; [|congruence|exact F2|congruence|exact Hse1].
    rewrite F8. unfold restart_button, when.
    destruct (clicked RestartEarly c); reflexivity. }
  split; [exact Hpage|].
  split.
  { rewrite Hpage.
    destruct (feedback_shown (callback c s')), (clicked RestartGuard c),
      (clicked RestartEarly c); reflexivity. }
  split.
  { rewrite Hpage.
    destruct (feedback_shown (callback c s')), (clicked RestartGuard c),
      (clicked RestartEarly c); cbn;
      intros H;
      repeat match goal with
             | H : _ \/ _ |- _ => destruct H as [H|H]
             end; solve [discriminate H | destruct H]. }
  split.
  { intros Hf'.
    assert (Hcb : c = Some FeedbackBtn
                  \/ feedback_shown (callback c s') = false).
    { destruct (request_stop_flags s') as (_ & _ & _ & _ & _ & _ & G7 & _).
      destruct c as [[]|]; cbn [callback];
        first [left; reflexivity | right; cbn; congruence]. }
    destruct Hcb as [->|Hcb]; [now right|left].
    rewrite Hpage, Hcb. right. now left. }
  intros Hf'.
  unfold rerun. cbn [callback].
  rewrite script_stopped_early by assumption.
  unfold restart_button, when. cbn. auto.
Qed.

Lemma early_stop_blocks_feedback_witness :
  let s1 := stop_via EscKey (interview_at 0 [brief]) in
  let s' := run_session [(None, quiet); (Some RestartEarly, quiet)] s1 in
  phase s1 = Stopped
  /\ stopped_early s' = true
  /\ feedback_eligible s' = false
  /\ scoring_calls (log (rerun None quiet s')) = []
  /\ buttons (log (rerun None quiet s')) = [RestartEarly]
  /\ log (script None quiet s1)
     = [Info "Interview was stopped before it began.";
        Button RestartEarly false; Footer "gpt-4.1-mini"]
  /\ log (rerun (Some FeedbackBtn) quiet s')
     = [Info "Interview was stopped before it began. No feedback available.";
        Button RestartGuard false].
Proof.
  intros s1 s'.
  destruct (early_stop_blocks_feedback (interview_at 0 [brief]) EscKey
              [(None, quiet); (Some RestartEarly, quiet)] None quiet
              eq_refl eq_refl eq_refl)
    as (H1 & H2 & H3 & H4 & _ & _ & H7 & H8 & _ & H10 & _).
  split; [exact H1|]. split; [exact H2|]. split; [exact H3|].
  split; [exact H4|]. split; [exact H10|]. split; [exact H8 | exact H7].
Defined.

(** ** Failure of the scoring service *)

(** The feedback button's callback has moved the session to the feedback
    screen before the scoring call is made; a failing call does not move
    it back. *)
Lemma failed_scoring_advances_phase :
  let s := request_stop
             (interview_at 1 [brief; user_message "hi";
                              assistant_message "Hello world"]) in
  let w := rerun (Some FeedbackBtn) (unscored "timeout") s in
  feedback_eligible s = true
  /\ phase s = Completed
  /\ In (Error "Feedback generation failed: timeout") (log w)
  /\ phase (st w) = FeedbackShown
  /\ ~ In FeedbackBtn (buttons (log w))
  /\ ~ failure_keeps_phase.
Proof.
  split; [reflexivity|]. split; [reflexivity|].
  split; [vm_compute; auto|]. split; [reflexivity|].
  split; [vm_compute; intuition discriminate|].
  intros H.
  specialize (H (request_stop
                   (interview_at 1 [brief; user_message "hi";
                                    assistant_message "Hello world"]))
                (unscored "timeout") "timeout" eq_refl eq_refl eq_refl).
  discriminate H.
Qed.

(** C7 (amended).  When the scoring call fails on a feedback request, the
    error is shown as a notice and the failed call changes nothing in the
    session state: the state after the run is the one the button's
    callback left, with [feedback_shown] set, so the session is on the
    feedback screen whether the call succeeds or fails.  Exactly one
    scoring call was made, the transcript download is still offered, and
    the only button on the page is the restart button: the Get Feedback
    button is not shown again, on this run or on any later one.  Every
    later run of the script on that state makes the scoring call again
    and leaves the state as it is. *)
Theorem scoring_failure_reported_state_kept :
  forall (s : SessionState) (c : Click) (e e' : Env) (err : string),
    setup_complete s = true -> feedback_eligible s = true ->
    scoring e = ScoreRaises err ->
    let w := rerun (Some FeedbackBtn) e s in
    let call :=
      Create "gpt-4o" (scoring_messages (render (messages s))) false in
    st w = show_feedback s
    /\ phase (st w) = FeedbackShown
    /\ In (Error ("Feedback generation failed: " ++ err)) (log w)
    /\ scoring_calls (log w) = [call]
    /\ In (Download "interview_transcript.txt" (render (messages s))
             "text/plain") (log w)
    /\ st (script c e' (st w)) = st w
    /\ scoring_calls (log (script c e' (st w))) = [call]
    /\ log w
       = [Subheader "Feedback"; call;
          Error ("Feedback generation failed: " ++ err);
          Download "interview_transcript.txt" (render (messages s))
            "text/plain";
          Button RestartBtn false; Footer (openai_model s)]
    /\ buttons (log w) = [RestartBtn]
    /\ ~ In FeedbackBtn (buttons (log w))
    /\ buttons (log (script c e' (st w))) = [RestartBtn]
    /\ ~ In FeedbackBtn (buttons (log (script c e' (st w))))
    /\ feedback_eligible (st (script c e' (st w))) = false.
Proof.
  intros s c e e' err Hsc Hel He w call. subst w call.
  assert (Hflags : chat_complete s = true /\ feedback_shown s = false
                   /\ stopped_early s = false /\ user_message_count s > 0).
  { unfold feedback_eligible in Hel.
    destruct (chat_complete s), (feedback_shown s), (stopped_early s);
      cbn in Hel; try discriminate.
    repeat split. apply Z.gtb_lt in Hel. lia. }
  destruct Hflags as (Hcc & Hfs & Hse & Hn).
  assert (Hnr : feedback_refused (show_feedback s) = false).
  { unfold feedback_refused. cbn. rewrite Hse. cbn. apply Z.eqb_neq. lia. }
  assert (Hst : forall c0 e0, st (script c0 e0 (show_feedback s))
                              = show_feedback s).
  { intros c0 e0.
    rewrite script_feedback_screen; [|exact Hsc|reflexivity|exact Hnr].
    cbn [st emit]. rewrite st_restart_button. unfold score_interview.
    destruct (scoring e0); reflexivity. }
  assert (Hcalls : forall c0 e0,
            scoring_calls (log (script c0 e0 (show_feedback s)))
            = [Create "gpt-4o" (scoring_messages (render (messages s))) false]).
  { intros c0 e0.
    rewrite script_feedback_screen; [|exact Hsc|reflexivity|exact Hnr].
    unfold restart_button, when, score_interview.
    destruct (scoring e0), (clicked RestartBtn c0); reflexivity. }
  assert (Hbtn : forall c0 e0,
            buttons (log (script c0 e0 (show_feedback s))) = [RestartBtn]).
  { intros c0 e0.
    rewrite script_feedback_screen; [|exact Hsc|reflexivity|exact Hnr].
    unfold restart_button, when, score_interview.
    destruct (scoring e0), (clicked RestartBtn c0); reflexivity. }
  assert (Hno : forall c0 e0,
            ~ In FeedbackBtn (buttons (log (script c0 e0 (show_feedback s))))).
  { intros c0 e0. rewrite Hbtn. intros [H|[]]. discriminate H. }
  unfold rerun, callback. rewrite Hst.
  split; [reflexivity|]. split; [reflexivity|].
  split.
  { rewrite script_feedback_screen; [|exact Hsc|reflexivity|exact Hnr].
    unfold restart_button, when, score_interview. rewrite He.
    destruct (clicked RestartBtn (Some FeedbackBtn)); cbn; auto 10. }
  split; [apply Hcalls|].
  split.
  { rewrite script_feedback_screen; [|exact Hsc|reflexivity|exact Hnr].
    unfold restart_button, when, score_interview. rewrite He.
    destruct (clicked RestartBtn (Some FeedbackBtn)); cbn; auto 10. }
  split; [apply Hst|]. split; [apply Hcalls|].
  split.
  { rewrite script_feedback_screen; [|exact Hsc|reflexivity|exact Hnr].
    unfold restart_button, when, score_interview. rewrite He.
    reflexivity. }
  split; [apply Hbtn|]. split; [apply Hno|].
  split; [apply Hbtn|]. split; [apply Hno|].
  rewrite Hst. unfold feedback_eligible. cbn. rewrite Hcc. reflexivity.
Qed.

Lemma scoring_failure_reported_state_kept_witness :
  let s := request_stop
             (interview_at 1 [brief; user_message "hi";
                              assistant_message "Hello world"]) in
  let w := rerun (Some FeedbackBtn) (unscored "timeout") s in
  st w = show_feedback s
  /\ phase (st w) = FeedbackShown
  /\ In (Error "Feedback generation failed: timeout") (log w)
  /\ st (script (Some DownloadBtn) quiet (st w)) = st w
  /\ buttons (log w) = [RestartBtn]
  /\ buttons (log (script (Some DownloadBtn) quiet (st w))) = [RestartBtn].
Proof.
  intros s w.
  destruct (scoring_failure_reported_state_kept s (Some DownloadBtn)
              (unscored "timeout") quiet "timeout"
              eq_refl eq_refl eq_refl)
    as (H1 & H2 & H3 & _ & _ & H6 & _ & _ & H9 & _ & H11 & _).
  repeat split; assumption.
Defined.

(** ** Rendering of the transcript *)

Lemma render_first_line (m : Message) (rest : list Message) :
  render (m :: rest) = line_of m ++ following_lines rest.
Proof.
  revert m. induction rest as [|m' rest IH]; intros m.
  - cbn. now rewrite append_empty_r.
  - rewrite render_cons, IH. cbn [following_lines fold_right].
    reflexivity.
Qed.

(** C8.  On the feedback screen of any session, the feedback prompt and
    the export carry the same rendering of the transcript: one line per
    message, the role, a colon, a space and the content, in transcript
    order, the lines joined by the newline character (code 10) with
    nothing after the last line.  The run makes exactly one scoring call,
    whose user prompt is the fixed preamble followed by that rendering,
    and offers the rendering for download as interview_transcript.txt.
    A non-empty transcript starts with its one system message, so the
    rendering starts with the line "system: " and the system prompt, and
    every later line begins with a newline. *)
Theorem transcript_rendering :
  forall (steps : list (Click * Env)) (c : Click) (e : Env),
    let s := run_session steps defaults in
    feedback_shown s = true -> feedback_refused s = false ->
    let w := script c e s in
    scoring_calls (log w)
    = [Create "gpt-4o"
         [ {| role := "system"; content := scoring_system_prompt |};
           {| role := "user";
              content := scoring_user_prefix ++ render (messages s) |} ]
         false]
    /\ In (Download "interview_transcript.txt" (render (messages s))
             "text/plain") (log w)
    /\ (forall ms m, render (ms ++ [m]) =
          if match ms with [] => true | _ => false end
          then line_of m else render ms ++ nl ++ line_of m)
    /\ (forall m rest, messages s = m :: rest ->
          role m = "system"
          /\ Forall (fun x => role x <> "system") rest
          /\ render (messages s)
             = "system: " ++ content m ++ following_lines rest)
    /\ render [] = ""
    /\ (forall a, render [a] = role a ++ ": " ++ content a)
    /\ (forall a b ms,
          render (a :: b :: ms)
          = role a ++ ": " ++ content a
            ++ String "010"%char (render (b :: ms)))
    /\ (forall m rest, messages s = m :: rest ->
          render (messages s)
          = "system: " ++ content m
            ++ fold_right
                 (fun x acc =>
                    String "010"%char (role x ++ ": " ++ content x ++ acc))
                 "" rest)
    /\ render [ {| role := "system"; content := "You are an HR executive" |};
                {| role := "user"; content := "hi" |};
                {| role := "assistant"; content := "Hello world" |} ]
       = "system: You are an HR executive"
         ++ String "010"%char
              ("user: hi"
               ++ String "010"%char "assistant: Hello world").
Proof.
  intros steps c e s Hfs Hnr w. subst w.
  assert (Hwf : well_formed s).
  { apply (evolves_well_formed defaults); [|apply defaults_well_formed].
    apply run_session_evolves. }
  destruct Hwf as (Hok & Hset & _).
  assert (Hsc : setup_complete s = true).
  { apply Hset. unfold feedback_refused in Hnr.
    apply orb_false_elim in Hnr as [_ Hz]. now apply Z.eqb_neq in Hz. }
  rewrite script_feedback_screen by assumption.
  split.
  { unfold restart_button, when, score_interview.
    destruct (scoring e), (clicked RestartBtn c); reflexivity. }
  split.
  { unfold restart_button, when, score_interview.
    destruct (scoring e), (clicked RestartBtn c); cbn; auto 10. }
  split.
  { intros ms m. destruct ms as [|a ms]; [reflexivity|].
    now apply render_snoc. }
  split.
  { intros m rest Hm. rewrite Hm in Hok. destruct Hok as [Hr Hrest].
    split; [exact Hr|]. split; [exact Hrest|].
    rewrite Hm, render_first_line. unfold line_of. rewrite Hr.
    now rewrite !append_assoc. }
  split; [reflexivity|].
  split; [intros a; apply render_single|].
  split.
  { intros a b ms. rewrite render_cons. unfold line_of, nl.
    rewrite !append_assoc. reflexivity. }
  split; [|reflexivity].
  intros m rest Hm. rewrite Hm in Hok. destruct Hok as [Hr _].
  assert (Hfl : following_lines rest
                = fold_right
                    (fun x acc =>
                       String "010"%char (role x ++ ": " ++ content x ++ acc))
                    "" rest).
  { clear. induction rest as [|x rest IH]; [reflexivity|].
    cbn [fold_right]. rewrite <- IH.
    unfold following_lines at 1. cbn [fold_right].
    fold (following_lines rest).
    unfold line_of, nl. rewrite !append_assoc. reflexivity. }
  rewrite Hm, render_first_line. unfold line_of. rewrite Hr, Hfl.
  rewrite !append_assoc. reflexivity.
Qed.

Lemma transcript_rendering_witness :
  let steps := [(None, quiet); (Some StartBtn, say "hi" hello_world);
                (Some StopBtn, quiet); (Some FeedbackBtn, quiet)] in
  let s := run_session steps defaults in
  let w := script None quiet s in
  List.length (messages s) = 3%nat
  /\ scoring_calls (log w)
     = [Create "gpt-4o"
          [ {| role := "system"; content := scoring_system_prompt |};
            {| role := "user";
               content := scoring_user_prefix ++ render (messages s) |} ]
          false]
  /\ In (Download "interview_transcript.txt" (render (messages s))
           "text/plain") (log w)
  /\ (forall m rest, messages s = m :: rest ->
        render (messages s)
        = "system: " ++ content m
          ++ fold_right
               (fun x acc =>
                  String "010"%char (role x ++ ": " ++ content x ++ acc))
               "" rest).
Proof.
  intros steps s w.
  destruct (transcript_rendering steps None quiet eq_refl eq_refl)
    as (H1 & H2 & _ & _ & _ & _ & _ & H8 & _).
  split; [reflexivity|]. split; [exact H1|]. split; [exact H2 | exact H8].
Defined.

(** ** Secrets and the cached client *)

Lemma str_truthy_nonempty (v : string) : str_truthy v = true <-> v <> "".
Proof. destruct v; simpl; split; intros H; congruence. Qed.

(** X1.  [get_required_secret] returns a value exactly when that value is
    a non-empty string found in the environment, or found in the secrets
    store while the environment variable is unset or empty: the
    environment wins, and an empty variable counts as missing. *)
Theorem get_required_secret_returns :
  forall (h : Host) (name v : string),
    get_required_secret h name = Secret v
    <-> v <> ""
        /\ (getenv h name = Some v
            \/ (opt_truthy (getenv h name) = false
                /\ secrets h name = Some v)).
Proof.
  intros h name v. unfold get_required_secret.
  destruct (getenv h name) as [[|a x]|] eqn:Eg;
    cbn [opt_truthy str_truthy negb];
    try destruct (secrets h name) as [[|b y]|] eqn:Es;
    cbn [str_truthy];
    (split;
     [ intros H;
       first [ discriminate H
             | injection H as <-; split; [discriminate | auto] ]
     | intros [Hv [H|[H1 H]]]; congruence ]).
Qed.

Lemma secret_halts_iff :
  forall (h : Host) (name msg : string),
    get_required_secret h name = Halted msg
    <-> msg = missing_secret name
        /\ opt_truthy (getenv h name) = false
        /\ opt_truthy (secrets h name) = false.
Proof.
  intros h name msg. unfold get_required_secret.
  destruct (getenv h name) as [[|a x]|] eqn:Eg;
    cbn [opt_truthy str_truthy negb];
    try destruct (secrets h name) as [[|b y]|] eqn:Es;
    cbn [opt_truthy str_truthy];
    split; try discriminate;
    try (intros H; injection H as <-; auto);
    try (intros (-> & _ & _); reflexivity);
    intros (_ & H1 & H2); discriminate.
Qed.

(** X2.  [get_required_secret] halts exactly when neither the environment
    nor the secrets store holds a non-empty value (a failing store lookup
    counts as none), and the error it shows names the missing secret. *)
Theorem get_required_secret_halts :
  forall (h : Host) (name msg : string),
    get_required_secret h name = Halted msg
    <-> msg = missing_secret name
        /\ opt_truthy (getenv h name) = false
        /\ opt_truthy (secrets h name) = false.
Proof. exact secret_halts_iff. Qed.




(** ** The session dictionary *)

Lemma store_get_snoc (k k' : string) (v : Value) (d : Store) :
  store_get k (d ++ [(k', v)])%list
  = match store_get k d with
    | Some x => Some x
    | None => if (k =? k')%string then Some v else None
    end.
Proof.
  induction d as [|[k0 v0] d IH]; simpl; [reflexivity|].
  destruct (k =? k0)%string; [reflexivity | exact IH].
Qed.

Lemma fold_set_default_get (items : Store) :
  forall (d : Store) (k : string),
    store_get k (fold_left set_default items d)
    = match store_get k d with
      | Some v => Some v
      | None => store_get k items
      end.
Proof.
  induction items as [|[k' v'] items IH]; intros d k; simpl.
  - now destruct (store_get k d).
  - rewrite IH. unfold set_default, store_has. cbn [fst].
    destruct (store_get k' d) eqn:Ek'.
    + destruct (store_get k d) eqn:Ek; [reflexivity|].
      destruct (String.eqb_spec k k') as [->|_]; [congruence | reflexivity].
    + rewrite store_get_snoc.
      destruct (store_get k d); [reflexivity|].
      now destruct (k =? k')%string.
Qed.

(** X4.  The initialisation of lines 84-86 keeps every key the session
    already holds and gives every other default key its default value.  A
    session that holds the fourteen keys is left exactly as it is, and
    reads back as the same record; a session with no keys reads back as
    [defaults]. *)
Theorem defaults_fill_missing_keys_only :
  (forall (d : Store) (k : string),
     store_get k (apply_defaults d)
     = match store_get k d with
       | Some v => Some v
       | None => store_get k default_items
       end)
  /\ (forall s : SessionState,
        apply_defaults (save s) = save s /\ load (save s) = Some s)
  /\ load (apply_defaults []) = Some defaults.
Proof.
  split; [intros d k; apply fold_set_default_get|].
  split; [|reflexivity].
  intros s. split; [reflexivity|].
  destruct s as [sc n fs cc ms nm ex sk lv ps co om sr se].
  destruct lv, ps, co; reflexivity.
Qed.

(** ** The outcome of a run *)

Lemma st_end_interview (w : World) :
  st (end_interview w) = close_interview (st w).
Proof.
  unfold end_interview, close_interview, when.
  now destruct (_ || _).
Qed.

Lemma input_gate_init (s : SessionState) :
  input_gate (init_messages s) = input_gate s.
Proof.
  destruct (init_messages_frame s) as (_ & I2 & _ & _ & I5 & _).
  unfold input_gate. now rewrite I2, I5.
Qed.

Lemma append_twice (u a : Message) (s : SessionState) :
  append_message a (append_message u s)
  = set_messages (messages s ++ [u; a]) s.
Proof.
  break_state s. unfold append_message, set_messages; cbn.
  now rewrite <- app_assoc.
Qed.

Lemma append_after_stop (u a : Message) (s : SessionState) :
  append_message a (request_stop (append_message u s))
  = set_messages (messages s ++ [u; a]) (request_stop s).
Proof.
  break_state s. unfold request_stop, append_message, set_messages; cbn.
  destruct (n =? 0); cbn; now rewrite <- app_assoc.
Qed.

Lemma close_after_stop (s : SessionState) :
  close_interview (request_stop s) = request_stop s.
Proof.
  unfold close_interview.
  rewrite (proj1 (request_stop_flags s)), orb_true_r.
  break_state s. unfold request_stop; cbn. destruct (n =? 0); reflexivity.
Qed.

(** The state a user turn leaves. *)
Lemma user_turn_outcome (p : string) (e : Env) (w : World) :
  stop_requested (st w) = false ->
  (exists reply,
     (reply = []
      \/ (generatesReply (user_message_count (st w)) = true
          /\ exists t, reply = [assistant_message t]))
     /\ st (user_turn p e w)
        = count_turn
            (set_messages (messages (st w) ++ user_message p :: reply)
               (st w)))
  \/ (generatesReply (user_message_count (st w)) = true
      /\ (exists evs, completion e = CreateStream evs /\ In StopPressed evs)
      /\ exists t,
        st (user_turn p e w)
        = count_turn
            (set_messages
               (messages (st w) ++ [user_message p; assistant_message t])
               (request_stop (st w)))).
Proof.
  intros Hs. rewrite user_turn_eq. unfold when.
  destruct (generatesReply (user_message_count (st w))) eqn:Hg.
  - unfold assistant_reply. destruct (completion e) as [err|evs] eqn:Hc.
    + left. exists []. split; [now left|reflexivity].
    + set (w1 := emit _ (turn_start p w)).
      set (t := loop_text evs "" w1).
      destruct (stop_free_dec evs) as [Hfree|Hin].
      * left. exists [assistant_message t].
        split; [right; split; [reflexivity | now exists t]|].
        rewrite stream_reply_eq. cbv zeta. fold t.
        assert (H1 : st (loop_world evs "" w1) = st (turn_start p w)).
        { now rewrite (stream_loop_stop_free evs "" w1 Hfree). }
        assert (Hts : stop_requested (st (turn_start p w)) = false)
          by exact Hs.
        rewrite H1, Hts. cbn [st modify]. rewrite H1.
        cbn [st emit turn_start modify].
        now rewrite append_twice.
      * destruct (stream_reply_state evs w1 Hs) as [H|H]; fold t in H.
        -- left. exists [assistant_message t].
           split; [right; split; [reflexivity | now exists t]|].
           cbn [st modify]. rewrite H. unfold w1.
           cbn [st emit turn_start modify].
           now rewrite append_twice.
        -- right. split; [reflexivity|].
           split; [now exists evs|]. exists t.
           cbn [st modify]. rewrite H. unfold w1.
           cbn [st emit turn_start modify].
           now rewrite append_after_stop.
  - left. exists []. split; [now left|reflexivity].
Qed.

(** The state a run leaves is one of [whole_outcome], or, when the stop
    flag is raised inside the loop, the one of [flag_outcome]. *)
Lemma script_outcome (c : Click) (e : Env) (s : SessionState) :
  whole_outcome s (st (script c e s))
  \/ ((exists evs, completion e = CreateStream evs /\ In StopPressed evs)
      /\ flag_outcome s (st (script c e s))).
Proof.
  rewrite script_state.
  destruct (setup_complete s) eqn:Hsc.
  - rewrite setup_stage_skip by exact Hsc.
    destruct (interviewing s) eqn:Hi.
    + destruct (esc_pressed (esc_signal e)) eqn:He.
      * left. unfold interview_phase. cbn [st]. rewrite Hi.
        rewrite esc_listener_stop by assumption.
        rewrite st_end_interview.
        rewrite chat_input_closed.
        2:{ wsimpl. unfold input_gate.
            rewrite (proj1 (request_stop_flags _)). apply andb_false_r. }
        wsimpl. rewrite render_chat_eq. wsimpl.
        rewrite close_after_stop. now apply out_esc.
      * rewrite interview_phase_idle by assumption.
        rewrite st_end_interview.
        set (w0 := before_input {| st := s; log := [] |}).
        assert (Hw0 : st w0 = init_messages s) by apply st_before_input.
        unfold chat_input.
        destruct (input_gate (st w0)) eqn:Hg;
          [|left; rewrite Hw0; now apply out_wait].
        destruct (prompt e) as [p|];
          [|left; cbn [st emit]; rewrite Hw0; now apply out_wait].
        destruct (str_truthy p) eqn:Ht;
          [|left; cbn [st emit]; rewrite Hw0; now apply out_wait].
        rewrite Hw0, input_gate_init in Hg.
        destruct (input_gate_inv _ Hg) as [_ Hs].
        destruct (init_messages_frame s) as (_ & I2 & _ & _ & I5 & _).
        destruct (user_turn_outcome p e (emit ChatInput w0))
          as [(reply & Hreply & Hst)|(Hgen & Hev & t & Hst)].
        { cbn [st emit]. now rewrite Hw0, I5. }
        -- left. rewrite Hst. cbn [st emit]. rewrite Hw0.
           cbn [st emit] in Hreply. rewrite Hw0, I2 in Hreply.
           now apply out_turn.
        -- right. split; [exact Hev|].
           rewrite Hst. cbn [st emit]. rewrite Hw0.
           cbn [st emit] in Hgen. rewrite Hw0, I2 in Hgen.
           now apply out_flag.
    + left. rewrite interview_phase_skip by exact Hi. now apply out_idle.
  - left. unfold setup_stage. cbn [st]. rewrite Hsc. cbn [negb].
    rewrite interview_phase_skip.
    + rewrite st_when_emit. cbn. now apply out_setup.
    + rewrite st_when_emit. cbn. unfold interviewing. cbn. now rewrite Hsc.
Qed.

(** ** What each section adds to the page *)

Lemma extends_refl (P : Effect -> bool) (w : World) : extends P w w.
Proof. exists []. now rewrite app_nil_r. Qed.

Lemma extends_trans (P : Effect -> bool) (a b c : World) :
  extends P a b -> extends P b c -> extends P a c.
Proof.
  intros (l1 & E1 & F1) (l2 & E2 & F2). exists (l1 ++ l2)%list.
  rewrite E2, E1, <- app_assoc. split; [reflexivity|].
  rewrite forallb_app. now rewrite F1, F2.
Qed.

Lemma extends_emit (P : Effect -> bool) (x : Effect) (w : World) :
  P x = true -> extends P w (emit x w).
Proof. intros H. exists [x]. simpl. now rewrite H. Qed.

Lemma extends_modify (P : Effect -> bool) (f : SessionState -> SessionState)
  (w : World) : extends P w (modify f w).
Proof. exists []. simpl. now rewrite app_nil_r. Qed.

Lemma extends_weaken (P Q : Effect -> bool) (w w' : World) :
  (forall x, P x = true -> Q x = true) -> extends P w w' -> extends Q w w'.
Proof.
  intros H (l & E & F). exists l. split; [exact E|].
  rewrite forallb_forall in *. auto.
Qed.

Lemma extends_log (P : Effect -> bool) (w w' : World) :
  log w' = log w -> extends P w w'.
Proof. intros H. exists []. now rewrite app_nil_r. Qed.

Lemma stream_loop_extends (evs : list StreamEvent) :
  forall (acc : string) (w : World),
    extends loop_effect w (loop_world evs acc w).
Proof.
  unfold loop_world.
  induction evs as [|ev evs IH]; intros acc w; simpl.
  - apply extends_refl.
  - destruct ev as [|c|err]; simpl.
    + eapply extends_trans; [|apply IH]. apply extends_modify.
    + destruct (stop_requested (st w)); simpl; [apply extends_refl|].
      destruct (chunk_delta c) as [[|ch d]|]; simpl; try apply IH.
      eapply extends_trans; [|apply IH]. now apply extends_emit.
    + now apply extends_emit.
Qed.

Lemma loop_effect_interview (d : bool) (x : Effect) :
  loop_effect x = true -> interview_effect d x = true.
Proof. destruct x; simpl; congruence. Qed.

Lemma stream_reply_extends (d : bool) (evs : list StreamEvent) (w : World) :
  extends (interview_effect d) w (stream_reply evs w).
Proof.
  rewrite stream_reply_eq. cbv zeta.
  eapply extends_trans; [|apply extends_modify].
  eapply extends_trans.
  { eapply extends_weaken; [apply loop_effect_interview|].
    apply stream_loop_extends. }
  destruct (stop_requested _); [|apply extends_refl].
  eapply extends_trans; [apply extends_modify | now apply extends_emit].
Qed.

Lemma user_turn_extends (d : bool) (p : string) (e : Env) (w : World) :
  extends (interview_effect d) w (user_turn p e w).
Proof.
  rewrite user_turn_eq.
  eapply extends_trans; [|apply extends_modify].
  assert (H0 : extends (interview_effect d) w (turn_start p w)).
  { unfold turn_start.
    eapply extends_trans; [apply extends_modify | now apply extends_emit]. }
  eapply extends_trans; [exact H0|].
  unfold when. destruct (generatesReply _); [|apply extends_refl].
  unfold assistant_reply. cbv zeta.
  set (call := Create _ _ true).
  eapply extends_trans;
    [apply (extends_emit (interview_effect d) call); reflexivity|].
  destruct (completion e) as [err|evs].
  - now apply extends_emit.
  - apply stream_reply_extends.
Qed.

Lemma chat_input_extends (d : bool) (e : Env) (w : World) :
  extends (interview_effect d) w (chat_input e w).
Proof.
  unfold chat_input.
  destruct (input_gate (st w)); [|apply extends_refl].
  assert (H0 : extends (interview_effect d) w (emit ChatInput w))
    by now apply extends_emit.
  destruct (prompt e) as [p|]; [|exact H0].
  destruct (str_truthy p); [|exact H0].
  eapply extends_trans; [exact H0 | apply user_turn_extends].
Qed.

Lemma chat_bubbles_interview (d : bool) (ms : list Message) :
  forallb (interview_effect d) (chat_bubbles ms) = true.
Proof.
  induction ms as [|m ms IH]; [reflexivity|].
  cbn [chat_bubbles flat_map]. fold (chat_bubbles ms).
  rewrite forallb_app, IH. now destruct (negb _).
Qed.

Lemma esc_listener_log (e : Env) (w : World) :
  log (esc_listener e w) = (log w ++ [EscListener])%list.
Proof.
  destruct (esc_pressed (esc_signal e)) eqn:E.
  - now rewrite esc_listener_stop.
  - now rewrite esc_listener_idle.
Qed.

(** The interview block adds nothing when the session is not in the
    interview; otherwise only interview effects, with the stop button
    drawn from the stop flag the run started with. *)
Lemma interview_phase_extends (e : Env) (w : World) :
  extends (interview_effect (stop_requested (st w))) w (interview_phase e w)
  /\ (interviewing (st w) = false -> interview_phase e w = w).
Proof.
  split; [|apply interview_phase_skip].
  unfold interview_phase.
  destruct (interviewing (st w)); [|apply extends_refl].
  set (d := stop_requested (st w)).
  eapply extends_trans; [|apply extends_log; unfold end_interview, when;
                           now destruct (_ || _)].
  eapply extends_trans; [|apply chat_input_extends].
  eapply extends_trans;
    [|exists [EscListener]; split; [apply esc_listener_log | reflexivity]].
  rewrite render_chat_eq. cbn [st modify emit log].
  exists (Info "Start by introducing yourself"
          :: chat_bubbles (messages (init_messages (st w)))
          ++ [Button StopBtn (stop_requested (init_messages (st w)))])%list.
  split.
  - cbn [log emit]. now rewrite <- !app_assoc.
  - cbn [forallb interview_effect andb]. rewrite forallb_app.
    rewrite chat_bubbles_interview. cbn [forallb interview_effect andb].
    rewrite (proj1 (proj2 (proj2 (proj2 (proj2 (init_messages_frame _)))))).
    unfold d. now destruct (stop_requested (st w)).
Qed.

Lemma get_feedback_eq (c : Click) (w : World) :
  get_feedback c w
  = {| st := st w;
       log := (log w
               ++ (if feedback_eligible (st w)
                   then Button FeedbackBtn false
                        :: (if clicked FeedbackBtn c
                            then [WriteText "Fetching feedback..."] else [])
                   else []))%list |}.
Proof.
  destruct w as [s l]. unfold get_feedback, when, emit. cbn [st log].
  destruct (feedback_eligible s), (clicked FeedbackBtn c); cbn [st log];
    rewrite <- ?app_assoc, ?app_nil_r; reflexivity.
Qed.

Lemma restart_button_eq (b : ButtonId) (c : Click) (w : World) :
  restart_button b c w
  = {| st := st w; log := (log w ++ restart_log b c)%list |}.
Proof.
  destruct w as [s l]. unfold restart_button, restart_log, when, emit.
  cbn [st log]. destruct (clicked b c); cbn [st log];
    rewrite <- ?app_assoc; reflexivity.
Qed.

Lemma early_stop_notice_eq (c : Click) (w : World) :
  early_stop_notice c w
  = {| st := st w;
       log := (log w
               ++ (if stopped_before_start (st w)
                   then Info "Interview was stopped before it began."
                        :: restart_log RestartEarly c
                   else []))%list |}.
Proof.
  destruct w as [s l]. unfold early_stop_notice. cbn [st log].
  destruct (stopped_before_start s).
  - rewrite restart_button_eq. cbn [st log emit].
    now rewrite <- app_assoc.
  - now rewrite app_nil_r.
Qed.

(** The sections after the interview block leave the state alone and add
    [closing_log] to the page. *)
Lemma closing_sections_eq (c : Click) (e : Env) (w : World) :
  closing_sections c e w
  = {| st := st w; log := (log w ++ closing_log c e (st w))%list |}.
Proof.
  unfold closing_sections, closing_log.
  rewrite get_feedback_eq, early_stop_notice_eq. cbn [st log].
  set (l1 := if feedback_eligible (st w) then _ else _).
  set (l2 := if stopped_before_start (st w) then _ else _).
  unfold feedback_screen. cbn [st log].
  destruct (feedback_shown (st w)).
  - destruct (feedback_refused (st w)).
    + rewrite restart_button_eq. cbn [st log emit].
      now rewrite <- !app_assoc.
    + rewrite restart_button_eq. unfold score_interview.
      destruct (scoring e); unfold emit; cbn [st log];
        rewrite <- !app_assoc; cbn [app]; reflexivity.
  - unfold emit; cbn [st log]. now rewrite <- !app_assoc.
Qed.

Lemma setup_stage_extends (c : Click) (e : Env) (w : World) :
  extends setup_effect w (setup_stage c e w).
Proof.
  unfold setup_stage. destruct (negb (setup_complete (st w)));
    [|apply extends_refl].
  eapply extends_trans; [apply extends_modify|].
  eapply extends_trans; [now apply (extends_emit setup_effect SetupForm)|].
  eapply extends_trans;
    [now apply (extends_emit setup_effect (Button StartBtn false))|].
  unfold when. destruct (clicked StartBtn c); [|apply extends_refl].
  now apply extends_emit.
Qed.

(** The page a run leaves: what the setup stage shows (nothing once setup
    is complete), what the interview block shows (nothing outside the
    interview), and the closing sections for the state the run ends in. *)
Lemma script_page (c : Click) (e : Env) (s : SessionState) :
  exists l1 l2,
    log (script c e s)
    = (l1 ++ l2 ++ closing_log c e (st (script c e s)))%list
    /\ forallb setup_effect l1 = true
    /\ forallb (interview_effect (stop_requested s)) l2 = true
    /\ (setup_complete s = true -> l1 = [])
    /\ (interviewing s = false -> l2 = []).
Proof.
  rewrite script_sections, closing_sections_eq. cbn [st log].
  set (w0 := {| st := s; log := [] |}).
  destruct (setup_stage_extends c e w0) as (l1 & E1 & F1).
  destruct (interview_phase_extends e (setup_stage c e w0))
    as ((l2 & E2 & F2) & Hskip).
  assert (Hstop : stop_requested (st (setup_stage c e w0)) = stop_requested s).
  { unfold setup_stage. cbn [st w0].
    destruct (negb (setup_complete s)); [|reflexivity].
    now rewrite st_when_emit. }
  assert (Hint : interviewing (st (setup_stage c e w0)) = interviewing s).
  { unfold setup_stage. cbn [st w0].
    destruct (negb (setup_complete s)); [|reflexivity].
    now rewrite st_when_emit. }
  rewrite Hstop in F2. rewrite Hint in Hskip.
  destruct (setup_complete s) eqn:Hsc.
  - assert (Hl1 : l1 = []).
    { rewrite (setup_stage_skip c e w0 Hsc) in E1. cbn [log w0] in E1.
      destruct l1; [reflexivity | discriminate]. }
    subst l1.
    destruct (interviewing s) eqn:Hi.
    + exists [], l2. rewrite E2, E1. cbn [log w0 app].
      repeat split; try assumption; discriminate.
    + exists [], []. rewrite (Hskip eq_refl), E1. cbn [log w0 app].
      repeat split; reflexivity.
  - assert (Hi : interviewing s = false).
    { unfold interviewing. now rewrite Hsc. }
    exists l1, []. rewrite (Hskip Hi), E1. cbn [log w0 app].
    repeat split; try assumption; try reflexivity. discriminate.
Qed.

(** ** The run that is cut short *)

Lemma all_chunks_stop_free (evs : list StreamEvent) :
  all_chunks evs = true -> stop_free evs.
Proof.
  unfold all_chunks, stop_free. intros H Hin.
  rewrite forallb_forall in H. specialize (H _ Hin). discriminate H.
Qed.

Lemma extends_in (P : Effect -> bool) (w w' : World) (x : Effect) :
  extends P w w' -> In x (log w) -> In x (log w').
Proof. intros (l & E & _) H. rewrite E. apply in_or_app. now left. Qed.

Lemma before_input_extends (w : World) :
  extends (interview_effect (stop_requested (st w))) w (before_input w).
Proof.
  unfold before_input. rewrite render_chat_eq. cbn [st modify emit log].
  exists (Info "Start by introducing yourself"
          :: chat_bubbles (messages (init_messages (st w)))
          ++ [Button StopBtn (stop_requested (init_messages (st w)));
              EscListener])%list.
  split.
  - cbn [log emit]. rewrite <- !app_assoc. reflexivity.
  - cbn [forallb interview_effect andb]. rewrite forallb_app.
    rewrite chat_bubbles_interview. cbn [forallb interview_effect andb].
    rewrite (proj1 (proj2 (proj2 (proj2 (proj2 (init_messages_frame _)))))).
    now destruct (stop_requested (st w)).
Qed.

Lemma before_input_stop_button (w : World) :
  In (Button StopBtn (stop_requested (st w))) (log (before_input w)).
Proof.
  unfold before_input. rewrite render_chat_eq. cbn [st modify emit log].
  rewrite (proj1 (proj2 (proj2 (proj2 (proj2 (init_messages_frame _)))))).
  apply in_or_app. left. apply in_or_app. right. now left.
Qed.

Lemma turn_start_extends (d : bool) (p : string) (w : World) :
  extends (interview_effect d) w (turn_start p w).
Proof.
  unfold turn_start.
  eapply extends_trans; [apply extends_modify | now apply extends_emit].
Qed.

(** What a cut run leaves: the user message is stored, the turn is not
    counted, and the page is the interview block as far as it got, with
    the stop button on it. *)
Lemma cut_turn_inv (e : Env) (s : SessionState) (k : nat) (w : World) :
  cut_turn e s k = Some w ->
  interviewing s = true /\ input_gate s = true
  /\ esc_pressed (esc_signal e) = false
  /\ exists p,
      prompt e = Some p /\ str_truthy p = true
      /\ st w = append_message (user_message p) (init_messages s)
      /\ extends (interview_effect false) {| st := s; log := [] |} w
      /\ In (Button StopBtn false) (log w).
Proof.
  unfold cut_turn.
  destruct (interviewing s) eqn:Hi; [|intros H; discriminate H].
  destruct (esc_pressed (esc_signal e)) eqn:He; [intros H; discriminate H|].
  destruct (input_gate s) eqn:Hg; [|intros H; discriminate H].
  cbn [andb negb].
  destruct (prompt e) as [p|]; [|intros H; discriminate H].
  destruct (str_truthy p) eqn:Ht; [|intros H; discriminate H].
  destruct (input_gate_inv _ Hg) as [_ Hs].
  set (w0 := {| st := s; log := [] |}).
  set (w1 := emit ChatInput (before_input w0)).
  assert (E0 : extends (interview_effect false) w0 w1).
  { eapply extends_trans; [|now apply extends_emit].
    pose proof (before_input_extends w0) as H. cbn [st w0] in H.
    now rewrite Hs in H. }
  assert (B0 : In (Button StopBtn false) (log w1)).
  { unfold w1. cbn [log emit]. apply in_or_app. left.
    pose proof (before_input_stop_button w0) as H. cbn [st w0] in H.
    now rewrite Hs in H. }
  assert (S1 : st (turn_start p w1)
               = append_message (user_message p) (init_messages s)).
  { unfold turn_start, w1. cbn [st emit modify].
    now rewrite st_before_input. }
  intros H. split; [reflexivity|]. split; [reflexivity|].
  split; [reflexivity|]. exists p.
  split; [reflexivity|]. split; [exact Ht|].
  destruct (generatesReply (user_message_count s)).
  - destruct (completion e) as [err|evs]; [discriminate H|].
    destruct (all_chunks (firstn k evs)) eqn:Ha; [|discriminate H].
    injection H as <-.
    assert (E1 : extends (interview_effect false) w1 (reply_start p w1)).
    { unfold reply_start. cbv zeta.
      eapply extends_trans; [apply turn_start_extends|].
      now apply extends_emit. }
    assert (E2 : extends (interview_effect false) (reply_start p w1)
                   (loop_world (firstn k evs) "" (reply_start p w1))).
    { eapply extends_weaken; [apply loop_effect_interview|].
      apply stream_loop_extends. }
    split; [|split].
    + rewrite (stream_loop_stop_free _ "" _ (all_chunks_stop_free _ Ha)).
      unfold reply_start. cbv zeta. cbn [st emit]. exact S1.
    + eapply extends_trans; [exact E0|].
      eapply extends_trans; [exact E1 | exact E2].
    + eapply extends_in; [exact E2|]. eapply extends_in; [exact E1|]. exact B0.
  - destruct k; [|discriminate H]. injection H as <-.
    split; [exact S1|]. split.
    + eapply extends_trans; [exact E0 | apply turn_start_extends].
    + eapply extends_in; [apply (turn_start_extends false) | exact B0].
Qed.

Lemma cut_turn_outcome (e : Env) (s : SessionState) (k : nat) (w : World) :
  cut_turn e s k = Some w -> run_outcome s (st w).
Proof.
  intros H.
  destruct (cut_turn_inv e s k w H)
    as (Hi & Hg & _ & p & _ & Ht & Hst & _).
  rewrite Hst. now apply out_cut.
Qed.

(** On the streams a run can meet, every run of a session, whether it
    reaches its last line or is cut short, ends in one of the states of
    [run_outcome]. *)
Lemma run_one_outcome (s : SessionState) (c : Click) (e : Env) (r : Rerun) :
  r = Whole c e \/ (exists k, r = CutShort c e k) ->
  (forall evs, completion e = CreateStream evs -> stop_free evs) ->
  run_outcome (callback c s) (st (run_one s r)).
Proof.
  intros Hr Hfree.
  assert (Hw : run_outcome (callback c s) (st (rerun c e s))).
  { unfold rerun.
    destruct (script_outcome c e (callback c s))
      as [Ho|[(evs & Hc & Hin) _]]; [now apply out_whole|].
    exfalso. exact (Hfree evs Hc Hin). }
  destruct Hr as [->|[k ->]]; cbn [run_one]; [exact Hw|].
  destruct (cut_turn e (callback c s) k) as [w|] eqn:Hcut; [|exact Hw].
  exact (cut_turn_outcome _ _ _ _ Hcut).
Qed.

Lemma cut_turn_evolves (e : Env) (s : SessionState) (k : nat) (w : World) :
  cut_turn e s k = Some w -> evolves s (st w).
Proof.
  intros H.
  destruct (cut_turn_inv e s k w H) as (Hi & _ & _ & p & _ & _ & Hst & _).
  destruct (interviewing_inv s Hi) as (Hsc & _).
  rewrite Hst.
  eapply ev_step; [apply mut_init; exact Hsc|].
  apply evolves_one. unfold user_message.
  apply mut_append; [now apply init_messages_ready | discriminate].
Qed.

Lemma run_one_evolves (s : SessionState) (r : Rerun) :
  evolves s (st (run_one s r)).
Proof.
  assert (Hw : forall c e, evolves s (st (rerun c e s))).
  { intros c e. exact (step_evolves s (c, e)). }
  destruct r as [c e|c e k]; cbn [run_one]; [apply Hw|].
  destruct (cut_turn e (callback c s) k) as [w|] eqn:Hcut; [|apply Hw].
  eapply evolves_trans;
    [apply callback_evolves | exact (cut_turn_evolves _ _ _ _ Hcut)].
Qed.

Lemma run_all_evolves (rs : list Rerun) :
  forall s, evolves s (run_all rs s).
Proof.
  unfold run_all.
  induction rs as [|r rs IH]; intros s; cbn [fold_left].
  - apply ev_refl.
  - eapply evolves_trans; [apply run_one_evolves | apply IH].
Qed.

Lemma cut_turn_page_sound (e : Env) (s : SessionState) (k : nat)
  (w : World) :
  cut_turn e s k = Some w -> page_sound w.
Proof.
  intros H.
  destruct (cut_turn_inv e s k w H)
    as (Hi & _ & _ & p & _ & _ & Hst & (l & El & Fl) & _).
  cbn [log app] in El.
  split; intros Hin.
  - rewrite Hst. unfold append_message. 
    destruct (interviewing_inv s Hi) as (Hsc & _).
    destruct (init_messages_frame s) as (I1 & _).
    generalize dependent (init_messages s). intros s0 _ I1.
    break_state s0. congruence.
  - rewrite El in Hin. rewrite forallb_forall in Fl.
    specialize (Fl _ Hin). discriminate Fl.
Qed.

(** ** Consistency of the flags *)

Arguments system_prompt : simpl never.

Ltac prune :=
  repeat match goal with
         | H : true = true -> _ |- _ => specialize (H eq_refl)
         | H : false = true -> _ |- _ => clear H
         | H : false = false -> _ |- _ => specialize (H eq_refl)
         | H : true = false -> _ |- _ => clear H
         | H : _ /\ _ |- _ => destruct H
         | H : true = false |- _ => discriminate H
         | H : false = true |- _ => discriminate H
         end.

Ltac unfold_flags :=
  unfold consistent, interviewing, input_gate, acceptsInput, generatesReply,
    close_interview, count_turn, request_stop, init_messages, set_form,
    complete_setup, show_feedback, feedback_eligible in *;
  cbn in *.

Ltac split_flags :=
  repeat match goal with
         | |- context [if ?x then _ else _] =>
             let E := fresh "E" in destruct x eqn:E; cbn in *
         | |- context [match ?x with [] => _ | _ :: _ => _ end] =>
             destruct x; cbn in *
         end;
  repeat split; intros; prune; try discriminate; try lia; auto.

Ltac crush_flags :=
  unfold_flags;
  repeat match goal with
         | b : bool |- _ => destruct b; cbn in *; prune; try discriminate
         end;
  split_flags.

Lemma whole_outcome_consistent (s s' : SessionState) :
  whole_outcome s s' -> consistent s -> consistent s'.
Proof.
  intros Ho Hc.
  destruct Ho as [f Hsc|Hsc Hi|Hi|Hi|p reply Hi Hg Ht Hr];
    break_state s; crush_flags.
Qed.

Lemma run_outcome_consistent (s s' : SessionState) :
  run_outcome s s' -> consistent s -> consistent s'.
Proof.
  intros Ho Hc. destruct Ho as [s' Ho|p Hi Hg Ht].
  - exact (whole_outcome_consistent _ _ Ho Hc).
  - break_state s; crush_flags.
Qed.

Lemma flag_outcome_consistent (s s' : SessionState) :
  flag_outcome s s' -> consistent s -> consistent s'.
Proof.
  intros Ho Hc. destruct Ho as [p t Hi Hg Ht Hr].
  break_state s; crush_flags.
Qed.

Lemma script_consistent (c : Click) (e : Env) (s : SessionState) :
  consistent s -> consistent (st (script c e s)).
Proof.
  intros Hc. destruct (script_outcome c e s) as [Ho|[_ Ho]].
  - exact (whole_outcome_consistent _ _ Ho Hc).
  - exact (flag_outcome_consistent _ _ Ho Hc).
Qed.

Lemma offered_button (b : ButtonId) (page : list Effect) :
  b <> DownloadBtn -> offered (Some b) page = true ->
  In (Button b false) page.
Proof.
  intros Hb H.
  assert (Hex : existsb (fun x => match x with
                                  | Button b' false => button_eqb b b'
                                  | _ => false
                                  end) page = true).
  { destruct b; try exact H. congruence. }
  apply existsb_exists in Hex as (x & Hin & Hx).
  destruct x as [| | | | | | |b' [|]| | | | | |]; try discriminate.
  assert (b = b') by (destruct b, b'; simpl in Hx; congruence).
  now subst.
Qed.

Lemma callback_consistent (c : Click) (w : World) :
  consistent (st w) -> page_sound w -> offered c (log w) = true ->
  consistent (callback c (st w)).
Proof.
  intros Hc [Hstop Hfb] Hoff.
  destruct c as [[]|]; cbn [callback]; try exact Hc.
  - generalize dependent (st w). intros s Hc _ _. break_state s. crush_flags.
  - apply offered_button in Hoff; [|discriminate].
    specialize (Hstop Hoff). clear Hfb Hoff.
    generalize dependent (st w). intros s Hc Hsc. break_state s. crush_flags.
  - apply offered_button in Hoff; [|discriminate].
    specialize (Hfb Hoff). clear Hstop Hoff.
    generalize dependent (st w). intros s Hc He. break_state s. crush_flags.
Qed.

(** Which buttons the closing sections draw, and when. *)
Lemma closing_log_buttons (c : Click) (e : Env) (s : SessionState)
  (b : ButtonId) (d : bool) :
  In (Button b d) (closing_log c e s) ->
  d = false
  /\ ((b = FeedbackBtn /\ feedback_eligible s = true)
      \/ (b = RestartEarly /\ stopped_before_start s = true)
      \/ (b = RestartGuard /\ feedback_shown s = true
          /\ feedback_refused s = true)
      \/ (b = RestartBtn /\ feedback_shown s = true
          /\ feedback_refused s = false)).
Proof.
  unfold closing_log, restart_log.
  destruct (feedback_eligible s), (stopped_before_start s),
    (feedback_shown s), (feedback_refused s),
    (clicked FeedbackBtn c), (clicked RestartEarly c),
    (clicked RestartGuard c), (clicked RestartBtn c), (scoring e);
    cbn; intros H;
    repeat match goal with
           | H : _ \/ _ |- _ => destruct H
           | H : False |- _ => destruct H
           | H : Button _ _ = Button _ _ |- _ => injection H as <- <-
           | H : _ = Button _ _ |- _ => discriminate H
           end; auto 10.
Qed.

Lemma script_page_sound (c : Click) (e : Env) (s : SessionState) :
  page_sound (script c e s).
Proof.
  destruct (script_page c e s) as (l1 & l2 & E & F1 & F2 & H1 & H2).
  pose proof (evolves_advances _ _ (script_evolves c e s)) as (A1 & _).
  split; intros Hin; rewrite E in Hin;
    apply in_app_or in Hin as [Hin|Hin];
    try (rewrite forallb_forall in F1; specialize (F1 _ Hin); discriminate);
    apply in_app_or in Hin as [Hin|Hin].
  - apply A1. destruct (interviewing s) eqn:Hi.
    + now destruct (interviewing_inv s Hi).
    + rewrite (H2 eq_refl) in Hin. destruct Hin.
  - apply closing_log_buttons in Hin as (_ & [[H _]|[[H _]|[[H _]|[H _]]]]);
      discriminate.
  - rewrite forallb_forall in F2. specialize (F2 _ Hin). discriminate.
  - apply closing_log_buttons in Hin as (_ & [[_ H]|[[H _]|[[H _]|[H _]]]]);
      (assumption || discriminate).
Qed.

Lemma defaults_consistent : consistent defaults.
Proof. unfold consistent; cbn. repeat split; intros; (discriminate || lia). Qed.

(** Every page a user can reach has consistent flags and offers only what
    its state allows. *)
Lemma playable_sound (w : World) :
  playable w -> consistent (st w) /\ page_sound w.
Proof.
  induction 1 as [|w c e Hp [IHc IHp] Hoff|w c e k w' Hp [IHc IHp] Hoff Hcut].
  - split; [apply defaults_consistent|].
    split; intros H; destruct H.
  - split; [|apply script_page_sound].
    unfold rerun. apply script_consistent.
    now apply callback_consistent.
  - split; [|exact (cut_turn_page_sound _ _ _ _ Hcut)].
    eapply run_outcome_consistent; [exact (cut_turn_outcome _ _ _ _ Hcut)|].
    now apply callback_consistent.
Qed.

(** ** Profile and transcript across reruns *)

Lemma mutates_profile (s s' : SessionState) :
  mutates s s' -> setup_complete s = true ->
  setup_complete s' = true /\ profile_of s' = profile_of s
  /\ openai_model s' = openai_model s.
Proof.
  intros Hm Hsc.
  destruct Hm as [s f Hf|s|s|s|s _|s r c _ _|s _|s];
    try (break_state s; auto; fail).
  - congruence.
  - break_state s. unfold request_stop; cbn. destruct (n =? 0); auto.
  - break_state s. unfold init_messages; cbn. destruct ms; auto.
Qed.

Lemma evolves_profile (s s' : SessionState) :
  evolves s s' -> setup_complete s = true ->
  setup_complete s' = true /\ profile_of s' = profile_of s
  /\ openai_model s' = openai_model s.
Proof.
  induction 1 as [|s s' s'' Hm _ IH]; intros Hsc; [auto|].
  destruct (mutates_profile _ _ Hm Hsc) as (H1 & H2 & H3).
  destruct (IH H1) as (J1 & J2 & J3). repeat split; congruence.
Qed.

(** X5.  Once setup is complete the candidate profile and the model name
    are fixed: no later rerun, whatever is clicked and whatever the form
    widgets would return, changes the name, experience, skills, level,
    position, company or model of the session. *)
Theorem profile_fixed_after_setup :
  forall (s : SessionState) (later : list (Click * Env)),
    setup_complete s = true ->
    let s' := run_session later s in
    setup_complete s' = true
    /\ name s' = name s /\ experience s' = experience s
    /\ skills s' = skills s /\ level s' = level s
    /\ position s' = position s /\ company s' = company s
    /\ openai_model s' = openai_model s.
Proof.
  intros s later Hsc s'. subst s'.
  destruct (evolves_profile _ _ (run_session_evolves later s) Hsc)
    as (H1 & H2 & H3).
  unfold profile_of in H2. injection H2 as -> -> -> -> -> ->.
  repeat split; assumption.
Qed.

Lemma profile_fixed_after_setup_witness :
  let s := interview_at 0 [] in
  let s' := run_session [(None, say "hi" hello_world); (Some StopBtn, quiet)] s in
  setup_complete s' = true
  /\ name s' = name s /\ experience s' = experience s
  /\ skills s' = skills s /\ level s' = level s
  /\ position s' = position s /\ company s' = company s
  /\ openai_model s' = openai_model s.
Proof.
  apply (profile_fixed_after_setup (interview_at 0 [])
           [(None, say "hi" hello_world); (Some StopBtn, quiet)]).
  reflexivity.
Defined.

Lemma mutates_appends (s s' : SessionState) :
  mutates s s' -> exists l, messages s' = (messages s ++ l)%list.
Proof.
  intros Hm.
  destruct Hm as [s f Hf|s|s|s|s _|s r c _ _|s _|s];
    try (exists []; break_state s; now rewrite app_nil_r).
  - exists []. rewrite app_nil_r.
    now destruct (request_stop_flags s) as (_ & _ & _ & _ & F5 & _).
  - unfold init_messages. destruct (messages s) eqn:E.
    + eexists. cbn. reflexivity.
    + exists []. now rewrite E, app_nil_r.
  - eexists. reflexivity.
Qed.

Lemma evolves_appends (s s' : SessionState) :
  evolves s s' -> exists l, messages s' = (messages s ++ l)%list.
Proof.
  induction 1 as [s|s s' s'' Hm _ [l2 IH]].
  - exists []. now rewrite app_nil_r.
  - destruct (mutates_appends _ _ Hm) as [l1 H1].
    exists (l1 ++ l2)%list. now rewrite IH, H1, app_assoc.
Qed.

(** X6.  The transcript is append-only: across any reruns, whatever is
    clicked and whatever the services do, the messages already in the
    transcript stay where they are and unchanged, and new ones come after
    them.  In particular the system message, once created, stays the
    first message with the same content. *)
Theorem transcript_append_only :
  forall (s : SessionState) (later : list (Click * Env)),
    (exists l, messages (run_session later s) = (messages s ++ l)%list)
    /\ (forall m rest, messages s = m :: rest ->
          exists l, messages (run_session later s) = m :: (rest ++ l)%list).
Proof.
  intros s later.
  destruct (evolves_appends _ _ (run_session_evolves later s)) as [l H].
  split; [now exists l|].
  intros m rest Hm. exists l. now rewrite H, Hm.
Qed.

(** ** Counting the transcript *)

Lemma count_role_app (r : string) (a b : list Message) :
  count_role r (a ++ b) = count_role r a + count_role r b.
Proof.
  unfold count_role. rewrite filter_app, length_app. lia.
Qed.

Lemma tally_ext (b : bool) (s s' : SessionState) :
  messages s' = messages s -> user_message_count s' = user_message_count s ->
  tally b s -> tally b s'.
Proof. unfold tally. intros -> ->. auto. Qed.

Lemma tally_weaken (b : bool) (s : SessionState) :
  tally b s -> tally false s.
Proof.
  unfold tally. intros (H1 & H2 & H3 & H4 & H5).
  destruct b; repeat split; try assumption; lia.
Qed.

Lemma init_messages_tally (b : bool) (s : SessionState) :
  tally b s -> tally b (init_messages s).
Proof.
  unfold tally, init_messages.
  destruct (messages s) eqn:E; [|now rewrite E].
  cbn. intros (H1 & H2 & H3 & H4 & H5).
  destruct b; cbn in H2; repeat split; lia.
Qed.

Lemma close_interview_frame (s : SessionState) :
  messages (close_interview s) = messages s
  /\ user_message_count (close_interview s) = user_message_count s
  /\ feedback_shown (close_interview s) = feedback_shown s.
Proof. unfold close_interview. destruct (_ || _); auto. Qed.

(** A turn played to its end adds one user message, one counted turn and
    at most one assistant message, on top of either base state. *)
Lemma turn_tally (b : bool) (s base : SessionState) (p : string)
  (reply : list Message) :
  tally b s -> user_message_count s < 5 ->
  user_message_count base = user_message_count s ->
  reply = []
  \/ (user_message_count s < 4 /\ exists t, reply = [assistant_message t]) ->
  tally b
    (close_interview
       (count_turn
          (set_messages (messages s ++ user_message p :: reply) base))).
Proof.
  intros Ha Hlt Hn Hr.
  destruct (close_interview_frame
              (count_turn
                 (set_messages (messages s ++ user_message p :: reply) base)))
    as (Cm & Cn & _).
  unfold tally in *. rewrite Cm, Cn. cbn. rewrite Hn.
  destruct Ha as (H1 & H2 & H3 & H4 & H5).
  rewrite !count_role_app, length_app, Nat2Z.inj_add.
  destruct Hr as [->|(Hgen & t & ->)]; destruct b; cbn; repeat split; lia.
Qed.

Lemma whole_outcome_tally (b : bool) (s s' : SessionState) :
  whole_outcome s s' -> tally b s -> tally b s'.
Proof.
  intros Ho Ha.
  destruct Ho as [f Hsc|Hsc Hi|Hi|Hi|p reply Hi Hg Ht Hr].
  - eapply tally_ext; [| |exact Ha]; reflexivity.
  - exact Ha.
  - destruct (request_stop_flags (init_messages s))
      as (_ & _ & _ & F4 & F5 & _).
    eapply tally_ext;
      [exact F5 | exact F4 | apply init_messages_tally; exact Ha].
  - destruct (close_interview_frame (init_messages s)) as (Cm & Cn & _).
    eapply tally_ext;
      [exact Cm | exact Cn | apply init_messages_tally; exact Ha].
  - apply init_messages_tally in Ha.
    destruct (init_messages_frame s) as (_ & I2 & _).
    destruct (input_gate_inv _ Hg) as [Hacc _].
    unfold acceptsInput in Hacc. apply Z.ltb_lt in Hacc.
    apply turn_tally; [exact Ha | now rewrite I2 | reflexivity |].
    destruct Hr as [->|(Hgen & Hex)]; [now left|right].
    unfold generatesReply in Hgen. apply Z.ltb_lt in Hgen.
    rewrite I2. now split.
Qed.

Lemma flag_outcome_tally (b : bool) (s s' : SessionState) :
  flag_outcome s s' -> tally b s -> tally b s'.
Proof.
  intros Ho Ha. destruct Ho as [p t Hi Hg Ht Hgen].
  apply init_messages_tally in Ha.
  destruct (init_messages_frame s) as (_ & I2 & _).
  destruct (input_gate_inv _ Hg) as [Hacc _].
  unfold acceptsInput in Hacc. apply Z.ltb_lt in Hacc.
  unfold generatesReply in Hgen. apply Z.ltb_lt in Hgen.
  apply turn_tally; [exact Ha | now rewrite I2 | |].
  - now destruct (request_stop_flags (init_messages s))
      as (_ & _ & _ & F4 & _).
  - right. rewrite I2. split; [exact Hgen | now exists t].
Qed.

(** A run that is cut short leaves one more user message and the same
    count. *)
Lemma cut_tally (b : bool) (s : SessionState) (p : string) :
  tally b s ->
  tally false (append_message (user_message p) (init_messages s)).
Proof.
  intros Ha. apply init_messages_tally, tally_weaken in Ha.
  unfold tally in *. cbn.
  destruct Ha as (H1 & H2 & H3 & H4 & H5).
  rewrite !count_role_app, length_app, Nat2Z.inj_add.
  cbn. repeat split; lia.
Qed.

Lemma callback_tally (b : bool) (c : Click) (s : SessionState) :
  tally b s -> tally b (callback c s).
Proof.
  intros Ha. destruct c as [[]|]; cbn [callback]; try exact Ha.
  destruct (request_stop_flags s) as (_ & _ & _ & F4 & F5 & _).
  eapply tally_ext; [exact F5 | exact F4 | exact Ha].
Qed.

Lemma rerun_tally (b : bool) (c : Click) (e : Env) (s : SessionState) :
  tally b s -> tally b (st (rerun c e s)).
Proof.
  intros Ha. unfold rerun. apply (callback_tally b c) in Ha.
  destruct (script_outcome c e (callback c s)) as [Ho|[_ Ho]].
  - exact (whole_outcome_tally b _ _ Ho Ha).
  - exact (flag_outcome_tally b _ _ Ho Ha).
Qed.

Lemma run_one_tally (s : SessionState) (r : Rerun) :
  tally false s -> tally false (st (run_one s r)).
Proof.
  intros Ha. destruct r as [c e|c e k]; cbn [run_one].
  - now apply rerun_tally.
  - destruct (cut_turn e (callback c s) k) as [w|] eqn:Hcut;
      [|now apply rerun_tally].
    destruct (cut_turn_inv _ _ _ _ Hcut) as (_ & _ & _ & p & _ & _ & Hst & _).
    rewrite Hst. apply (cut_tally false). now apply callback_tally.
Qed.

Lemma defaults_tally : tally true defaults.
Proof. unfold tally; cbn. repeat split; lia. Qed.

(** X7.  In every session, with runs that reach their last line and runs
    that a click cuts short while the reply streams, the turn count stays
    between 0 and 5 and bounds the transcript: at least as many user
    messages as counted turns, at most one assistant message per counted
    turn and never more than four, at most one system message and nothing
    else.  When no run is cut short, the user messages are exactly the
    counted turns and the transcript never has more than ten messages. *)
Theorem turn_count_bounds_transcript :
  forall (rs : list Rerun),
    let s := run_all rs defaults in
    0 <= user_message_count s <= 5
    /\ user_message_count s <= count_role "user" (messages s)
    /\ count_role "assistant" (messages s) <= Z.min (user_message_count s) 4
    /\ count_role "system" (messages s) <= 1
    /\ Z.of_nat (List.length (messages s))
       = count_role "system" (messages s) + count_role "user" (messages s)
         + count_role "assistant" (messages s)
    /\ (forallb whole rs = true ->
        count_role "user" (messages s) = user_message_count s
        /\ (List.length (messages s) <= 10)%nat).
Proof.
  intros rs s.
  assert (Ht : tally false s).
  { subst s. unfold run_all.
    pose proof (tally_weaken _ _ defaults_tally) as H0.
    revert H0. generalize defaults.
    induction rs as [|r rs IH]; intros s0 H0; cbn [fold_left]; [exact H0|].
    apply IH. now apply run_one_tally. }
  destruct Ht as (H1 & H2 & H3 & H4 & H5).
  split; [exact H1|]. split; [exact H2|]. split; [exact H3|].
  split; [exact H4|]. split; [exact H5|].
  intros Hw.
  assert (Ha : tally true s).
  { subst s. unfold run_all. clear H1 H2 H3 H4 H5.
    pose proof defaults_tally as H0.
    revert H0 Hw. generalize defaults.
    induction rs as [|r rs IH]; intros s0 H0 Hw; cbn [fold_left];
      [exact H0|].
    cbn [forallb] in Hw. apply andb_prop in Hw as [Hr Hw].
    apply IH; [|exact Hw].
    destruct r as [c e|c e k]; [|discriminate Hr].
    cbn [run_one]. now apply rerun_tally. }
  destruct Ha as (A1 & A2 & A3 & A4 & A5). cbn in A2.
  split; [exact A2 | lia].
Qed.

(** A session of two runs that reach their last line: the start click,
    then a first answer. *)
Lemma turn_count_bounds_transcript_witness :
  let rs := [Whole (Some StartBtn) quiet; Whole None (say "hi" hello_world)] in
  forallb whole rs = true
  /\ count_role "user" (messages (run_all rs defaults))
     = user_message_count (run_all rs defaults)
  /\ (List.length (messages (run_all rs defaults)) <= 10)%nat.
Proof.
  intros rs. split; [reflexivity|].
  destruct (turn_count_bounds_transcript rs) as (_ & _ & _ & _ & _ & H).
  apply H. reflexivity.
Defined.

(** ** Sessions driven through the page *)

Lemma in_buttons (b : ButtonId) (l : list Effect) :
  In b (buttons l) <-> exists d, In (Button b d) l.
Proof.
  unfold buttons. rewrite in_flat_map. split.
  - intros (x & Hx & Hb). destruct x; cbn in Hb; try contradiction.
    destruct Hb as [<-|[]]. eauto.
  - intros (d & Hd). exists (Button b d). split; [assumption | now left].
Qed.

Lemma consistent_not_refused (s : SessionState) :
  consistent s -> feedback_shown s = true -> feedback_refused s = false.
Proof.
  intros (_ & _ & _ & _ & _ & _ & H) Hf.
  destruct (H Hf) as (_ & Hse & Hn). unfold feedback_refused.
  rewrite Hse. cbn. apply Z.eqb_neq. lia.
Qed.

(** X8.  On every page a user can reach, the flags and the turn count
    agree: an early stop implies a stop request, a stop request implies
    the chat is complete, a complete chat implies setup is complete and
    either a stop request or five turns, a stop that was not early
    implies at least one turn, the turn count is between 0 and 5 and five
    turns imply a complete chat, and the feedback screen implies a
    complete chat that was not stopped early and has at least one turn. *)
Theorem reachable_flags_agree :
  forall w : World,
    playable w ->
    let s := st w in
    (stopped_early s = true -> stop_requested s = true)
    /\ (stop_requested s = true -> chat_complete s = true)
    /\ (chat_complete s = true ->
        setup_complete s = true
        /\ (stop_requested s = true \/ user_message_count s = 5))
    /\ (stop_requested s = true -> stopped_early s = false ->
        1 <= user_message_count s)
    /\ 0 <= user_message_count s <= 5
    /\ (user_message_count s = 5 -> chat_complete s = true)
    /\ (feedback_shown s = true ->
        chat_complete s = true /\ stopped_early s = false
        /\ 1 <= user_message_count s).
Proof. intros w Hp. exact (proj1 (playable_sound w Hp)). Qed.

Lemma reachable_flags_agree_witness :
  let w := rerun (Some FeedbackBtn) quiet
             (st (rerun (Some StopBtn) quiet
                    (st (rerun None (say "hi" hello_world)
                           (st (rerun (Some StartBtn) quiet
                                  (st (rerun None quiet defaults)))))))) in
  phase (st w) = FeedbackShown
  /\ (feedback_shown (st w) = true ->
      chat_complete (st w) = true /\ stopped_early (st w) = false
      /\ 1 <= user_message_count (st w)).
Proof.
  intros w. split; [reflexivity|].
  assert (Hp : playable w).
  { unfold w.
    apply play_step; [|reflexivity].
    apply play_step; [|reflexivity].
    apply play_step; [|reflexivity].
    apply play_step; [|reflexivity].
    apply (play_step {| st := defaults; log := [] |} None quiet play_open).
    reflexivity. }
  exact (proj2 (proj2 (proj2 (proj2 (proj2 (proj2
           (reachable_flags_agree w Hp))))))).
Defined.

(** X9.  The guard of the feedback screen is dead code for a user: on no
    reachable page is the guard's restart button shown, since the
    feedback screen is only ever entered with a session that passes the
    guard.  Likewise the stop button is never drawn disabled. *)
Theorem feedback_guard_never_fires :
  forall w : World,
    playable w ->
    ~ In RestartGuard (buttons (log w))
    /\ ~ In (Button StopBtn true) (log w)
    /\ (feedback_shown (st w) = true -> feedback_refused (st w) = false).
Proof.
  intros w Hp.
  destruct (playable_sound w Hp) as [Hc _].
  split; [|split; [|now apply consistent_not_refused]].
  - destruct Hp as [|w0 c e Hp0 Hoff|w0 c e k w' Hp0 Hoff Hcut].
    + intros [].
    + unfold rerun in *.
      destruct (script_page c e (callback c (st w0)))
        as (l1 & l2 & E & F1 & F2 & _ & _).
      rewrite in_buttons. intros (d & Hin). rewrite E in Hin.
      apply in_app_or in Hin as [Hin|Hin].
      { rewrite forallb_forall in F1. specialize (F1 _ Hin). discriminate. }
      apply in_app_or in Hin as [Hin|Hin].
      { rewrite forallb_forall in F2. specialize (F2 _ Hin). discriminate. }
      apply closing_log_buttons in Hin
        as (_ & [[H _]|[[H _]|[(_ & Hf & Hr)|[H _]]]]); try discriminate.
      rewrite (consistent_not_refused _ Hc Hf) in Hr. discriminate.
    + destruct (cut_turn_inv _ _ _ _ Hcut)
        as (_ & _ & _ & p & _ & _ & _ & (l & El & Fl) & _).
      cbn [log app] in El.
      rewrite in_buttons. intros (d & Hin). rewrite El in Hin.
      rewrite forallb_forall in Fl. specialize (Fl _ Hin). discriminate Fl.
  - destruct Hp as [|w0 c e Hp0 Hoff|w0 c e k w' Hp0 Hoff Hcut].
    + intros [].
    + destruct (playable_sound w0 Hp0) as [Hc0 Hs0].
      pose proof (callback_consistent c w0 Hc0 Hs0 Hoff) as Hcc.
      unfold rerun in *.
      destruct (script_page c e (callback c (st w0)))
        as (l1 & l2 & E & F1 & F2 & _ & H2).
      intros Hin. rewrite E in Hin.
      apply in_app_or in Hin as [Hin|Hin].
      { rewrite forallb_forall in F1. specialize (F1 _ Hin). discriminate. }
      apply in_app_or in Hin as [Hin|Hin].
      * destruct (interviewing (callback c (st w0))) eqn:Hi.
        -- rewrite forallb_forall in F2. specialize (F2 _ Hin). cbn in F2.
           destruct (stop_requested (callback c (st w0))) eqn:Hsr;
             [|discriminate].
           destruct (interviewing_inv _ Hi) as (_ & _ & Hch).
           destruct Hcc as (_ & C2 & _). rewrite (C2 Hsr) in Hch.
           discriminate.
        -- rewrite (H2 eq_refl) in Hin. destruct Hin.
      * apply closing_log_buttons in Hin as (Hd & _). discriminate.
    + destruct (cut_turn_inv _ _ _ _ Hcut)
        as (_ & _ & _ & p & _ & _ & _ & (l & El & Fl) & _).
      cbn [log app] in El.
      intros Hin. rewrite El in Hin.
      rewrite forallb_forall in Fl. specialize (Fl _ Hin). discriminate Fl.
Qed.

Lemma feedback_guard_never_fires_witness :
  let w := rerun (Some StartBtn) quiet (st (rerun None quiet defaults)) in
  ~ In RestartGuard (buttons (log w))
  /\ ~ In (Button StopBtn true) (log w)
  /\ (feedback_shown (st w) = true -> feedback_refused (st w) = false).
Proof.
  intros w. apply feedback_guard_never_fires. unfold w.
  apply play_step; [|reflexivity].
  apply (play_step {| st := defaults; log := [] |} None quiet play_open).
  reflexivity.
Defined.

Lemma whole_outcome_feedback_shown (s s' : SessionState) :
  whole_outcome s s' -> feedback_shown s' = feedback_shown s.
Proof.
  intros Ho.
  destruct Ho as [f Hsc|Hsc Hi|Hi|Hi|p reply Hi Hg Ht Hr];
    try reflexivity.
  - destruct (request_stop_flags (init_messages s))
      as (_ & _ & _ & _ & _ & _ & F7 & _).
    rewrite F7. apply init_messages_frame.
  - destruct (close_interview_frame (init_messages s)) as (_ & _ & C3).
    rewrite C3. apply init_messages_frame.
  - match goal with |- feedback_shown (close_interview ?x) = _ =>
      destruct (close_interview_frame x) as (_ & _ & C3); rewrite C3 end.
    cbn. apply init_messages_frame.
Qed.

Lemma flag_outcome_feedback_shown (s s' : SessionState) :
  flag_outcome s s' -> feedback_shown s' = feedback_shown s.
Proof.
  intros Ho. destruct Ho as [p t Hi Hg Ht Hr].
  match goal with |- feedback_shown (close_interview ?x) = _ =>
    destruct (close_interview_frame x) as (_ & _ & C3); rewrite C3 end.
  cbn.
  destruct (request_stop_flags (init_messages s))
    as (_ & _ & _ & _ & _ & _ & F7 & _).
  rewrite F7. apply init_messages_frame.
Qed.

(** No run of the script touches [feedback_shown]: only the callback of
    the feedback button does. *)
Lemma script_feedback_shown (c : Click) (e : Env) (s : SessionState) :
  feedback_shown (st (script c e s)) = feedback_shown s.
Proof.
  destruct (script_outcome c e s) as [Ho|[_ Ho]].
  - exact (whole_outcome_feedback_shown _ _ Ho).
  - exact (flag_outcome_feedback_shown _ _ Ho).
Qed.

Lemma phase_rank_advances (s s' : SessionState) :
  advances s s' -> phase_rank (phase s) <= phase_rank (phase s').
Proof.
  intros (A1 & A2 & A3 & _). unfold phase.
  destruct (feedback_shown s), (chat_complete s), (setup_complete s),
    (stopped_early s);
    try rewrite (A1 eq_refl); try rewrite (A2 eq_refl);
    try rewrite (A3 eq_refl);
    destruct (feedback_shown s'), (chat_complete s'), (setup_complete s'),
      (stopped_early s'); cbn; lia.
Qed.

(** X10.  Phases only move forward.  Along any rerun caused by something
    the page offers, the phase never goes back (Setup, then Interviewing,
    then Stopped or Completed, then FeedbackShown); a Stopped session
    stays Stopped, a session on the feedback screen stays there, and a
    Completed session stays Completed until feedback is requested. *)
Theorem phases_only_advance :
  forall (w : World) (c : Click) (e : Env),
    playable w -> offered c (log w) = true ->
    let s := st w in
    let s' := st (rerun c e (st w)) in
    phase_rank (phase s) <= phase_rank (phase s')
    /\ (phase s = Stopped -> phase s' = Stopped)
    /\ (phase s = FeedbackShown -> phase s' = FeedbackShown)
    /\ (phase s = Completed ->
        phase s' = Completed \/ phase s' = FeedbackShown).
Proof.
  intros w c e Hp Hoff s s'. subst s s'.
  destruct (playable_sound w Hp) as [Hc [_ Hfb]].
  pose proof (evolves_advances _ _ (step_evolves (st w) (c, e))) as Hadv.
  unfold step in Hadv. cbn [fst snd] in Hadv.
  assert (Hfs : feedback_shown (st (rerun c e (st w)))
                = feedback_shown (callback c (st w))).
  { unfold rerun. apply script_feedback_shown. }
  set (s := st w) in *. set (s' := st (rerun c e s)) in *.
  split; [now apply phase_rank_advances|].
  destruct Hadv as (A1 & A2 & A3 & A4 & A5 & A6 & A7).
  destruct Hc as (C1 & C2 & C3 & C4 & C5 & C6 & C7).
  assert (Hcb : feedback_shown (callback c s) = true ->
                feedback_shown s = true \/ feedback_eligible s = true).
  { destruct c as [[]|]; cbn [callback]; auto.
    - destruct (request_stop_flags s) as (_ & _ & _ & _ & _ & _ & F7 & _).
      rewrite F7. auto.
    - intros _. right. apply Hfb. now apply offered_button. }
  unfold phase.
  split; [|split].
  - destruct (feedback_shown s) eqn:E1; [discriminate|].
    destruct (chat_complete s) eqn:E2; [|destruct (setup_complete s); discriminate].
    destruct (stopped_early s) eqn:E3; [|discriminate].
    intros _. rewrite (A3 eq_refl), (A5 eq_refl).
    destruct (feedback_shown s') eqn:E4; [|reflexivity].
    symmetry in Hfs. destruct (Hcb Hfs) as [H|H]; [discriminate|].
    unfold feedback_eligible in H. rewrite E2, E1, E3 in H. discriminate.
  - destruct (feedback_shown s) eqn:E1.
    + intros _. now rewrite (A2 eq_refl).
    + destruct (chat_complete s); [destruct (stopped_early s)|
                                   destruct (setup_complete s)]; discriminate.
  - destruct (feedback_shown s) eqn:E1; [discriminate|].
    destruct (chat_complete s) eqn:E2; [|destruct (setup_complete s); discriminate].
    destruct (stopped_early s) eqn:E3; [discriminate|].
    intros _. rewrite (A3 eq_refl).
    destruct (feedback_shown s'); [now right|left].
    destruct (stopped_early s') eqn:E4; [|reflexivity].
    exfalso. destruct (A7 eq_refl) as [H|H]; [discriminate|].
    destruct (C3 eq_refl) as (_ & [Hs|Hn]); [|lia].
    specialize (C4 Hs eq_refl). lia.
Qed.

Lemma phases_only_advance_witness :
  let w := rerun (Some StartBtn) quiet (st (rerun None quiet defaults)) in
  let s' := st (rerun (Some StopBtn) quiet (st w)) in
  phase (st w) = Interviewing /\ phase s' = Stopped
  /\ phase_rank (phase (st w)) <= phase_rank (phase s').
Proof.
  intros w s'. split; [reflexivity|]. split; [reflexivity|].
  refine (proj1 (phases_only_advance w (Some StopBtn) quiet _ eq_refl)).
  unfold w. apply play_step; [|reflexivity].
  apply (play_step {| st := defaults; log := [] |} None quiet play_open).
  reflexivity.
Defined.

(** ** Calls to the remote services *)

Lemma filter_none {A : Type} (f : A -> bool) (l : list A) :
  (forall x, In x l -> f x = false) -> filter f l = [].
Proof.
  induction l as [|x l IH]; intros H; [reflexivity|]. cbn.
  rewrite (H x) by now left. apply IH. intros y Hy. apply H. now right.
Qed.

Lemma extends_calls (P : Effect -> bool) (w w' : World) :
  (forall x, P x = true -> is_call x = false) ->
  extends P w w' -> filter is_call (log w') = filter is_call (log w).
Proof.
  intros HP (l & E & F). rewrite E, filter_app.
  rewrite forallb_forall in F.
  rewrite (filter_none is_call l) by (intros x Hx; apply HP, F, Hx).
  now rewrite app_nil_r.
Qed.

(** The chat input issues no call, or the one streaming call of a turn
    whose reply gate is open. *)
Lemma chat_input_calls (e : Env) (w : World) :
  filter is_call (log (chat_input e w)) = filter is_call (log w)
  \/ exists p,
       prompt e = Some p /\ str_truthy p = true
       /\ input_gate (st w) = true
       /\ generatesReply (user_message_count (st w)) = true
       /\ filter is_call (log (chat_input e w))
          = (filter is_call (log w)
             ++ [Create (openai_model (st w))
                   (messages (st w) ++ [user_message p]) true])%list.
Proof.
  destruct (input_gate (st w)) eqn:Hg;
    [|left; now rewrite chat_input_closed].
  destruct (prompt e) as [p|] eqn:Hp.
  - destruct (str_truthy p) eqn:Ht.
    + destruct (generatesReply (user_message_count (st w))) eqn:Hr.
      * right. exists p. repeat split; try assumption.
        now apply chat_input_calls_reply.
      * left. now apply (chat_input_calls_silent e w p).
    + left. unfold chat_input. rewrite Hg, Hp, Ht. cbn [log emit].
      now rewrite filter_is_call_snoc, app_nil_r.
  - left. unfold chat_input. rewrite Hg, Hp. cbn [log emit].
    now rewrite filter_is_call_snoc, app_nil_r.
Qed.

Lemma interview_phase_calls (e : Env) (w : World) :
  filter is_call (log (interview_phase e w)) = filter is_call (log w)
  \/ (interviewing (st w) = true
      /\ opt_truthy (prompt e) = true
      /\ generatesReply (user_message_count (st w)) = true
      /\ exists ms,
           filter is_call (log (interview_phase e w))
           = (filter is_call (log w)
              ++ [Create (openai_model (st w)) ms true])%list).
Proof.
  destruct (interviewing (st w)) eqn:Hi;
    [|left; now rewrite interview_phase_skip].
  unfold interview_phase. rewrite Hi.
  set (w2 := emit (Button StopBtn _) (render_chat _)).
  assert (Hst2 : st w2 = init_messages (st w)).
  { unfold w2. cbn [st emit]. now rewrite render_chat_eq. }
  assert (Hc2 : filter is_call (log w2) = filter is_call (log w)).
  { unfold w2. rewrite render_chat_eq. cbn [st log emit modify].
    rewrite !filter_app. cbn [filter is_call].
    assert (Hb : forall ms, filter is_call (chat_bubbles ms) = []).
    { induction ms as [|m ms IH]; [reflexivity|]. cbn [chat_bubbles flat_map].
      rewrite filter_app. fold (chat_bubbles ms). rewrite IH.
      now destruct (negb _). }
    now rewrite Hb, !app_nil_r. }
  set (w3 := esc_listener e w2).
  assert (Hc3 : filter is_call (log w3) = filter is_call (log w)).
  { unfold w3. rewrite esc_listener_log, filter_is_call_snoc. cbn [is_call].
    now rewrite app_nil_r. }
  assert (Hlog : forall x, log (end_interview x) = log x).
  { intros x. unfold end_interview, when. now destruct (_ || _). }
  rewrite Hlog.
  destruct (chat_input_calls e w3) as [H|(p & Hp & Ht & Hg & Hr & H)].
  - left. now rewrite H.
  - right. split; [reflexivity|].
    assert (Hst3 : st w3 = init_messages (st w)).
    { unfold w3. destruct (esc_pressed (esc_signal e)) eqn:He.
      - exfalso. unfold w3 in Hg.
        rewrite esc_listener_stop in Hg by assumption.
        cbn [st emit modify] in Hg. unfold input_gate in Hg.
        rewrite (proj1 (request_stop_flags _)), andb_false_r in Hg.
        discriminate.
      - now rewrite esc_listener_idle. }
    destruct (init_messages_frame (st w)) as (_ & I2 & _ & _ & _ & _ & I7).
    rewrite Hst3, I2 in Hr. rewrite Hst3, I7 in H.
    split; [now rewrite Hp|]. split; [exact Hr|].
    eexists. rewrite H, Hc3. reflexivity.
Qed.

Lemma closing_log_calls (c : Click) (e : Env) (s : SessionState) :
  filter is_call (closing_log c e s)
  = if feedback_shown s && negb (feedback_refused s)
    then [Create "gpt-4o" (scoring_messages (render (messages s))) false]
    else [].
Proof.
  unfold closing_log, restart_log.
  destruct (feedback_eligible s), (stopped_before_start s),
    (feedback_shown s), (feedback_refused s),
    (clicked FeedbackBtn c), (clicked RestartEarly c),
    (clicked RestartGuard c), (clicked RestartBtn c), (scoring e);
    reflexivity.
Qed.

Lemma setup_stage_calls (c : Click) (e : Env) (w : World) :
  filter is_call (log (setup_stage c e w)) = filter is_call (log w).
Proof.
  apply (extends_calls setup_effect); [|apply setup_stage_extends].
  intros x. destruct x; cbn; congruence.
Qed.

(** X11.  A run makes at most one call to the remote service.  A scoring
    call is only made on the feedback screen of a session that passes the
    guard, with the model gpt-4o and the rendered transcript; a streaming
    call is only made in the interview, for a submitted message while the
    reply gate is open, with the model of the session. *)
Theorem one_remote_call_per_run :
  forall (c : Click) (e : Env) (s : SessionState),
    let s0 := callback c s in
    let w := rerun c e s in
    (List.length (filter is_call (log w)) <= 1)%nat
    /\ (forall m ms, In (Create m ms false) (log w) ->
          feedback_shown s0 = true /\ feedback_refused (st w) = false
          /\ m = "gpt-4o"
          /\ ms = scoring_messages (render (messages (st w))))
    /\ (forall m ms, In (Create m ms true) (log w) ->
          interviewing s0 = true /\ opt_truthy (prompt e) = true
          /\ generatesReply (user_message_count s0) = true
          /\ m = openai_model s0).
Proof.
  intros c e s s0 w. subst w. unfold rerun. fold s0.
  assert (Hfs : feedback_shown (st (script c e s0)) = feedback_shown s0).
  { apply script_feedback_shown. }
  set (w1 := setup_stage c e {| st := s0; log := [] |}).
  assert (Hlog : log (script c e s0)
                 = (log (interview_phase e w1)
                    ++ closing_log c e (st (script c e s0)))%list).
  { rewrite script_sections, closing_sections_eq. reflexivity. }
  assert (Hc1 : filter is_call (log w1) = []).
  { unfold w1. now rewrite setup_stage_calls. }
  assert (Hi1 : interviewing (st w1) = true ->
                st w1 = s0 /\ interviewing s0 = true).
  { unfold w1. destruct (setup_complete s0) eqn:Hsc.
    - rewrite setup_stage_skip by exact Hsc. auto.
    - unfold setup_stage. cbn [st]. rewrite Hsc. cbn [negb].
      rewrite st_when_emit. cbn. unfold interviewing. cbn. rewrite Hsc.
      discriminate. }
  assert (Hcalls : filter is_call (log (script c e s0))
                   = (filter is_call (log (interview_phase e w1))
                      ++ filter is_call
                           (closing_log c e (st (script c e s0))))%list).
  { now rewrite Hlog, filter_app. }
  rewrite closing_log_calls, Hfs in Hcalls.
  assert (Hin : forall x, In x (log (script c e s0)) -> is_call x = true ->
                          In x (filter is_call (log (script c e s0)))).
  { intros x Hx Hcx. apply filter_In. auto. }
  destruct (interview_phase_calls e w1) as [H|(Hi & Hp & Hr & ms0 & H)];
    rewrite H, Hc1 in Hcalls; cbn [app] in Hcalls.
  - split; [|split].
    + rewrite Hcalls. destruct (_ && _); cbn; lia.
    + intros m ms Hx. apply Hin in Hx; [|reflexivity]. rewrite Hcalls in Hx.
      destruct (feedback_shown s0) eqn:E1; [|destruct Hx].
      destruct (feedback_refused (st (script c e s0))) eqn:E2; [destruct Hx|].
      destruct Hx as [Hx|[]]. injection Hx as <- <-. auto.
    + intros m ms Hx. apply Hin in Hx; [|reflexivity]. rewrite Hcalls in Hx.
      destruct (_ && _); [destruct Hx as [Hx|[]]; discriminate | destruct Hx].
  - destruct (Hi1 Hi) as [Hst1 Hi0]. rewrite Hst1 in Hr, Hcalls.
    destruct (interviewing_inv _ Hi0) as (_ & Hf0 & _).
    rewrite Hf0 in Hcalls. cbn [andb app] in Hcalls.
    split; [|split].
    + rewrite Hcalls. cbn. lia.
    + intros m ms Hx. apply Hin in Hx; [|reflexivity]. rewrite Hcalls in Hx.
      destruct Hx as [Hx|[]]. discriminate.
    + intros m ms Hx. apply Hin in Hx; [|reflexivity]. rewrite Hcalls in Hx.
      destruct Hx as [Hx|[]]. injection Hx as <- _. auto.
Qed.

(** ** Restart *)

Lemma clicked_iff (b : ButtonId) (c : Click) :
  clicked b c = true <-> c = Some b.
Proof.
  destruct c as [b'|]; cbn; [|split; discriminate].
  destruct b, b'; cbn; split; intros H; congruence.
Qed.

Lemma in_restart_log (x : Effect) (b : ButtonId) (c : Click) :
  In x (restart_log b c) <->
  x = Button b false \/ (x = Reload /\ clicked b c = true).
Proof.
  unfold restart_log. destruct (clicked b c); cbn; split.
  - intros [H|[H|[]]]; auto.
  - intros [H|[H _]]; auto.
  - intros [H|[]]; auto.
  - intros [H|[_ H]]; [auto | discriminate].
Qed.

(** Where the closing sections put a restart button, and with it the
    reload when that button was clicked. *)
Lemma closing_log_restart (x : Effect) (c : Click) (e : Env)
  (s : SessionState) :
  x = Reload \/ (exists b, is_restart b = true /\ x = Button b false) ->
  (In x (closing_log c e s) <->
   (stopped_before_start s = true /\ In x (restart_log RestartEarly c))
   \/ (feedback_shown s = true /\ feedback_refused s = true
       /\ In x (restart_log RestartGuard c))
   \/ (feedback_shown s = true /\ feedback_refused s = false
       /\ In x (restart_log RestartBtn c))).
Proof.
  intros Hx.
  assert (Hno : forall y, y = x ->
            match y with
            | Reload => True
            | Button b false => is_restart b = true
            | _ => False
            end).
  { intros y ->. destruct Hx as [->|(b & Hb & ->)]; [exact I | exact Hb]. }
  unfold closing_log. rewrite !in_app_iff.
  set (R1 := restart_log RestartEarly c).
  set (R2 := restart_log RestartGuard c).
  set (R3 := restart_log RestartBtn c).
  split.
  - intros [H|[H|H]].
    + exfalso. destruct (feedback_eligible s); [|destruct H].
      destruct H as [H|H]; [apply Hno in H; discriminate H|].
      destruct (clicked FeedbackBtn c); [|destruct H].
      destruct H as [H|[]]. apply Hno in H. exact H.
    + destruct (stopped_before_start s); [|destruct H].
      destruct H as [H|H]; [apply Hno in H; destruct H|]. auto.
    + destruct (feedback_shown s).
      * destruct (feedback_refused s).
        -- destruct H as [H|H]; [apply Hno in H; destruct H|]. auto.
        -- apply in_app_or in H as [H|H].
           { exfalso. cbn in H.
             destruct H as [H|[H|[H|[H|[]]]]]; apply Hno in H;
               try exact H. destruct (scoring e); exact H. }
           apply in_app_or in H as [H|H]; [auto 10|].
           destruct H as [H|[]]. apply Hno in H. destruct H.
      * destruct H as [H|[]]. apply Hno in H. destruct H.
  - intros [[H1 H]|[(H1 & H2 & H)|(H1 & H2 & H)]].
    + right. left. rewrite H1. now right.
    + right. right. rewrite H1, H2. now right.
    + right. right. rewrite H1, H2. apply in_or_app. right.
      apply in_or_app. now left.
Qed.

Lemma closing_log_reload (c : Click) (e : Env) (s : SessionState) :
  In Reload (closing_log c e s) <->
  exists b, is_restart b = true /\ c = Some b
            /\ In (Button b false) (closing_log c e s).
Proof.
  assert (Hr : forall B, In Reload (restart_log B c) -> c = Some B).
  { intros B H. apply in_restart_log in H as [H|[_ H]]; [discriminate|].
    now apply clicked_iff. }
  assert (Hb : forall B, In (Button B false) (restart_log B c)).
  { intros B. apply in_restart_log. now left. }
  assert (Hk : forall b B, c = Some b -> In (Button b false) (restart_log B c) ->
                           b = B /\ In Reload (restart_log B c)).
  { intros b B Hc H. apply in_restart_log in H as [H|[H _]]; [|discriminate].
    injection H as ->. split; [reflexivity|].
    apply in_restart_log. right. split; [reflexivity|].
    now apply clicked_iff. }
  split.
  - intros H. apply closing_log_restart in H; [|now left].
    destruct H as [[H1 H]|[(H1 & H2 & H)|(H1 & H2 & H)]].
    + exists RestartEarly. split; [reflexivity|]. split; [now apply Hr|].
      apply closing_log_restart; [right; now exists RestartEarly|]. auto.
    + exists RestartGuard. split; [reflexivity|]. split; [now apply Hr|].
      apply closing_log_restart; [right; now exists RestartGuard|]. auto 10.
    + exists RestartBtn. split; [reflexivity|]. split; [now apply Hr|].
      apply closing_log_restart; [right; now exists RestartBtn|]. auto 10.
  - intros (b & Hrb & Hc & H).
    apply closing_log_restart in H; [|right; now exists b].
    apply closing_log_restart; [now left|].
    destruct H as [[H1 H]|[(H1 & H2 & H)|(H1 & H2 & H)]];
      destruct (Hk _ _ Hc H) as [_ Hre]; auto 10.
Qed.

Lemma script_state_click (c c' : Click) (e : Env) (s : SessionState) :
  st (script c e s) = st (script c' e s).
Proof.
  rewrite !script_state. destruct (setup_complete s) eqn:Hsc.
  - now rewrite !setup_stage_skip by exact Hsc.
  - assert (H : forall k, st (setup_stage k e {| st := s; log := [] |})
                          = set_form (form e) s).
    { intros k. unfold setup_stage. cbn [st]. rewrite Hsc. cbn [negb].
      now rewrite st_when_emit. }
    rewrite !interview_phase_skip;
      try (rewrite H; unfold interviewing; cbn; now rewrite Hsc).
    now rewrite !H.
Qed.

(** X12.  A run asks the browser to reload exactly when a restart button
    was clicked and that button is on the page the run draws.  The click
    itself does nothing to the session: the run ends in the state it
    would have ended in without it. *)
Theorem reload_only_on_restart :
  forall (c : Click) (e : Env) (s : SessionState),
    let w := rerun c e s in
    (In Reload (log w) <->
     exists b, is_restart b = true /\ c = Some b
               /\ In (Button b false) (log w))
    /\ (forall b, is_restart b = true -> c = Some b ->
          st w = st (rerun None e s)).
Proof.
  intros c e s w. subst w. split.
  - unfold rerun.
    destruct (script_page c e (callback c s))
      as (l1 & l2 & E & F1 & F2 & _ & _).
    rewrite forallb_forall in F1, F2. rewrite E. split.
    + intros Hin.
      apply in_app_or in Hin as [Hin|Hin];
        [specialize (F1 _ Hin); discriminate F1|].
      apply in_app_or in Hin as [Hin|Hin];
        [specialize (F2 _ Hin); discriminate F2|].
      apply closing_log_reload in Hin as (b & Hb & Hc & Hin).
      exists b. split; [exact Hb|]. split; [exact Hc|].
      apply in_or_app. right. apply in_or_app. right. exact Hin.
    + intros (b & Hb & Hc & Hin).
      apply in_or_app. right. apply in_or_app. right.
      apply closing_log_reload. exists b.
      split; [exact Hb|]. split; [exact Hc|].
      apply in_app_or in Hin as [Hin|Hin].
      { specialize (F1 _ Hin).
        destruct b; first [discriminate Hb | discriminate F1]. }
      apply in_app_or in Hin as [Hin|Hin]; [|exact Hin].
      specialize (F2 _ Hin).
      destruct b; first [discriminate Hb | discriminate F2].
  - intros b Hb ->. unfold rerun.
    replace (callback (Some b) s) with (callback None s)
      by (destruct b; first [discriminate Hb | reflexivity]).
    apply script_state_click.
Qed.

(** ** The ESC probe *)

Lemma esc_pressed_iff (r : JsResult) :
  esc_pressed r = true <-> exists a, r = JsList [a; "STOP_REQUESTED"].
Proof.
  split.
  - destruct r as [| |[|a [|flag [|x l]]]]; cbn; try discriminate.
    intros H. apply String.eqb_eq in H. subst. now exists a.
  - intros [a ->]. reflexivity.
Qed.

Lemma interview_phase_with_esc (r : JsResult) (e : Env) (w : World) :
  esc_pressed (esc_signal e) = false -> esc_pressed r = false ->
  interview_phase (with_esc r e) w = interview_phase e w.
Proof.
  intros He Hr. unfold interview_phase.
  destruct (interviewing (st w)); [|reflexivity].
  rewrite (esc_listener_idle (with_esc r e)) by exact Hr.
  rewrite (esc_listener_idle e) by exact He.
  reflexivity.
Qed.

(** X13.  The ESC probe stops the interview only when it returns a list
    of exactly two items whose second is STOP_REQUESTED.  Any other
    answer, and a probe that raises, are all the same to the script: the
    run is the one it would have been with no key pressed. *)
Theorem esc_probe_counts_only_when_it_reports_the_key :
  forall (c : Click) (e : Env) (s : SessionState) (r : JsResult),
    (esc_pressed r = true <-> exists a, r = JsList [a; "STOP_REQUESTED"])
    /\ (esc_pressed (esc_signal e) = false -> esc_pressed r = false ->
        script c (with_esc r e) s = script c e s).
Proof.
  intros c e s r. split; [apply esc_pressed_iff|].
  intros He Hr. rewrite !script_sections.
  change (setup_stage c (with_esc r e)) with (setup_stage c e).
  rewrite interview_phase_with_esc by assumption.
  reflexivity.
Qed.

Lemma esc_probe_counts_only_when_it_reports_the_key_witness :
  script None (with_esc JsRaises (say "hi" hello_world)) (interview_at 0 [])
  = script None (say "hi" hello_world) (interview_at 0 [])
  /\ script None (with_esc (JsList ["OK"; "STOP_REQUESTED"; "x"]) quiet)
       (interview_at 0 [])
     = script None quiet (interview_at 0 []).
Proof.
  split.
  - exact (proj2 (esc_probe_counts_only_when_it_reports_the_key
                    None (say "hi" hello_world) (interview_at 0 []) JsRaises)
             eq_refl eq_refl).
  - exact (proj2 (esc_probe_counts_only_when_it_reports_the_key
                    None quiet (interview_at 0 [])
                    (JsList ["OK"; "STOP_REQUESTED"; "x"]))
             eq_refl eq_refl).
Defined.

(** ** What the chat shows *)

Lemma chat_bubbles_no_system (ms : list Message) :
  Forall (fun x => role x <> "system") ms -> chat_bubbles ms = map bubble ms.
Proof.
  induction 1 as [|m ms Hm _ IH]; [reflexivity|].
  cbn [chat_bubbles flat_map map]. fold (chat_bubbles ms). rewrite IH.
  apply String.eqb_neq in Hm. now rewrite Hm.
Qed.

(** X14.  The system prompt is never shown in the chat.  In every session,
    the replay of the prior chat at the top of the interview block draws
    one bubble for each message after the system message, in transcript
    order, and none of them is a system message. *)
Theorem prior_chat_hides_system_prompt :
  forall (steps : list (Click * Env)) (page : list Effect),
    let s := run_session steps defaults in
    render_chat {| st := s; log := page |}
    = {| st := s; log := (page ++ map bubble (tl (messages s)))%list |}
    /\ Forall (fun x => role x <> "system") (tl (messages s)).
Proof.
  intros steps page s.
  assert (Hwf : well_formed s).
  { apply (evolves_well_formed defaults); [|apply defaults_well_formed].
    apply run_session_evolves. }
  destruct Hwf as (Hok & _).
  rewrite render_chat_eq. cbn [st log].
  destruct (messages s) as [|m rest]; [split; [reflexivity | constructor]|].
  destruct Hok as [Hm Hrest]. cbn [tl]. split; [|exact Hrest].
  cbn [chat_bubbles flat_map]. fold (chat_bubbles rest).
  rewrite Hm. cbn. now rewrite chat_bubbles_no_system.
Qed.

(** ** A turn cut short *)

Lemma script_turn (c : Click) (e : Env) (s : SessionState) (p : string) :
  interviewing s = true -> esc_pressed (esc_signal e) = false ->
  input_gate s = true -> prompt e = Some p -> str_truthy p = true ->
  script c e s
  = closing_sections c e
      (end_interview
         (user_turn p e
            (emit ChatInput (before_input {| st := s; log := [] |})))).
Proof.
  intros Hi He Hg Hp Ht.
  destruct (interviewing_inv s Hi) as (Hsc & _ & _).
  rewrite script_sections, setup_stage_skip by exact Hsc.
  rewrite interview_phase_idle by assumption.
  rewrite (chat_input_accept e _ p); try assumption.
  - reflexivity.
  - now rewrite st_before_input, input_gate_init.
Qed.

Lemma at_turn_gate (n : Z) (s : SessionState) :
  at_turn n s -> 0 <= n < 5 ->
  interviewing s = true /\ input_gate s = true.
Proof.
  intros (Hsc & Hfs & Hsr & Hse & Hn & Hcc) Hrange.
  assert (Hcc' : chat_complete s = false).
  { rewrite Hcc, Z.geb_leb. apply Z.leb_gt. lia. }
  unfold interviewing, input_gate, acceptsInput.
  rewrite Hsc, Hfs, Hcc', Hsr, Hn. split; [reflexivity|].
  replace (n <? 5) with true; [reflexivity|]. symmetry. apply Z.ltb_lt. lia.
Qed.

(** The state a streamed turn leaves, from the text and the state the
    loop leaves. *)
Lemma streamed_turn_state (c : Click) (e : Env) (s : SessionState)
  (p : string) (evs : list StreamEvent) (n : Z) :
  at_turn n s -> 0 <= n < 4 -> esc_pressed (esc_signal e) = false ->
  prompt e = Some p -> str_truthy p = true ->
  completion e = CreateStream evs ->
  let start := reply_start p
                 (emit ChatInput (before_input {| st := s; log := [] |})) in
  let w' := loop_world evs "" start in
  stop_requested (st start) = false
  /\ st start = append_message (user_message p) (init_messages s)
  /\ st (script c e s)
     = close_interview
         (count_turn
            (append_message (assistant_message (loop_text evs "" start))
               (if stop_requested (st w')
                then set_chat_complete true (st w') else st w')))
  /\ forall x, In x (log w') -> In x (log (script c e s)).
Proof.
  intros Hat Hn He Hp Ht Hc start w'.
  destruct (at_turn_gate n s Hat ltac:(lia)) as [Hi Hg].
  destruct Hat as (Hsc & Hfs & Hsr & Hse & Hcount & Hcc).
  destruct (init_messages_frame s) as (I1 & I2 & I3 & I4 & I5 & I6 & I7).
  assert (Hst : st start = append_message (user_message p) (init_messages s)).
  { unfold start, reply_start, turn_start. cbn [st emit modify].
    now rewrite st_before_input. }
  assert (Hs0 : stop_requested (st start) = false).
  { rewrite Hst. cbn. now rewrite I5. }
  split; [exact Hs0|]. split; [exact Hst|].
  rewrite (script_turn c e s p) by assumption.
  rewrite closing_sections_eq. cbn [st log].
  rewrite st_end_interview, user_turn_eq.
  assert (Hlog : forall x, log (end_interview x) = log x).
  { intros x. unfold end_interview, when. now destruct (_ || _). }
  rewrite Hlog.
  assert (Hgen : generatesReply
                   (user_message_count
                      (st (emit ChatInput
                             (before_input {| st := s; log := [] |}))))
                 = true).
  { cbn [st emit]. rewrite st_before_input. cbn [st]. rewrite I2, Hcount.
    unfold generatesReply. apply Z.ltb_lt. lia. }
  rewrite Hgen. unfold when.
  rewrite (assistant_reply_stream p e _ evs Hc). fold start.
  rewrite stream_reply_eq. cbv zeta. fold w'.
  split.
  - destruct (stop_requested (st w')); reflexivity.
  - intros x Hx. apply in_or_app. left. cbn [log modify].
    destruct (stop_requested (st w')); cbn [log modify emit]; [|exact Hx].
    apply in_or_app. now left.
Qed.

Lemma all_chunks_map (cs : list Chunk) : all_chunks (map Yield cs) = true.
Proof. unfold all_chunks. induction cs; cbn; auto. Qed.

Lemma firstn_chunks (cs : list Chunk) (rest : list StreamEvent) :
  firstn (List.length cs) (map Yield cs ++ rest)%list = map Yield cs.
Proof.
  induction cs as [|c cs IH]; cbn; [now destruct rest | now rewrite IH].
Qed.

(** A stream that delivers chunks can be cut after any of them. *)
Lemma cut_turn_chunks (s : SessionState) (e : Env) (p : string)
  (cs : list Chunk) (rest : list StreamEvent) (n : Z) :
  at_turn n s -> 0 <= n < 4 -> esc_pressed (esc_signal e) = false ->
  prompt e = Some p -> str_truthy p = true ->
  completion e = CreateStream (map Yield cs ++ rest) ->
  cut_turn e s (List.length cs)
  = Some (loop_world (map Yield cs) ""
            (reply_start p
               (emit ChatInput (before_input {| st := s; log := [] |})))).
Proof.
  intros Hat Hn He Hp Ht Hc.
  destruct (at_turn_gate n s Hat ltac:(lia)) as [Hi Hg].
  destruct Hat as (_ & _ & _ & _ & Hcount & _).
  unfold cut_turn. rewrite Hi, He, Hg, Hp, Ht, Hc, Hcount. cbn [andb negb].
  replace (generatesReply n) with true
    by (symmetry; apply Z.ltb_lt; lia).
  now rewrite firstn_chunks, all_chunks_map.
Qed.

Lemma cut_then_stop_flags (s0 : SessionState) (u : Message) (n : Z) :
  setup_complete s0 = true -> feedback_shown s0 = false ->
  chat_complete s0 = false ->
  stopped_early s0 = false -> user_message_count s0 = n -> 0 <= n ->
  let s1 := append_message u s0 in
  let s2 := request_stop s1 in
  phase s1 = Interviewing
  /\ stop_requested s2 = true /\ chat_complete s2 = true
  /\ user_message_count s2 = n
  /\ messages s2 = (messages s0 ++ [u])%list
  /\ stopped_early s2 = (n =? 0)
  /\ phase s2 = (if n =? 0 then Stopped else Completed)
  /\ feedback_eligible s2 = negb (n =? 0).
Proof.
  intros Hsc Hfs Hcc Hse Hn Hrange.
  destruct s0 as [sc k fs cc ms nm ex sk lv ps co om sr se].
  cbn in Hsc, Hfs, Hcc, Hse, Hn. subst sc fs cc se k.
  unfold append_message, set_messages, request_stop, phase,
    feedback_eligible; cbn.
  destruct (n =? 0) eqn:E; cbn.
  - repeat split; reflexivity.
  - assert (Hpos : (n >? 0) = true).
    { apply Z.eqb_neq in E. apply Z.gtb_lt. lia. }
    rewrite Hpos. repeat split; reflexivity.
Qed.

(** X15.  A click on the stop button while the reply to a turn streams
    cuts that run short: the user message of the turn stays in the
    transcript, nothing of the reply is kept and the turn is not counted.
    The stop callback runs at the start of the next run, on that state.
    During the very first reply it finds no counted turn: the session is
    Stopped and feedback is never offered, although the transcript holds
    a user message.  During a later reply it gives Completed with
    feedback on offer, and the transcript ends with the unanswered user
    message. *)
Theorem stop_click_cuts_the_reply :
  forall (s : SessionState) (e e' : Env) (p : string)
         (cs : list Chunk) (rest : list StreamEvent) (n : Z),
    at_turn n s -> 0 <= n < 4 ->
    esc_pressed (esc_signal e) = false ->
    prompt e = Some p -> str_truthy p = true ->
    completion e = CreateStream (map Yield cs ++ rest) ->
    exists w,
      cut_turn e s (List.length cs) = Some w
      /\ In (Button StopBtn false) (log w)
      /\ (let s1 := st w in
          let s2 := st (rerun (Some StopBtn) e' s1) in
          messages s1 = (messages (init_messages s) ++ [user_message p])%list
          /\ user_message_count s1 = n
          /\ phase s1 = Interviewing
          /\ stop_requested s2 = true /\ chat_complete s2 = true
          /\ user_message_count s2 = n
          /\ messages s2
             = (messages (init_messages s) ++ [user_message p])%list
          /\ stopped_early s2 = (n =? 0)
          /\ phase s2 = (if n =? 0 then Stopped else Completed)
          /\ feedback_eligible s2 = negb (n =? 0)).
Proof.
  intros s e e' p cs rest n Hat Hn He Hp Ht Hc.
  pose proof (cut_turn_chunks s e p cs rest n Hat Hn He Hp Ht Hc) as Hcut.
  eexists. split; [exact Hcut|].
  destruct (cut_turn_inv _ _ _ _ Hcut)
    as (Hi & Hg & _ & p' & Hp' & _ & Hst & _ & Hbtn).
  assert (p' = p) by congruence. subst p'.
  split; [exact Hbtn|]. cbv zeta. rewrite Hst.
  destruct Hat as (Hsc & Hfs & Hsr & Hse & Hcount & Hcc).
  destruct (interviewing_inv s Hi) as (_ & _ & Hch).
  destruct (init_messages_frame s) as (I1 & I2 & I3 & I4 & I5 & I6 & I7).
  set (s0 := init_messages s) in *.
  destruct (cut_then_stop_flags s0 (user_message p) n)
    as (P1 & F1 & F2 & F3 & F4 & F5 & F6 & F7); try congruence; [lia|].
  assert (Hrun : st (rerun (Some StopBtn) e' (append_message (user_message p) s0))
                 = request_stop (append_message (user_message p) s0)).
  { unfold rerun. cbn [callback].
    rewrite script_after_interview, closing_sections_eq.
    - reflexivity.
    - destruct (request_stop_flags (append_message (user_message p) s0))
        as (_ & _ & _ & _ & _ & R6 & _).
      rewrite R6. cbn. congruence.
    - right. exact F2. }
  rewrite Hrun.
  split; [reflexivity|]. split; [cbn; congruence|]. split; [exact P1|].
  split; [exact F1|]. split; [exact F2|]. split; [exact F3|].
  split; [exact F4|]. split; [exact F5|]. split; [exact F6 | exact F7].
Qed.

(** The first answer is cut short after one chunk of the reply, and the
    stop click that cut it is handled by the next run. *)
Lemma stop_click_cuts_the_reply_witness :
  exists w,
    cut_turn (say "hi" hello_world) (interview_at 0 [brief]) 1 = Some w
    /\ In (Button StopBtn false) (log w)
    /\ (let s1 := st w in
        let s2 := st (rerun (Some StopBtn) quiet s1) in
        messages s1 = (messages (init_messages (interview_at 0 [brief]))
                       ++ [user_message "hi"])%list
        /\ user_message_count s1 = 0
        /\ phase s1 = Interviewing
        /\ stop_requested s2 = true /\ chat_complete s2 = true
        /\ user_message_count s2 = 0
        /\ messages s2
           = (messages (init_messages (interview_at 0 [brief]))
              ++ [user_message "hi"])%list
        /\ stopped_early s2 = true
        /\ phase s2 = Stopped
        /\ feedback_eligible s2 = false).
Proof.
  apply (stop_click_cuts_the_reply (interview_at 0 [brief])
           (say "hi" hello_world) quiet "hi"
           [[Some "Hel"]] [text "lo "; text "world"] 0);
    try reflexivity; [repeat split | lia].
Defined.

Lemma failed_turn_flags (s1 : SessionState) (u a : Message) (n : Z) :
  at_turn n s1 -> 0 <= n < 4 ->
  let s' := close_interview
              (count_turn (append_message a (append_message u s1))) in
  at_turn (n + 1) s' /\ phase s' = Interviewing
  /\ messages s' = (messages s1 ++ [u; a])%list.
Proof.
  intros (Hsc & Hfs & Hsr & Hse & Hn & Hcc) Hrange.
  assert (Hge : (n >=? 5) = false) by (rewrite Z.geb_leb; apply Z.leb_gt; lia).
  assert (Hge1 : (n + 1 >=? 5) = false)
    by (rewrite Z.geb_leb; apply Z.leb_gt; lia).
  rewrite Hge in Hcc.
  destruct s1 as [sc k fs cc ms nm ex sk lv ps co om sr se].
  cbn in Hsc, Hfs, Hsr, Hse, Hn, Hcc. subst sc fs sr se k cc.
  unfold close_interview, count_turn, append_message, set_messages, at_turn,
    phase; cbn.
  rewrite Hge1. cbn. rewrite ?Hge1, <- app_assoc. repeat split; reflexivity.
Qed.

(** X16.  When the stream raises in the middle of a reply, the error is
    shown as a notice, the text received before the failure is kept as
    the assistant message, the turn is counted, and the interview goes
    on: the session is still in the interview phase with no stop
    requested. *)
Theorem stream_failure_keeps_interview_going :
  forall (s : SessionState) (c : Click) (e : Env) (p err : string)
         (cs : list Chunk) (rest : list StreamEvent) (n : Z),
    at_turn n s -> 0 <= n < 4 ->
    esc_pressed (esc_signal e) = false ->
    prompt e = Some p -> str_truthy p = true ->
    completion e = CreateStream (map Yield cs ++ Raise err :: rest) ->
    let w := script c e s in
    In (Error ("Assistant streaming failed: " ++ err)) (log w)
    /\ at_turn (n + 1) (st w)
    /\ phase (st w) = Interviewing
    /\ messages (st w)
       = (messages (init_messages s)
          ++ [user_message p; assistant_message (chunks_text cs)])%list.
Proof.
  intros s c e p err cs rest n Hat Hn He Hp Ht Hc w. subst w.
  destruct (streamed_turn_state c e s p _ n Hat Hn He Hp Ht Hc)
    as (Hs0 & Hst & Hfinal & Hlog).
  set (start := reply_start p _) in *.
  destruct (stream_loop_yields cs (Raise err :: rest) "" start Hs0)
    as (w1 & Hw1 & E1).
  unfold loop_text, loop_world in *.
  rewrite E1 in Hfinal, Hlog. cbn [stream_loop fst snd] in Hfinal, Hlog.
  cbn [st emit] in Hfinal. rewrite Hw1, Hs0, Hst in Hfinal.
  split.
  { apply Hlog. cbn [log emit]. apply in_or_app. right. now left. }
  rewrite Hfinal.
  assert (Hat1 : at_turn n (init_messages s)).
  { destruct Hat as (Hsc & Hfs & Hsr & Hse & Hcount & Hcc).
    destruct (init_messages_frame s) as (I1 & I2 & I3 & I4 & I5 & I6 & I7).
    unfold at_turn. repeat split; congruence. }
  apply failed_turn_flags; assumption.
Qed.

Lemma stream_failure_keeps_interview_going_witness :
  let w := script None (say "hi" [text "Hel"; Raise "reset"; text "lo "])
             (interview_at 0 [brief]) in
  In (Error "Assistant streaming failed: reset") (log w)
  /\ at_turn 1 (st w)
  /\ phase (st w) = Interviewing
  /\ messages (st w)
     = [brief; user_message "hi"; assistant_message "Hel"].
Proof.
  apply (stream_failure_keeps_interview_going (interview_at 0 [brief]) None
           (say "hi" [text "Hel"; Raise "reset"; text "lo "]) "hi" "reset"
           [[Some "Hel"]] [text "lo "] 0);
    try reflexivity; [repeat split | lia].
Defined.

(** ** From setup to interview *)

Lemma setup_run (c : Click) (e : Env) (s : SessionState) :
  setup_complete s = false ->
  st (script c e s) = set_form (form e) s
  /\ In (Button StartBtn false) (log (script c e s)).
Proof.
  intros Hsc.
  assert (Hst : st (setup_stage c e {| st := s; log := [] |})
                = set_form (form e) s).
  { unfold setup_stage. cbn [st]. rewrite Hsc. cbn [negb].
    now rewrite st_when_emit. }
  assert (Hi : interviewing (st (setup_stage c e {| st := s; log := [] |}))
               = false).
  { rewrite Hst. unfold interviewing. cbn. now rewrite Hsc. }
  split.
  - now rewrite script_state, interview_phase_skip.
  - rewrite script_sections, closing_sections_eq, interview_phase_skip
      by exact Hi.
    cbn [log]. apply in_or_app. left.
    unfold setup_stage. cbn [st]. rewrite Hsc. cbn [negb].
    unfold when. destruct (clicked StartBtn c); cbn; auto.
Qed.

(** X17.  While setup is incomplete a run stores the values of the form
    in the session and offers the start button.  Pressing it starts the
    interview on the profile stored by the previous run: the setup stage
    is skipped on that run, the transcript becomes the single system
    message built from the stored name, experience, skills, level,
    position and company, and the page offers the chat input and the
    stop button. *)
Theorem interview_starts_from_stored_profile :
  forall (s : SessionState) (c : Click) (e0 e : Env),
    setup_complete s = false -> feedback_shown s = false ->
    chat_complete s = false -> stop_requested s = false ->
    messages s = [] -> user_message_count s < 5 ->
    esc_pressed (esc_signal e) = false -> prompt e = None ->
    let w1 := script c e0 s in
    let w2 := rerun (Some StartBtn) e (st w1) in
    st w1 = set_form (form e0) s
    /\ In (Button StartBtn false) (log w1)
    /\ messages (st w2)
       = [ {| role := "system"; content := prompt_of_form (form e0) |} ]
    /\ profile_of (st w2) = form e0
    /\ phase (st w2) = Interviewing
    /\ In ChatInput (log w2)
    /\ In (Button StopBtn false) (log w2).
Proof.
  intros s c e0 e Hsc Hfs Hcc Hsr Hms Hn He Hp w1 w2. subst w1 w2.
  destruct (setup_run c e0 s Hsc) as [Hst Hbtn].
  split; [exact Hst|]. split; [exact Hbtn|].
  rewrite Hst. unfold rerun, callback.
  set (s2 := complete_setup (set_form (form e0) s)).
  assert (Hi : interviewing s2 = true).
  { unfold interviewing, s2. cbn. now rewrite Hfs, Hcc. }
  assert (Hinit : init_messages s2
                  = set_messages
                      [ {| role := "system";
                           content := prompt_of_form (form e0) |} ] s2).
  { unfold init_messages, s2. cbn. rewrite Hms.
    unfold system_prompt, prompt_of_form. cbn.
    now destruct (form e0). }
  rewrite script_sections, setup_stage_skip by reflexivity.
  rewrite interview_phase_idle by assumption.
  set (w0 := before_input {| st := s2; log := [] |}).
  assert (Hw0 : st w0 = init_messages s2) by apply st_before_input.
  assert (Hg : input_gate (st w0) = true).
  { rewrite Hw0, input_gate_init. unfold input_gate, acceptsInput, s2. cbn.
    rewrite Hsr. replace (user_message_count s <? 5) with true; [reflexivity|].
    symmetry. now apply Z.ltb_lt. }
  assert (Hchat : chat_input e w0 = emit ChatInput w0).
  { unfold chat_input. now rewrite Hg, Hp. }
  rewrite Hchat.
  rewrite end_interview_idle;
    [|cbn [st emit]; rewrite Hw0, Hinit; exact Hn
     |cbn [st emit]; rewrite Hw0, Hinit; exact Hsr].
  rewrite closing_sections_interviewing;
    [|cbn [st emit]; rewrite Hw0, Hinit; exact Hcc
     |cbn [st emit]; rewrite Hw0, Hinit; exact Hfs].
  cbn [st emit log]. rewrite Hw0, Hinit.
  split; [reflexivity|].
  split; [unfold profile_of, s2; cbn; now destruct (form e0)|].
  split; [unfold phase, s2; cbn; now rewrite Hfs, Hcc|].
  split.
  - apply in_or_app. left. apply in_or_app. right. now left.
  - apply in_or_app. left. apply in_or_app. left.
    unfold w0, before_input. cbn [log emit].
    apply in_or_app. left. apply in_or_app. right.
    rewrite render_chat_eq. cbn [st modify emit].
    destruct (init_messages_frame s2) as (_ & _ & _ & _ & I5 & _).
    rewrite I5. unfold s2. cbn. rewrite Hsr. now left.
Qed.

Lemma interview_starts_from_stored_profile_witness :
  let w1 := script None quiet defaults in
  let w2 := rerun (Some StartBtn) quiet (st w1) in
  st w1 = set_form (form quiet) defaults
  /\ In (Button StartBtn false) (log w1)
  /\ messages (st w2)
     = [ {| role := "system"; content := prompt_of_form (form quiet) |} ]
  /\ profile_of (st w2) = form quiet
  /\ phase (st w2) = Interviewing
  /\ In ChatInput (log w2)
  /\ In (Button StopBtn false) (log w2).
Proof.
  apply (interview_starts_from_stored_profile defaults None quiet quiet);
    reflexivity.
Defined.

(** ** After the interview *)

Lemma step_after_interview (s : SessionState) (ce : Click * Env) :
  chat_complete s = true ->
  chat_complete (step s ce) = true
  /\ messages (step s ce) = messages s
  /\ user_message_count (step s ce) = user_message_count s.
Proof.
  intros Hcc. destruct ce as [c e]. unfold step, rerun. cbn [fst snd].
  assert (Hcb : chat_complete (callback c s) = true
                /\ messages (callback c s) = messages s
                /\ user_message_count (callback c s) = user_message_count s).
  { destruct c as [[]|]; cbn [callback]; auto.
    destruct (request_stop_flags s) as (_ & F2 & _ & F4 & F5 & _). auto. }
  destruct Hcb as (H1 & H2 & H3). rewrite <- H2, <- H3.
  assert (Hni : interviewing (callback c s) = false).
  { unfold interviewing. rewrite H1. now rewrite andb_false_r. }
  destruct (script_outcome c e (callback c s))
    as [[f Hsc|Hsc Hi|Hi|Hi|p reply Hi Hg Ht Hr]|[_ [p t Hi Hg Ht Hr]]];
    try congruence; auto.
Qed.

(** X18.  Once the chat is complete, by a stop or by the fifth turn, the
    transcript and the turn count are frozen: no later rerun, whatever is
    clicked or typed, adds a message or counts a turn, and the chat stays
    complete.  So the transcript that is scored is the one that is
    exported. *)
Theorem transcript_frozen_after_interview :
  forall (s : SessionState) (later : list (Click * Env)),
    chat_complete s = true ->
    let s' := run_session later s in
    chat_complete s' = true
    /\ messages s' = messages s
    /\ user_message_count s' = user_message_count s.
Proof.
  intros s later. revert s. unfold run_session.
  induction later as [|ce later IH]; intros s Hcc; cbn; [auto|].
  destruct (step_after_interview s ce Hcc) as (H1 & H2 & H3).
  destruct (IH _ H1) as (J1 & J2 & J3). repeat split; congruence.
Qed.

Lemma transcript_frozen_after_interview_witness :
  let s := request_stop (interview_at 1 [brief; user_message "hi"]) in
  let s' := run_session [(None, say "more" hello_world);
                         (Some FeedbackBtn, quiet)] s in
  chat_complete s' = true
  /\ messages s' = messages s
  /\ user_message_count s' = user_message_count s.
Proof.
  apply (transcript_frozen_after_interview
           (request_stop (interview_at 1 [brief; user_message "hi"]))
           [(None, say "more" hello_world); (Some FeedbackBtn, quiet)]).
  reflexivity.
Defined.

(** ** Sessions in which runs are cut short *)

Lemma run_one_after_interview (s : SessionState) (r : Rerun) :
  chat_complete s = true ->
  chat_complete (st (run_one s r)) = true
  /\ messages (st (run_one s r)) = messages s
  /\ user_message_count (st (run_one s r)) = user_message_count s.
Proof.
  intros Hcc.
  assert (Hw : forall c e,
            chat_complete (st (rerun c e s)) = true
            /\ messages (st (rerun c e s)) = messages s
            /\ user_message_count (st (rerun c e s)) = user_message_count s).
  { intros c e. exact (step_after_interview s (c, e) Hcc). }
  destruct r as [c e|c e k]; cbn [run_one]; [apply Hw|].
  destruct (cut_turn e (callback c s) k) as [w|] eqn:Hcut; [|apply Hw].
  exfalso.
  destruct (cut_turn_inv _ _ _ _ Hcut) as (Hi & _).
  destruct (interviewing_inv _ Hi) as (_ & _ & Hch).
  pose proof (evolves_advances _ _ (callback_evolves c s))
    as (_ & _ & A3 & _).
  rewrite (A3 Hcc) in Hch. discriminate Hch.
Qed.

(** X19.  What holds from run to run also holds when runs are cut short
    by a click while a reply streams: across any such session the flags
    only rise and the turn count only grows, the transcript keeps its
    shape and is only ever appended to, the profile and the model are
    fixed once setup is complete, and once the chat is complete neither
    the transcript nor the turn count changes. *)
Theorem cut_runs_keep_the_session_sound :
  forall (rs : list Rerun) (s : SessionState),
    let s' := run_all rs s in
    advances s s'
    /\ (well_formed s -> well_formed s')
    /\ (exists l, messages s' = (messages s ++ l)%list)
    /\ (setup_complete s = true ->
        profile_of s' = profile_of s /\ openai_model s' = openai_model s)
    /\ (chat_complete s = true ->
        chat_complete s' = true /\ messages s' = messages s
        /\ user_message_count s' = user_message_count s).
Proof.
  intros rs s s'. subst s'.
  pose proof (run_all_evolves rs s) as Hev.
  split; [exact (evolves_advances _ _ Hev)|].
  split; [exact (evolves_well_formed _ _ Hev)|].
  split; [exact (evolves_appends _ _ Hev)|].
  split.
  { intros Hsc. destruct (evolves_profile _ _ Hev Hsc) as (_ & P & M).
    now split. }
  clear Hev. revert s. unfold run_all.
  induction rs as [|r rs IH]; intros s Hcc; cbn [fold_left].
  - repeat split; [exact Hcc].
  - destruct (run_one_after_interview s r Hcc) as (H1 & H2 & H3).
    destruct (IH _ H1) as (J1 & J2 & J3).
    split; [exact J1|]. split; congruence.
Qed.
